(** * Bed-occupancy forecasting and decision engine

    A shallow embedding of the forecasting core of the hospital bed
    prediction backend: [backend/app/routers/predictions.py] (admin
    surface) and [backend/app/routers/public.py] (patient surface).

    Conventions of the embedding.
    - Python [int] is [Z]; Python [float] is an exact rational [Q]
      (floating-point rounding error is not modelled; equality of floats
      is [Qeq], written [==]).  [round] resolves ties to the even
      neighbour, as Python 3 does on exactly representable values.
      Two consequences are kept in view.  [round(x, 1)] of a float
      product can differ from the rounding of the exact product when the
      exact product is a decimal tie ([round((23 / 80) * 100, 1)] is 28.7
      in Python, the exact 28.75 rounds to 28.8): of a reported
      percentage the theorems state the range, the tier and its relation
      to the other fields of the same response, not the decimal.  And
      [Q] holds finite numbers only: what the code does on NaN and on
      the infinities is stated on [Py.float], which adds them.
    - [None] is [None] of an [option]; a dict key that may be absent is an
      [option] field.
    - A calendar date is its day ordinal in [Z]; [d + timedelta(days=o)]
      is [d + o]; [isoformat] is injective and a date string is
      represented by the date it prints.  The forecasters are given a
      second time with the calendar's end ([Py.add_days], which raises
      past 9999-12-31), and are proved equal to the first inside the
      calendar.
    - Code that may raise runs in the [Py.result] monad; an exception
      that leaves an endpoint is the error response the caller sees.
    - [prediction_service] (the Prophet model and its alert generator)
      is not part of the two routers: it is a pair of Section variables,
      each a function that may raise. *)

From Stdlib Require Import ZArith QArith Qround Qminmax List String Bool.
From Stdlib Require Import Lia Lqa Permutation Sorted.
Import ListNotations.
Open Scope Z_scope.

(** ** Python primitives used by the two routers *)

Module Py.

Inductive exn : Type :=
| ZeroDivisionError
| TypeError
| IndexError
| KeyError
| ValueError
| OverflowError
| ServiceError (msg : string)
| HTTPException (status_code : Z).

Inductive result (A : Type) : Type :=
| Ok (a : A)
| Raise (e : exn).

Arguments Ok {A} a.
Arguments Raise {A} e.

Definition bind {A B : Type} (c : result A) (k : A -> result B) : result B :=
  match c with
  | Ok a => k a
  | Raise e => Raise e
  end.

(** [try: body  except Exception: handler] *)
Definition try_except {A : Type} (body : result A) (handler : exn -> result A)
  : result A :=
  match body with
  | Ok a => Ok a
  | Raise e => handler e
  end.

(** [value or 0] on an optional number *)
Definition or0 (v : option Q) : Q :=
  match v with Some q => q | None => 0%Q end.

(** An optional [int] seen as an optional number *)
Definition of_int (v : option Z) : option Q := option_map inject_Z v.

(** [d[key]] on a key that may be absent *)
Definition item {A : Type} (v : option A) : result A :=
  match v with Some a => Ok a | None => Raise KeyError end.

(** [int(x)]: truncation toward zero *)
Definition int (x : Q) : Z := Z.quot (Qnum x) (Zpos (Qden x)).

(** A Python [float]: a finite number, an infinity, or NaN *)
Inductive float : Type :=
| Finite (q : Q)
| Infinity (negative : bool)
| NaN.

(** [value or 0] on an optional float; NaN and the infinities are truthy *)
Definition or0_float (v : option float) : float :=
  match v with Some x => x | None => Finite 0 end.

(** [int(x)] on a float: [ValueError] on NaN, [OverflowError] on an
    infinity *)
Definition int_float (x : float) : result Z :=
  match x with
  | Finite q => Ok (int q)
  | Infinity _ => Raise OverflowError
  | NaN => Raise ValueError
  end.

(** [datetime.date] by its ordinal: 1 is 0001-01-01 ([date.min]) and
    3652059 is 9999-12-31 ([date.max]) *)
Definition date_min : Z := 1.
Definition date_max : Z := 3652059.

(** [d + timedelta(days=n)]: [OverflowError] when [n] is no [timedelta]
    (more than 999999999 days) or the sum leaves the calendar *)
Definition add_days (d n : Z) : result Z :=
  if (Z.abs n <=? 999999999) && (date_min <=? d + n) && (d + n <=? date_max)
  then Ok (d + n)
  else Raise OverflowError.

(** [round(x)]: nearest integer, ties to the even one *)
Definition round (x : Q) : Z :=
  let f := Qfloor x in
  match (x - inject_Z f ?= 1 # 2)%Q with
  | Lt => f
  | Gt => f + 1
  | Eq => if Z.even f then f else f + 1
  end.

(** [round(x, 1)], on the exact number (see the conventions above for a
    float that is a decimal tie) *)
Definition round1 (x : Q) : Q := (inject_Z (round (x * 10)) / 10)%Q.

(** [a / b] *)
Definition truediv (a b : Q) : result Q :=
  if Qeq_bool b 0 then Raise ZeroDivisionError else Ok (a / b)%Q.

(** [range(lo, hi)] *)
Definition range (lo hi : Z) : list Z :=
  map (fun k => lo + Z.of_nat k) (seq 0 (Z.to_nat (hi - lo))).

Definition len {A : Type} (l : list A) : Z := Z.of_nat (List.length l).

(** [l[i]], negative indices counting from the end *)
Definition getitem {A : Type} (l : list A) (i : Z) : result A :=
  let j := if i <? 0 then len l + i else i in
  if j <? 0 then Raise IndexError
  else match nth_error l (Z.to_nat j) with
       | Some a => Ok a
       | None => Raise IndexError
       end.

(** [l[-n:]] *)
Definition slice_last {A : Type} (n : nat) (l : list A) : list A :=
  skipn (List.length l - n) l.

Definition sumZ (l : list Z) : Z := fold_left Z.add l 0.
Definition sumQ (l : list Q) : Q := fold_left Qplus l 0%Q.

(** A comprehension whose element expression may raise *)
Fixpoint mapM {A B : Type} (f : A -> result B) (l : list A) : result (list B) :=
  match l with
  | [] => Ok []
  | a :: l' =>
      match f a with
      | Raise e => Raise e
      | Ok b =>
          match mapM f l' with
          | Raise e => Raise e
          | Ok bs => Ok (b :: bs)
          end
      end
  end.

(** A [for] loop over [l] threading the loop state [s]; the body may raise *)
Fixpoint foldM {A S : Type} (body : S -> A -> result S) (l : list A) (s : S)
  : result S :=
  match l with
  | [] => Ok s
  | a :: l' =>
      match body s a with
      | Raise e => Raise e
      | Ok s' => foldM body l' s'
      end
  end.

End Py.

Notation "x <- c ;; k" := (Py.bind c (fun x => k))
  (at level 61, c at next level, right associativity).

Import Py.

(** ** Storage rows and forecast dictionaries *)

(** A row of [EHRRecord]; only the columns read by the forecasting core. *)
Record EHRRecord : Type := mkEHR {
  date : Z;
  occupied_beds : option Z
}.

Record Hospital : Type := mkHospital {
  id : Z;
  hospital_name : string;
  location : string;
  total_beds : Z;
  icu_beds : Z
}.

(** The read-only queries the routers issue.  [query_records] answers
    "all records of the hospital ordered by date ascending"; the most
    recent record ([order_by(desc(date)).first()]) is the last of them. *)
Record Storage : Type := mkStorage {
  query_hospital : Z -> option Hospital;
  query_records : Z -> list EHRRecord;
  query_hospitals : option string -> list Hospital;
  query_other_hospitals : Hospital -> list Hospital
}.

Definition query_latest_record (db : Storage) (hospital_id : Z)
  : option EHRRecord :=
  match rev (query_records db hospital_id) with
  | [] => None
  | r :: _ => Some r
  end.

(** A forecast dict.  A key the producer does not set is [None]. *)
Record Prediction : Type := mkPrediction {
  p_date : Z;
  predicted_occupancy : option Q;
  lower_bound : option Q;
  upper_bound : option Q
}.

(** The metadata returned next to a forecast: the service's own (opaque),
    or the dict built on the short-history path of the admin endpoint. *)
Inductive ModelInfo : Type :=
| ServiceModelInfo (description : string)
| FallbackModelInfo (model : string) (history_points : Z) (note : string).

(** An alert dict of the admin surface, as [generate_alerts] returns it. *)
Record AlertItem : Type := mkAlertItem {
  alert_kind : string;
  alert_message : string;
  severity : string;
  alert_day : string
}.

(** ** predictions.py *)

Module Predictions.

Definition _clamp_occupancy (value : option Q) (total_beds : Z) : Q :=
  if total_beds <=? 0 then Qmax 0 (or0 value)
  else Qmax 0 (Qmin (or0 value) (inject_Z total_beds)).

Definition _build_fallback_predictions
    (ehr_records : list EHRRecord) (total_beds : Z) (days : Z)
  : result (list Prediction) :=
  match ehr_records with
  | [] => Ok []
  | _ =>
    let normalized :=
      map (fun record => _clamp_occupancy (of_int (occupied_beds record)) total_beds)
          ehr_records in
    let recent := slice_last 8 normalized in
    deltas <- mapM (fun i => a <- getitem recent i ;;
                             b <- getitem recent (i - 1) ;;
                             Ok (a - b)%Q)
                   (range 1 (len recent)) ;;
    avg_delta <- match deltas with
                 | [] => Ok 0%Q
                 | _ => truediv (sumQ deltas) (inject_Z (len deltas))
                 end ;;
    let avg_delta := Qmax (-5) (Qmin 5 avg_delta) in
    last_record <- getitem ehr_records (-1) ;;
    let last_day := date last_record in
    last_occupancy <- getitem normalized (-1) ;;
    Ok (fold_left
          (fun predictions offset =>
             let predicted :=
               _clamp_occupancy
                 (Some (last_occupancy + avg_delta * inject_Z offset)%Q)
                 total_beds in
             let lower := _clamp_occupancy (Some (predicted - 8)%Q) total_beds in
             let upper := _clamp_occupancy (Some (predicted + 8)%Q) total_beds in
             predictions ++
               [ {| p_date := last_day + offset;
                    predicted_occupancy := Some (round1 predicted);
                    lower_bound := Some (round1 lower);
                    upper_bound := Some (round1 upper) |} ])
          (range 1 (days + 1)) [])
  end.

(** [_build_fallback_predictions] with the dates of [datetime.date]: the
    same function, except that [last_day + timedelta(days=offset)] is
    [add_days] and raises past the end of the calendar. *)
Definition _build_fallback_predictions_dated
    (ehr_records : list EHRRecord) (total_beds : Z) (days : Z)
  : result (list Prediction) :=
  match ehr_records with
  | [] => Ok []
  | _ =>
    let normalized :=
      map (fun record => _clamp_occupancy (of_int (occupied_beds record)) total_beds)
          ehr_records in
    let recent := slice_last 8 normalized in
    deltas <- mapM (fun i => a <- getitem recent i ;;
                             b <- getitem recent (i - 1) ;;
                             Ok (a - b)%Q)
                   (range 1 (len recent)) ;;
    avg_delta <- match deltas with
                 | [] => Ok 0%Q
                 | _ => truediv (sumQ deltas) (inject_Z (len deltas))
                 end ;;
    let avg_delta := Qmax (-5) (Qmin 5 avg_delta) in
    last_record <- getitem ehr_records (-1) ;;
    let last_day := date last_record in
    last_occupancy <- getitem normalized (-1) ;;
    foldM
      (fun predictions offset =>
         let predicted :=
           _clamp_occupancy
             (Some (last_occupancy + avg_delta * inject_Z offset)%Q)
             total_beds in
         let lower := _clamp_occupancy (Some (predicted - 8)%Q) total_beds in
         let upper := _clamp_occupancy (Some (predicted + 8)%Q) total_beds in
         day <- add_days last_day offset ;;
         Ok (predictions ++
               [ {| p_date := day;
                    predicted_occupancy := Some (round1 predicted);
                    lower_bound := Some (round1 lower);
                    upper_bound := Some (round1 upper) |} ]))
      (range 1 (days + 1)) []
  end.

Record PredictionResponse : Type := mkPredictionResponse {
  pr_hospital_id : Z;
  pr_hospital_name : string;
  pr_total_beds : Z;
  pr_predictions : list Prediction;
  pr_model_info : ModelInfo
}.

Record HistoricalPoint : Type := mkHistoricalPoint {
  h_date : Z;
  h_occupied_beds : option Z;
  h_utilization : Q
}.

Record DashboardResponse : Type := mkDashboardResponse {
  d_hospital_id : Z;
  d_total_beds : Z;
  d_current_occupied : option Z;
  d_current_utilization : Q;
  d_historical_data : list HistoricalPoint;
  d_predictions : list Prediction;
  d_alerts : list AlertItem;
  d_overall_status : string
}.

(** [x / total_beds * 100] on an [int] column that may hold [None] *)
Definition percent_of (x : option Z) (total_beds : Z) : result Q :=
  match x with
  | None => Raise TypeError
  | Some x => q <- truediv (inject_Z x) (inject_Z total_beds) ;; Ok (q * 100)%Q
  end.

(** The "Determine overall status" block of [get_dashboard] *)
Definition overall_status (alerts : list AlertItem) (current_utilization : Q)
  : string :=
  match alerts with
  | _ :: _ =>
      let has_red := existsb (fun alert => String.eqb (severity alert) "red") alerts in
      let has_yellow :=
        existsb (fun alert => String.eqb (severity alert) "yellow") alerts in
      if has_red then "red"%string
      else if has_yellow then "yellow"%string
      else "green"%string
  | [] =>
      if Qle_bool 85 current_utilization then "red"%string
      else if Qle_bool 70 current_utilization then "yellow"%string
      else "green"%string
  end.

Section Service.

Variable service_predict_occupancy :
  list EHRRecord -> Z -> result (list Prediction * ModelInfo).
Variable service_generate_alerts :
  list Prediction -> Z -> string -> result (list AlertItem).

(** [GET /predict/{hospital_id}].  The construction of the
    [PredictionPoint]s and of the [PredictionResponse] inside the [try]
    is not a step of this definition: a validation failure there would
    be one more exception that the handler answers with HTTP 500. *)
Definition predict_occupancy (db : Storage) (hospital_id : Z) (days : Z)
  : result PredictionResponse :=
  match query_hospital db hospital_id with
  | None => Raise (HTTPException 404)
  | Some hospital =>
    let ehr_records := query_records db hospital_id in
    if len ehr_records =? 0 then Raise (HTTPException 404)
    else
      try_except
        (pm <- (if 14 <=? len ehr_records
                then service_predict_occupancy ehr_records days
                else
                  predictions <-
                    _build_fallback_predictions ehr_records (total_beds hospital) days ;;
                  Ok (predictions,
                      FallbackModelInfo "fallback_trend" (len ehr_records)
                        "Insufficient history for Prophet. Using trend-based fallback forecast.")) ;;
         Ok {| pr_hospital_id := id hospital;
               pr_hospital_name := hospital_name hospital;
               pr_total_beds := total_beds hospital;
               pr_predictions := fst pm;
               pr_model_info := snd pm |})
        (fun e => Raise (HTTPException 500))
  end.

(** The [try] / [except] block of [get_dashboard]: the 7-day forecast and
    its alerts. *)
Definition dashboard_forecast (all_records : list EHRRecord) (hospital : Hospital)
  : result (list Prediction * list AlertItem) :=
  try_except
    (pred_data <-
       (if 14 <=? len all_records
        then p <- service_predict_occupancy all_records 7 ;; Ok (fst p)
        else _build_fallback_predictions all_records (total_beds hospital) 7) ;;
     alert_data <-
       service_generate_alerts pred_data (total_beds hospital)
         (hospital_name hospital) ;;
     Ok (pred_data, alert_data))
    (fun e =>
       fallback_data <-
         _build_fallback_predictions all_records (total_beds hospital) 7 ;;
       fallback_alerts <-
         service_generate_alerts fallback_data (total_beds hospital)
           (hospital_name hospital) ;;
       Ok (fallback_data, fallback_alerts)).

(** [GET /dashboard/{hospital_id}]; [today] is [date.today()]. *)
Definition get_dashboard (db : Storage) (today : Z) (hospital_id : Z)
  : result DashboardResponse :=
  match query_hospital db hospital_id with
  | None => Raise (HTTPException 404)
  | Some hospital =>
    match query_latest_record db hospital_id with
    | None => Raise (HTTPException 404)
    | Some latest_record =>
      current_utilization <-
        percent_of (occupied_beds latest_record) (total_beds hospital) ;;
      let thirty_days_ago := today - 30 in
      let historical_records :=
        filter (fun record => thirty_days_ago <=? date record)
               (query_records db hospital_id) in
      historical_data <-
        mapM (fun record =>
                u <- percent_of (occupied_beds record) (total_beds hospital) ;;
                Ok {| h_date := date record;
                      h_occupied_beds := occupied_beds record;
                      h_utilization := u |})
             historical_records ;;
      let all_records := query_records db hospital_id in
      pa <- dashboard_forecast all_records hospital ;;
      Ok {| d_hospital_id := id hospital;
            d_total_beds := total_beds hospital;
            d_current_occupied := occupied_beds latest_record;
            d_current_utilization := round1 current_utilization;
            d_historical_data := historical_data;
            d_predictions := fst pa;
            d_alerts := snd pa;
            d_overall_status := overall_status (snd pa) current_utilization |}
    end
  end.

End Service.

End Predictions.

(** ** public.py *)

Module Public.

Definition _clamp_occupancy (occupied_beds : option Q) (total_beds : Z) : Z :=
  if total_beds <=? 0 then Z.max 0 (int (or0 occupied_beds))
  else Z.max 0 (Z.min (int (or0 occupied_beds)) total_beds).

(** [_clamp_occupancy] on every Python float: [int()] raises on NaN and
    on the infinities.  The definition above is this one on the finite
    numbers. *)
Definition _clamp_occupancy_float (occupied_beds : option float)
    (total_beds : Z) : result Z :=
  if total_beds <=? 0 then
    v <- int_float (or0_float occupied_beds) ;; Ok (Z.max 0 v)
  else
    v <- int_float (or0_float occupied_beds) ;; Ok (Z.max 0 (Z.min v total_beds)).

Definition _calculate_utilization (occupied_beds : Z) (total_beds : Z)
  : result Q :=
  if total_beds <=? 0 then Ok 0%Q
  else q <- truediv (inject_Z occupied_beds) (inject_Z total_beds) ;;
       Ok (round1 (q * 100)).

Definition _risk_from_utilization (utilization : Q) : string :=
  if Qle_bool 85 utilization then "high"%string
  else if Qle_bool 70 utilization then "medium"%string
  else "low"%string.

Definition _build_fallback_forecast
    (ehr_records : list EHRRecord) (total_beds : Z) (days : Z)
  : result (list Prediction) :=
  match ehr_records with
  | [] => Ok []
  | _ =>
    let normalized :=
      map (fun record => _clamp_occupancy (of_int (occupied_beds record)) total_beds)
          ehr_records in
    let recent := slice_last 8 normalized in
    deltas <- mapM (fun i => a <- getitem recent i ;;
                             b <- getitem recent (i - 1) ;;
                             Ok (a - b))
                   (range 1 (len recent)) ;;
    avg_delta <- match deltas with
                 | [] => Ok 0%Q
                 | _ => truediv (inject_Z (sumZ deltas)) (inject_Z (len deltas))
                 end ;;
    let avg_delta := Qmax (-5) (Qmin 5 avg_delta) in
    last_record <- getitem ehr_records (-1) ;;
    let last_day := date last_record in
    last_occupancy <- getitem normalized (-1) ;;
    Ok (fold_left
          (fun predictions day_offset =>
             let projected :=
               _clamp_occupancy
                 (Some (inject_Z
                          (round (inject_Z last_occupancy
                                  + avg_delta * inject_Z day_offset)%Q)))
                 total_beds in
             predictions ++
               [ {| p_date := last_day + day_offset;
                    predicted_occupancy := Some (inject_Z projected);
                    lower_bound := None;
                    upper_bound := None |} ])
          (range 1 (days + 1)) [])
  end.

(** [_build_fallback_forecast] with the dates of [datetime.date]:
    [last_day + timedelta(days=day_offset)] is [add_days]. *)
Definition _build_fallback_forecast_dated
    (ehr_records : list EHRRecord) (total_beds : Z) (days : Z)
  : result (list Prediction) :=
  match ehr_records with
  | [] => Ok []
  | _ =>
    let normalized :=
      map (fun record => _clamp_occupancy (of_int (occupied_beds record)) total_beds)
          ehr_records in
    let recent := slice_last 8 normalized in
    deltas <- mapM (fun i => a <- getitem recent i ;;
                             b <- getitem recent (i - 1) ;;
                             Ok (a - b))
                   (range 1 (len recent)) ;;
    avg_delta <- match deltas with
                 | [] => Ok 0%Q
                 | _ => truediv (inject_Z (sumZ deltas)) (inject_Z (len deltas))
                 end ;;
    let avg_delta := Qmax (-5) (Qmin 5 avg_delta) in
    last_record <- getitem ehr_records (-1) ;;
    let last_day := date last_record in
    last_occupancy <- getitem normalized (-1) ;;
    foldM
      (fun predictions day_offset =>
         let projected :=
           _clamp_occupancy
             (Some (inject_Z
                      (round (inject_Z last_occupancy
                              + avg_delta * inject_Z day_offset)%Q)))
             total_beds in
         day <- add_days last_day day_offset ;;
         Ok (predictions ++
               [ {| p_date := day;
                    predicted_occupancy := Some (inject_Z projected);
                    lower_bound := None;
                    upper_bound := None |} ]))
      (range 1 (days + 1)) []
  end.

Record DayForecast : Type := mkDayForecast {
  df_date : Z;
  df_predicted_occupancy : Z;
  df_predicted_available : Z;
  df_utilization_percentage : Q;
  df_risk_level : string
}.

(** The loop state of [_format_forecast_response].  [min_occupancy] starts
    at [float("inf")], which is [None] here: every occupancy is below it. *)
Record FormatState : Type := mkFormatState {
  forecast_days : list DayForecast;
  min_occupancy : option Z;
  best_day : option Z
}.

(** One turn of the [for pred in predictions] loop *)
Definition format_step (total_beds : Z) (st : FormatState) (pred : Prediction)
  : result FormatState :=
  let predicted_occ := _clamp_occupancy (predicted_occupancy pred) total_beds in
  let available := Z.max 0 (total_beds - predicted_occ) in
  utilization <- _calculate_utilization predicted_occ total_beds ;;
  let risk := _risk_from_utilization utilization in
  let date_str := p_date pred in
  let below :=
    match min_occupancy st with
    | None => true
    | Some m => predicted_occ <? m
    end in
  Ok {| forecast_days :=
          forecast_days st ++
            [ {| df_date := date_str;
                 df_predicted_occupancy := predicted_occ;
                 df_predicted_available := available;
                 df_utilization_percentage := utilization;
                 df_risk_level := risk |} ];
        min_occupancy := if below then Some predicted_occ else min_occupancy st;
        best_day := if below then Some date_str else best_day st |}.

Definition _format_forecast_response
    (predictions : list Prediction) (total_beds : Z)
  : result (list DayForecast * option Z * option Z) :=
  st <- foldM (format_step total_beds) predictions
          {| forecast_days := []; min_occupancy := None; best_day := None |} ;;
  let best_day_occupancy := min_occupancy st in
  Ok (forecast_days st, best_day st, best_day_occupancy).

Record HospitalAvailability : Type := mkHospitalAvailability {
  ha_hospital_id : Z;
  ha_total_beds : Z;
  ha_current_occupied : Z;
  ha_current_available : Z;
  ha_utilization_percentage : Q;
  ha_status : string;
  ha_last_updated : option Z
}.

Record HospitalForecast : Type := mkHospitalForecast {
  hf_hospital_id : Z;
  hf_total_beds : Z;
  hf_forecast : list DayForecast;
  best_day_to_visit : option Z;
  best_day_occupancy : option Z
}.

Record HospitalComparison : Type := mkHospitalComparison {
  hc_hospital_id : Z;
  hc_current_occupancy : Z;
  hc_current_available : Z;
  hc_utilization_percentage : Q;
  avg_predicted_occupancy_7_days : Q;
  recommendation_score : Q;
  hc_risk_level : string
}.

(** A patient-facing alert; the templated message text is presentation
    and is not carried. *)
Record AvailabilityAlert : Type := mkAvailabilityAlert {
  alert_type : string;
  alert_severity : string;
  alert_date : Z
}.

Record AlertsResponse : Type := mkAlertsResponse {
  ar_hospital_id : Z;
  alerts : list AvailabilityAlert;
  alternate_hospitals : list Hospital
}.

Record PublicHospitalInfo : Type := mkPublicHospitalInfo {
  phi_id : Z;
  phi_hospital_name : string;
  phi_location : string;
  phi_total_beds : Z;
  phi_icu_beds : Z
}.

(** The reason sentence of a recommendation: which of the three templates
    was chosen, with the values it is filled with (the hospital is named
    by its id). *)
Inductive Reason : Type :=
| GoodAvailability (hospital_id : Z) (current_available : Z)
                   (utilization_percentage : Q)
| ModeratelyBusy (hospital_id : Z) (utilization_percentage : Q)
| BestDespiteHighOccupancy (hospital_id : Z).

Record CityRecommendation : Type := mkCityRecommendation {
  cr_city : string;
  recommended_hospitals : list HospitalComparison;
  best_hospital_id : Z;
  reason : Reason
}.

(** [GET /hospitals] *)
Definition get_public_hospitals (db : Storage) (city : option string)
  : list PublicHospitalInfo :=
  map (fun h => {| phi_id := id h;
                   phi_hospital_name := hospital_name h;
                   phi_location := location h;
                   phi_total_beds := total_beds h;
                   phi_icu_beds := icu_beds h |})
      (query_hospitals db city).

(** The "Determine status" block of [get_hospital_availability] *)
Definition availability_status (utilization : Q) : string :=
  if Qle_bool 85 utilization then "high"%string
  else if Qle_bool 70 utilization then "moderate"%string
  else "available"%string.

(** The "Determine risk level" block of [compare_hospitals] *)
Definition comparison_risk (utilization : Q) : string :=
  if Qle_bool 85 utilization then "high"%string
  else if Qle_bool 70 utilization then "medium"%string
  else "low"%string.

(** The alert, if any, that [get_hospital_alerts] appends for one day *)
Definition alert_for (utilization : Q) (date_str : Z) : option AvailabilityAlert :=
  if Qle_bool 85 utilization then
    Some {| alert_type := "high_occupancy";
            alert_severity := "critical";
            alert_date := date_str |}
  else if Qle_bool 70 utilization then
    Some {| alert_type := "capacity_warning";
            alert_severity := "warning";
            alert_date := date_str |}
  else None.

(** [alt_utilization < 70] *)
Definition alternate_ok (alt_utilization : Q) : bool :=
  negb (Qle_bool 70 alt_utilization).

(** [sum(p['predicted_occupancy'] for p in ps) / len(ps)] *)
Definition mean_predicted (ps : list Prediction) : result Q :=
  values <- mapM (fun p => item (predicted_occupancy p)) ps ;;
  truediv (sumQ values) (inject_Z (len ps)).

(** [comparisons.sort(key=lambda x: x.recommendation_score, reverse=True)]:
    the stable descending sort, as insertion from the right. *)
Fixpoint insert_desc (x : HospitalComparison) (l : list HospitalComparison)
  : list HospitalComparison :=
  match l with
  | [] => [x]
  | y :: l' =>
      if Qle_bool (recommendation_score y) (recommendation_score x)
      then x :: y :: l'
      else y :: insert_desc x l'
  end.

Definition sort_desc (l : list HospitalComparison) : list HospitalComparison :=
  fold_right insert_desc [] l.

(** [GET /availability/{hospital_id}] *)
Definition get_hospital_availability (db : Storage) (hospital_id : Z)
  : result HospitalAvailability :=
  match query_hospital db hospital_id with
  | None => Raise (HTTPException 404)
  | Some hospital =>
    match query_latest_record db hospital_id with
    | None =>
        Ok {| ha_hospital_id := id hospital;
              ha_total_beds := total_beds hospital;
              ha_current_occupied := 0;
              ha_current_available := total_beds hospital;
              ha_utilization_percentage := 0;
              ha_status := "unknown";
              ha_last_updated := None |}
    | Some latest_record =>
        let current_occupied :=
          _clamp_occupancy (of_int (occupied_beds latest_record)) (total_beds hospital) in
        let current_available := Z.max 0 (total_beds hospital - current_occupied) in
        utilization <- _calculate_utilization current_occupied (total_beds hospital) ;;
        Ok {| ha_hospital_id := id hospital;
              ha_total_beds := total_beds hospital;
              ha_current_occupied := current_occupied;
              ha_current_available := current_available;
              ha_utilization_percentage := utilization;
              ha_status := availability_status utilization;
              ha_last_updated := Some (date latest_record) |}
    end
  end.

Section Service.

Variable service_predict_occupancy :
  list EHRRecord -> Z -> result (list Prediction * ModelInfo).

(** The forecast selection shared by [get_hospital_forecast] and
    [get_hospital_alerts]: Prophet from 14 records on, the fallback below
    that and whenever Prophet raises. *)
Definition select_predictions (ehr_records : list EHRRecord) (total_beds : Z)
    (days : Z) : result (list Prediction) :=
  if 14 <=? len ehr_records then
    try_except
      (p <- service_predict_occupancy ehr_records days ;; Ok (fst p))
      (fun _ => _build_fallback_forecast ehr_records total_beds days)
  else _build_fallback_forecast ehr_records total_beds days.

(** [GET /forecast/{hospital_id}] *)
Definition get_hospital_forecast (db : Storage) (hospital_id : Z) (days : Z)
  : result HospitalForecast :=
  match query_hospital db hospital_id with
  | None => Raise (HTTPException 404)
  | Some hospital =>
    let ehr_records := query_records db hospital_id in
    if len ehr_records =? 0 then
      Ok {| hf_hospital_id := id hospital;
            hf_total_beds := total_beds hospital;
            hf_forecast := [];
            best_day_to_visit := None;
            best_day_occupancy := None |}
    else
      predictions <- select_predictions ehr_records (total_beds hospital) days ;;
      r <- _format_forecast_response predictions (total_beds hospital) ;;
      Ok {| hf_hospital_id := id hospital;
            hf_total_beds := total_beds hospital;
            hf_forecast := fst (fst r);
            best_day_to_visit := snd (fst r);
            best_day_occupancy := snd r |}
  end.

(** The 7-day average of [compare_hospitals]; [avg_predicted] arrives with
    its default, the current occupancy. *)
Definition average_prediction (ehr_records : list EHRRecord) (total_beds : Z)
    (avg_predicted : Q) : result Q :=
  let from_fallback :=
    fallback <- _build_fallback_forecast ehr_records total_beds 7 ;;
    match fallback with
    | [] => Ok avg_predicted
    | _ => mean_predicted fallback
    end in
  if 14 <=? len ehr_records then
    try_except
      (p <- service_predict_occupancy ehr_records 7 ;; mean_predicted (fst p))
      (fun _ => from_fallback)
  else from_fallback.

(** One turn of the [for hospital in hospitals] loop of [compare_hospitals] *)
Definition compare_step (db : Storage) (comparisons : list HospitalComparison)
    (hospital : Hospital) : result (list HospitalComparison) :=
  match query_latest_record db (id hospital) with
  | None => Ok comparisons
  | Some latest_record =>
    let current_occ :=
      _clamp_occupancy (of_int (occupied_beds latest_record)) (total_beds hospital) in
    let current_avail := Z.max 0 (total_beds hospital - current_occ) in
    utilization <- _calculate_utilization current_occ (total_beds hospital) ;;
    let ehr_records := query_records db (id hospital) in
    avg_predicted <-
      average_prediction ehr_records (total_beds hospital) (inject_Z current_occ) ;;
    q_now <- truediv (inject_Z (total_beds hospital - current_occ))
                     (inject_Z (total_beds hospital)) ;;
    let availability_score := (q_now * 50)%Q in
    q_future <- truediv (inject_Z (total_beds hospital) - avg_predicted)%Q
                        (inject_Z (total_beds hospital)) ;;
    let future_availability_score := (q_future * 50)%Q in
    let score := (availability_score + future_availability_score)%Q in
    let risk := comparison_risk utilization in
    Ok (comparisons ++
          [ {| hc_hospital_id := id hospital;
               hc_current_occupancy := current_occ;
               hc_current_available := current_avail;
               hc_utilization_percentage := utilization;
               avg_predicted_occupancy_7_days := round1 avg_predicted;
               recommendation_score := round1 score;
               hc_risk_level := risk |} ])
  end.

(** [GET /compare] *)
Definition compare_hospitals (db : Storage) (city : option string)
  : result (list HospitalComparison) :=
  let hospitals := query_hospitals db city in
  match hospitals with
  | [] => Raise (HTTPException 404)
  | _ =>
    comparisons <- foldM (compare_step db) hospitals [] ;;
    Ok (sort_desc comparisons)
  end.

(** [GET /recommendation/{city}] *)
Definition get_city_recommendation (db : Storage) (city : string)
  : result CityRecommendation :=
  comparisons <- compare_hospitals db (Some city) ;;
  match comparisons with
  | [] => Raise (HTTPException 404)
  | best :: _ =>
    let reason :=
      if String.eqb (hc_risk_level best) "low" then
        GoodAvailability (hc_hospital_id best) (hc_current_available best)
                         (hc_utilization_percentage best)
      else if String.eqb (hc_risk_level best) "medium" then
        ModeratelyBusy (hc_hospital_id best) (hc_utilization_percentage best)
      else BestDespiteHighOccupancy (hc_hospital_id best) in
    Ok {| cr_city := city;
          recommended_hospitals := comparisons;
          best_hospital_id := hc_hospital_id best;
          reason := reason |}
  end.

(** The "Check for high occupancy days" loop of [get_hospital_alerts];
    the state is [(alerts, has_high_risk)].  A forecast dict is taken to
    carry its date; a missing [predicted_occupancy] is the [KeyError] of
    [pred['predicted_occupancy']]. *)
Definition alerts_step (total_beds : Z) (st : list AvailabilityAlert * bool)
    (pred : Prediction) : result (list AvailabilityAlert * bool) :=
  v <- item (predicted_occupancy pred) ;;
  let predicted_occ := _clamp_occupancy (Some v) total_beds in
  utilization <- _calculate_utilization predicted_occ total_beds ;;
  let date_str := p_date pred in
  match alert_for utilization date_str with
  | Some a => Ok (fst st ++ [a], snd st || Qle_bool 85 utilization)
  | None => Ok st
  end.

(** The loop over [other_hospitals[:5]], leaving at the third alternate *)
Fixpoint alternates_loop (db : Storage) (others : list Hospital)
    (alternate_hospitals : list Hospital) : result (list Hospital) :=
  match others with
  | [] => Ok alternate_hospitals
  | alt_hospital :: others' =>
    match query_latest_record db (id alt_hospital) with
    | None => alternates_loop db others' alternate_hospitals
    | Some latest_record =>
      let alt_occupied :=
        _clamp_occupancy (of_int (occupied_beds latest_record))
                         (total_beds alt_hospital) in
      alt_utilization <-
        _calculate_utilization alt_occupied (total_beds alt_hospital) ;;
      if alternate_ok alt_utilization then
        let alternate_hospitals := alternate_hospitals ++ [alt_hospital] in
        if 3 <=? len alternate_hospitals then Ok alternate_hospitals
        else alternates_loop db others' alternate_hospitals
      else alternates_loop db others' alternate_hospitals
    end
  end.

(** [GET /alerts/{hospital_id}] *)
Definition get_hospital_alerts (db : Storage) (hospital_id : Z)
  : result AlertsResponse :=
  match query_hospital db hospital_id with
  | None => Raise (HTTPException 404)
  | Some hospital =>
    let ehr_records := query_records db hospital_id in
    predictions <- select_predictions ehr_records (total_beds hospital) 7 ;;
    st <- foldM (alerts_step (total_beds hospital)) predictions ([], false) ;;
    let alerts := fst st in
    let has_high_risk := snd st in
    alternate_hospitals <-
      (if has_high_risk || (3 <=? len alerts) then
         alternates_loop db (firstn 5 (query_other_hospitals db hospital)) []
       else Ok []) ;;
    Ok {| ar_hospital_id := id hospital;
          alerts := alerts;
          alternate_hospitals := alternate_hospitals |}
  end.

End Service.

End Public.

(** ** update_hospitals_db.py *)

Module UpdateHospitalsDb.

(** The dict [INDIAN_HOSPITALS]: hospital id to new name and location *)
Definition INDIAN_HOSPITALS : list (Z * (string * string)) :=
  [ (1, ("Apollo Hospitals", "Mumbai, Maharashtra"));
    (2, ("Fortis Healthcare", "Delhi, NCR"));
    (3, ("Max Super Speciality Hospital", "Bangalore, Karnataka"));
    (4, ("AIIMS Hospital", "Hyderabad, Telangana")) ]%string.

(** [INDIAN_HOSPITALS[key]], [None] when [key not in INDIAN_HOSPITALS] *)
Definition lookup (key : Z) : option (string * string) :=
  option_map snd (find (fun entry => fst entry =? key) INDIAN_HOSPITALS).

(** [update_hospitals], as the hospitals table it commits: the rows of
    [db.query(Hospital).all()] after the loop has renamed those whose id
    is a key of the dict (the printing is not modelled). *)
Definition update_hospitals (hospitals : list Hospital) : list Hospital :=
  map (fun hospital =>
         match lookup (id hospital) with
         | Some new_data =>
             {| id := id hospital;
                hospital_name := fst new_data;
                location := snd new_data;
                total_beds := total_beds hospital;
                icu_beds := icu_beds hospital |}
         | None => hospital
         end)
      hospitals.

End UpdateHospitalsDb.

(** ** Specification-side definitions

    The words of the specification, written independently of the code and
    compared with it in the theorems below. *)

Module Spec.

(** Successive differences of a series *)
Fixpoint diffs (l : list Q) : list Q :=
  match l with
  | [] => []
  | a :: t =>
      match t with
      | [] => []
      | b :: _ => (b - a)%Q :: diffs t
      end
  end.

Definition mean (l : list Q) : Q := (sumQ l / inject_Z (len l))%Q.

(** [x] clamped into [[lo, hi]] *)
Definition clamp (lo hi x : Q) : Q :=
  match (x ?= lo)%Q with
  | Lt => lo
  | _ => match (x ?= hi)%Q with Gt => hi | _ => x end
  end.

(** The recent window: the last 8 values, or all of them when fewer *)
Definition window (normalized : list Q) : list Q :=
  skipn (List.length normalized - 8) normalized.

(** The trend delta of section 4.2, steps 3 to 5 *)
Definition trend_delta (normalized : list Q) : Q :=
  let w := window normalized in
  if (List.length w <? 2)%nat then 0%Q
  else clamp (-5) 5 (mean (diffs w)).

(** The normalizer of section 4.1 *)
Definition normalize (value : option Q) (total_beds : Z) : Q :=
  let v := match value with Some v => v | None => 0%Q end in
  if total_beds <=? 0 then
    match (v ?= 0)%Q with Lt => 0%Q | _ => v end
  else clamp 0 (inject_Z total_beds) v.

(** The three tiers of the risk contract *)
Inductive Tier : Type := Low | Medium | High.

(** [classify]: at least 85 is high, at least 70 is medium, else low *)
Definition classify (utilization : Q) : Tier :=
  match (utilization ?= 85)%Q with
  | Lt => match (utilization ?= 70)%Q with Lt => Low | _ => Medium end
  | _ => High
  end.

(** [best_day] and [best_occ] name the first day of [days] whose predicted
    occupancy is smallest; both are [None] on the empty sequence. *)
Definition earliest_minimum (days : list Public.DayForecast)
    (best_day best_occ : option Z) : Prop :=
  (days = [] /\ best_day = None /\ best_occ = None) \/
  (exists k d,
      nth_error days k = Some d /\
      best_day = Some (Public.df_date d) /\
      best_occ = Some (Public.df_predicted_occupancy d) /\
      (forall j d', nth_error days j = Some d' ->
                    Public.df_predicted_occupancy d
                    <= Public.df_predicted_occupancy d') /\
      (forall j d', (j < k)%nat -> nth_error days j = Some d' ->
                    Public.df_predicted_occupancy d
                    < Public.df_predicted_occupancy d')).

End Spec.

(** ** Auxiliary definitions used by the proofs *)

(** Successive differences over any carrier with a subtraction *)
Fixpoint diffs_with {A : Type} (sub : A -> A -> A) (l : list A) : list A :=
  match l with
  | [] => []
  | a :: t =>
      match t with
      | [] => []
      | b :: _ => sub b a :: diffs_with sub t
      end
  end.

(** The unclamped average the two forecasters compute from their deltas *)
Definition avg_of_Q (deltas : list Q) : Q :=
  match deltas with
  | [] => 0%Q
  | _ => (sumQ deltas / inject_Z (len deltas))%Q
  end.

Definition avg_of_Z (deltas : list Z) : Q :=
  match deltas with
  | [] => 0%Q
  | _ => (inject_Z (sumZ deltas) / inject_Z (len deltas))%Q
  end.

(** The body of the [for offset] loop of [_build_fallback_predictions] *)
Definition admin_point (total_beds last_day : Z) (last_occupancy avg_delta : Q)
    (offset : Z) : Prediction :=
  let predicted :=
    Predictions._clamp_occupancy
      (Some (last_occupancy + avg_delta * inject_Z offset)%Q) total_beds in
  let lower := Predictions._clamp_occupancy (Some (predicted - 8)%Q) total_beds in
  let upper := Predictions._clamp_occupancy (Some (predicted + 8)%Q) total_beds in
  {| p_date := last_day + offset;
     predicted_occupancy := Some (round1 predicted);
     lower_bound := Some (round1 lower);
     upper_bound := Some (round1 upper) |}.

(** The body of the [for day_offset] loop of [_build_fallback_forecast] *)
Definition public_point (total_beds last_day last_occupancy : Z) (avg_delta : Q)
    (day_offset : Z) : Prediction :=
  let projected :=
    Public._clamp_occupancy
      (Some (inject_Z
               (round (inject_Z last_occupancy + avg_delta * inject_Z day_offset)%Q)))
      total_beds in
  {| p_date := last_day + day_offset;
     predicted_occupancy := Some (inject_Z projected);
     lower_bound := None;
     upper_bound := None |}.

(** The value [_calculate_utilization] returns *)
Definition utilization_of (occupied_beds total_beds : Z) : Q :=
  if total_beds <=? 0 then 0%Q
  else round1 (inject_Z occupied_beds / inject_Z total_beds * 100)%Q.

(** The [DayForecast] that [_format_forecast_response] builds from one dict *)
Definition day_of (total_beds : Z) (pred : Prediction) : Public.DayForecast :=
  let predicted_occ :=
    Public._clamp_occupancy (predicted_occupancy pred) total_beds in
  {| Public.df_date := p_date pred;
     Public.df_predicted_occupancy := predicted_occ;
     Public.df_predicted_available := Z.max 0 (total_beds - predicted_occ);
     Public.df_utilization_percentage := utilization_of predicted_occ total_beds;
     Public.df_risk_level :=
       Public._risk_from_utilization (utilization_of predicted_occ total_beds) |}.

(** A prediction service whose model always fails to fit *)
Definition failing_service (ehr_records : list EHRRecord) (days : Z)
  : result (list Prediction * ModelInfo) :=
  Raise (ServiceError "Prophet failed to fit").

(** A prediction service that forecasts [level] beds on each of the next
    [days] days *)
Definition constant_service (level : Q) (ehr_records : list EHRRecord) (days : Z)
  : result (list Prediction * ModelInfo) :=
  Ok (map (fun o => mkPrediction o (Some level) (Some level) (Some level))
          (range 1 (days + 1)),
      ServiceModelInfo "prophet").

(** A storage holding the given hospitals, each with its own records *)
Definition storage_of (rows : list (Hospital * list EHRRecord)) : Storage :=
  {| query_hospital := fun hospital_id =>
       option_map fst (find (fun row => id (fst row) =? hospital_id) rows);
     query_records := fun hospital_id =>
       match find (fun row => id (fst row) =? hospital_id) rows with
       | Some row => snd row
       | None => []
       end;
     query_hospitals := fun _ => map fst rows;
     query_other_hospitals := fun hospital =>
       filter (fun other => negb (id other =? id hospital)) (map fst rows) |}.

(** Whether storage holds a record of the hospital *)
Definition has_record (db : Storage) (hospital : Hospital) : bool :=
  match query_latest_record db (id hospital) with
  | Some _ => true
  | None => false
  end.

(** The composite score of section 4.6 *)
Definition score_of (total_beds current_occupied : Z) (avg_predicted : Q) : Q :=
  (inject_Z (total_beds - current_occupied) / inject_Z total_beds * 50
   + (inject_Z total_beds - avg_predicted) / inject_Z total_beds * 50)%Q.

(** Entries whose recommendation score equals [v] *)
Definition same_score (v : Q) (entry : Public.HospitalComparison) : bool :=
  Qeq_bool (Public.recommendation_score entry) v.

(** Non-increasing recommendation scores *)
Definition by_score_desc (a b : Public.HospitalComparison) : Prop :=
  (Public.recommendation_score b <= Public.recommendation_score a)%Q.

(** The utilization [get_hospital_alerts] computes for one forecast dict *)
Definition alert_utilization (total_beds : Z) (pred : Prediction) : Q :=
  utilization_of (Public._clamp_occupancy (predicted_occupancy pred) total_beds)
                 total_beds.

(** The alerts of a forecast, day by day *)
Definition alerts_of (total_beds : Z) (predictions : list Prediction)
  : list Public.AvailabilityAlert :=
  flat_map (fun pred =>
              match Public.alert_for (alert_utilization total_beds pred)
                                     (p_date pred) with
              | Some a => [a]
              | None => []
              end)
           predictions.

(** What one formatted forecast day always satisfies *)
Definition day_consistent (total_beds : Z) (d : Public.DayForecast) : Prop :=
  0 <= Public.df_predicted_occupancy d /\
  0 <= Public.df_predicted_available d /\
  Public.df_risk_level d
  = Public._risk_from_utilization (Public.df_utilization_percentage d) /\
  (0 < total_beds ->
   Public.df_predicted_occupancy d + Public.df_predicted_available d
   = total_beds /\
   (0 <= Public.df_utilization_percentage d <= 100)%Q) /\
  (total_beds <= 0 ->
   Public.df_predicted_available d = 0 /\
   Public.df_utilization_percentage d = 0%Q /\
   Public.df_risk_level d = "low"%string).

(** The label each consumer gives to a tier: the risk level of a forecast
    day or of a comparison entry, the availability status, the severity
    of a patient alert (none below 70), the dashboard colour *)
Definition risk_label (t : Spec.Tier) : string :=
  match t with
  | Spec.High => "high"%string
  | Spec.Medium => "medium"%string
  | Spec.Low => "low"%string
  end.

Definition status_label (t : Spec.Tier) : string :=
  match t with
  | Spec.High => "high"%string
  | Spec.Medium => "moderate"%string
  | Spec.Low => "available"%string
  end.

Definition severity_label (t : Spec.Tier) : option string :=
  match t with
  | Spec.High => Some "critical"%string
  | Spec.Medium => Some "warning"%string
  | Spec.Low => None
  end.

Definition colour_label (t : Spec.Tier) : string :=
  match t with
  | Spec.High => "red"%string
  | Spec.Medium => "yellow"%string
  | Spec.Low => "green"%string
  end.

(** The dated severities of the alerts a forecast asks for, day by day *)
Definition severities_of (total_beds : Z) (predictions : list Prediction)
  : list (Z * string) :=
  flat_map (fun pred =>
              match severity_label
                      (Spec.classify (alert_utilization total_beds pred)) with
              | Some s => [(p_date pred, s)]
              | None => []
              end)
           predictions.


(** A series of records on consecutive days from [d0] *)
Definition series (d0 : Z) (occ : list Z) : list EHRRecord :=
  map (fun p => mkEHR (d0 + Z.of_nat (fst p)) (Some (snd p)))
      (combine (seq 0 (List.length occ)) occ).

(** ** The Python primitives on small inputs *)

Example round_ties_to_even :
  round (1 # 2) = 0 /\ round (3 # 2) = 2 /\ round (5 # 2) = 2 /\
  round (-3 # 2) = -2 /\ round (247 # 4) = 62.
Proof. repeat split. Qed.

Example round1_one_decimal :
  (round1 (247 # 4) == 618 # 10)%Q /\ (round1 (245 # 4) == 612 # 10)%Q.
Proof. split; reflexivity. Qed.

Example int_truncates :
  int (617 # 10) = 61 /\ int (-617 # 10) = -61 /\ int 0 = 0.
Proof. repeat split. Qed.

Example getitem_indices :
  getitem [10; 20; 30] (-1) = Ok 30 /\ getitem [10; 20; 30] 0 = Ok 10 /\
  getitem [10; 20; 30] 3 = Raise IndexError /\
  getitem ([] : list Z) (-1) = Raise IndexError.
Proof. repeat split. Qed.

Example slice_last_window :
  slice_last 8 [1; 2; 3; 4; 5; 6; 7; 8; 9; 10] = [3; 4; 5; 6; 7; 8; 9; 10] /\
  slice_last 8 [1; 2; 3] = [1; 2; 3] /\
  range 1 4 = [1; 2; 3] /\ range 1 1 = [].
Proof. repeat split. Qed.

Example truediv_by_zero :
  truediv 5 0 = Raise ZeroDivisionError /\ truediv 5 2 = Ok (5 / 2)%Q.
Proof. split; reflexivity. Qed.

(** ** Lists, ranges and indexing *)

Lemma fold_left_append {A B : Type} (f : A -> B) (l : list A) (init : list B) :
  fold_left (fun acc x => acc ++ [f x]) l init = init ++ map f l.
Proof.
  revert init; induction l as [|a l IH]; intros init; simpl.
  - now rewrite app_nil_r.
  - rewrite IH, <- app_assoc. reflexivity.
Qed.

Lemma range_length (lo hi : Z) : List.length (range lo hi) = Z.to_nat (hi - lo).
Proof. unfold range. now rewrite length_map, length_seq. Qed.


Lemma range_succ_len {A : Type} (a : A) (l : list A) :
  range 1 (len (a :: l)) = map (fun k => Z.of_nat (S k)) (seq 0 (List.length l)).
Proof.
  unfold range, len. simpl List.length.
  replace (Z.to_nat (Z.of_nat (S (List.length l)) - 1)) with (List.length l) by lia.
  apply map_ext. intros k. lia.
Qed.

Lemma getitem_of_nat {A : Type} (l : list A) (k : nat) :
  getitem l (Z.of_nat k) =
  match nth_error l k with Some a => Ok a | None => Raise IndexError end.
Proof.
  unfold getitem.
  destruct (Z.ltb_spec (Z.of_nat k) 0); [lia|].
  destruct (Z.ltb_spec (Z.of_nat k) 0); [lia|].
  now rewrite Nat2Z.id.
Qed.

Lemma nth_error_last {A : Type} (l : list A) (a d : A) :
  nth_error (a :: l) (List.length l) = Some (last (a :: l) d).
Proof.
  revert a; induction l as [|b l IH]; intros a; [reflexivity|].
  change (nth_error (a :: b :: l) (List.length (b :: l)))
    with (nth_error (b :: l) (List.length l)).
  change (last (a :: b :: l) d) with (last (b :: l) d).
  apply IH.
Qed.

Lemma getitem_last {A : Type} (a : A) (l : list A) :
  getitem (a :: l) (-1) = Ok (last (a :: l) a).
Proof.
  unfold getitem, len.
  change (-1 <? 0) with true. cbv iota.
  destruct (Z.ltb_spec (Z.of_nat (List.length (a :: l)) + -1) 0) as [H|H];
    [simpl List.length in H; lia|].
  replace (Z.to_nat (Z.of_nat (List.length (a :: l)) + -1)) with (List.length l)
    by (simpl List.length; lia).
  now rewrite (nth_error_last l a a).
Qed.

Lemma mapM_ext {A B : Type} (f g : A -> result B) (l : list A) :
  (forall a, In a l -> f a = g a) -> mapM f l = mapM g l.
Proof.
  induction l as [|a l IH]; intros H; [reflexivity|].
  simpl. rewrite (H a (or_introl eq_refl)), IH; [reflexivity|].
  intros b Hb. apply H. now right.
Qed.

Lemma mapM_map {A B C : Type} (f : B -> result C) (h : A -> B) (l : list A) :
  mapM f (map h l) = mapM (fun x => f (h x)) l.
Proof.
  induction l as [|a l IH]; [reflexivity|]. simpl. now rewrite IH.
Qed.

Lemma mapM_pure {A B : Type} (f : A -> result B) (g : A -> B) (l : list A) :
  (forall a, In a l -> f a = Ok (g a)) -> mapM f l = Ok (map g l).
Proof.
  induction l as [|a l IH]; intros H; [reflexivity|].
  simpl. rewrite (H a (or_introl eq_refl)), IH; [reflexivity|].
  intros b Hb. apply H. now right.
Qed.

Section Deltas.

Context {A : Type} (sub : A -> A -> A).

(** The comprehension [[recent[i] - recent[i - 1] for i in range(1, len(recent))]]
    never indexes out of range and yields the successive differences. *)
Lemma deltas_comprehension (recent : list A) :
  mapM (fun i => a <- getitem recent i ;;
                 b <- getitem recent (i - 1) ;;
                 Ok (sub a b))
       (range 1 (len recent))
  = Ok (diffs_with sub recent).
Proof.
  destruct recent as [|a l]; [reflexivity|].
  rewrite range_succ_len, mapM_map.
  revert a. induction l as [|b l IH]; intros a; [reflexivity|].
  simpl List.length. rewrite <- cons_seq, <- seq_shift.
  cbn [mapM].
  rewrite (getitem_of_nat (a :: b :: l) 1).
  replace (Z.of_nat 1 - 1) with (Z.of_nat 0) by lia.
  rewrite (getitem_of_nat (a :: b :: l) 0). cbn [nth_error bind].
  rewrite mapM_map.
  rewrite (mapM_ext _ (fun k => x <- getitem (b :: l) (Z.of_nat (S k)) ;;
                                y <- getitem (b :: l) (Z.of_nat (S k) - 1) ;;
                                Ok (sub x y))).
  - rewrite IH. reflexivity.
  - intros k _.
    rewrite (getitem_of_nat (a :: b :: l) (S (S k))).
    rewrite (getitem_of_nat (b :: l) (S k)).
    replace (Z.of_nat (S (S k)) - 1) with (Z.of_nat (S k)) by lia.
    replace (Z.of_nat (S k) - 1) with (Z.of_nat k) by lia.
    rewrite (getitem_of_nat (a :: b :: l) (S k)).
    rewrite (getitem_of_nat (b :: l) k).
    reflexivity.
Qed.

Lemma diffs_with_length (l : list A) :
  List.length (diffs_with sub l) = (List.length l - 1)%nat.
Proof.
  induction l as [|a [|b t] IH]; [reflexivity | reflexivity |].
  change (diffs_with sub (a :: b :: t)) with (sub b a :: diffs_with sub (b :: t)).
  simpl List.length in *. rewrite IH. lia.
Qed.

End Deltas.

Lemma last_map {A B : Type} (f : A -> B) (l : list A) (d : A) :
  last (map f l) (f d) = f (last l d).
Proof.
  induction l as [|a [|b t] IH]; [reflexivity | reflexivity |].
  change (last (map f (a :: b :: t)) (f d)) with (last (map f (b :: t)) (f d)).
  change (last (a :: b :: t) d) with (last (b :: t) d).
  exact IH.
Qed.

Lemma last_map_cons {A B : Type} (f : A -> B) (a : A) (l : list A) :
  last (f a :: map f l) (f a) = f (last (a :: l) a).
Proof. exact (last_map f (a :: l) a). Qed.

Lemma slice_last_map {A B : Type} (f : A -> B) (n : nat) (l : list A) :
  slice_last n (map f l) = map f (slice_last n l).
Proof. unfold slice_last. now rewrite length_map, skipn_map. Qed.

(** ** Rational arithmetic *)

Ltac name_max a b :=
  let H := fresh "Hmax" in
  let m := fresh "m" in
  pose proof (Q.max_spec a b) as H;
  set (m := Qmax a b) in *; clearbody m;
  destruct H as [[? ?]|[? ?]].

Ltac name_min a b :=
  let H := fresh "Hmin" in
  let m := fresh "m" in
  pose proof (Q.min_spec a b) as H;
  set (m := Qmin a b) in *; clearbody m;
  destruct H as [[? ?]|[? ?]].

(** Case analysis on every [Qmax] and [Qmin] in sight, for [lra]. *)
Ltac qminmax :=
  repeat match goal with
         | |- context [Qmax ?a ?b] => name_max a b
         | |- context [Qmin ?a ?b] => name_min a b
         | _ : context [Qmax ?a ?b] |- _ => name_max a b
         | _ : context [Qmin ?a ?b] |- _ => name_min a b
         end.

Lemma truediv_len {A : Type} (x : Q) (a : A) (l : list A) :
  truediv x (inject_Z (len (a :: l))) = Ok (x / inject_Z (len (a :: l)))%Q.
Proof.
  unfold truediv.
  destruct (Qeq_bool (inject_Z (len (a :: l))) 0) eqn:E; [|reflexivity].
  apply Qeq_bool_iff in E. unfold Qeq, len in E. simpl in E. lia.
Qed.

Lemma truediv_nonzero (x : Q) (n : Z) :
  n <> 0 -> truediv x (inject_Z n) = Ok (x / inject_Z n)%Q.
Proof.
  intros Hn. unfold truediv.
  destruct (Qeq_bool (inject_Z n) 0) eqn:E; [|reflexivity].
  apply Qeq_bool_iff in E. unfold Qeq in E. simpl in E. lia.
Qed.

Lemma int_inject_Z (z : Z) : int (inject_Z z) = z.
Proof. unfold int. simpl. apply Z.quot_1_r. Qed.

#[global] Instance round_comp : Proper (Qeq ==> eq) round.
Proof.
  intros x y E. unfold round.
  rewrite (Qfloor_comp x y E).
  assert (E' : (x - inject_Z (Qfloor y) == y - inject_Z (Qfloor y))%Q)
    by now rewrite E.
  now rewrite (Qcompare_comp _ _ E' (1 # 2)%Q (1 # 2)%Q (Qeq_refl _)).
Qed.

Lemma round_inject_Z (z : Z) : round (inject_Z z) = z.
Proof.
  unfold round. rewrite Qfloor_Z.
  assert (E : (inject_Z z - inject_Z z == 0)%Q) by ring.
  now rewrite (Qcompare_comp _ _ E (1 # 2)%Q (1 # 2)%Q (Qeq_refl _)).
Qed.

#[global] Instance round1_comp : Proper (Qeq ==> Qeq) round1.
Proof.
  intros x y E. unfold round1.
  assert (E' : (x * 10 == y * 10)%Q) by now rewrite E.
  now rewrite (round_comp _ _ E').
Qed.

Lemma round1_inject_Z (z : Z) : (round1 (inject_Z z) == inject_Z z)%Q.
Proof.
  unfold round1.
  assert (E : (inject_Z z * 10 == inject_Z (z * 10))%Q)
    by (rewrite inject_Z_mult; reflexivity).
  rewrite (round_comp _ _ E), round_inject_Z, inject_Z_mult.
  field.
Qed.

(** [round] stays within one half of its argument. *)
Lemma round_near (x : Q) :
  (x - (1 # 2) <= inject_Z (round x) <= x + (1 # 2))%Q.
Proof.
  unfold round.
  pose proof (Qfloor_le x) as Hlo.
  pose proof (Qlt_floor x) as Hhi.
  rewrite inject_Z_plus in Hhi. change (inject_Z 1) with 1%Q in Hhi.
  destruct (x - inject_Z (Qfloor x) ?= 1 # 2)%Q eqn:E;
    [apply Qeq_alt in E | apply Qlt_alt in E | apply Qgt_alt in E];
    try destruct (Z.even (Qfloor x));
    rewrite ?inject_Z_plus; change (inject_Z 1) with 1%Q; split; lra.
Qed.

(** [round] is monotone. *)
Lemma round_le_inject_Z (x : Q) (z : Z) :
  (x <= inject_Z z)%Q -> round x <= z.
Proof.
  intros H. unfold round.
  pose proof (Qfloor_le x) as Hlo.
  assert (Hf : Qfloor x <= z).
  { rewrite <- (Qfloor_Z z). now apply Qfloor_resp_le. }
  destruct (x - inject_Z (Qfloor x) ?= 1 # 2)%Q eqn:E; [| lia |].
  - apply Qeq_alt in E.
    assert (Qfloor x <> z).
    { intros Heq. rewrite Heq in E. lra. }
    destruct (Z.even (Qfloor x)); lia.
  - apply Qgt_alt in E.
    assert (Qfloor x <> z).
    { intros Heq. rewrite Heq in E. lra. }
    lia.
Qed.

Lemma round_ge_inject_Z (x : Q) (z : Z) :
  (inject_Z z <= x)%Q -> z <= round x.
Proof.
  intros H. unfold round.
  assert (Hf : z <= Qfloor x).
  { rewrite <- (Qfloor_Z z). now apply Qfloor_resp_le. }
  destruct (x - inject_Z (Qfloor x) ?= 1 # 2)%Q; [|lia|lia].
  destruct (Z.even (Qfloor x)); lia.
Qed.

Lemma round1_bounds (x : Q) (lo hi : Z) :
  (inject_Z lo <= x <= inject_Z hi)%Q ->
  (inject_Z lo <= round1 x <= inject_Z hi)%Q.
Proof.
  intros [Hlo Hhi]. unfold round1.
  assert (H1 : lo * 10 <= round (x * 10)).
  { apply round_ge_inject_Z. rewrite inject_Z_mult.
    change (inject_Z 10) with 10%Q. lra. }
  assert (H2 : round (x * 10) <= hi * 10).
  { apply round_le_inject_Z. rewrite inject_Z_mult.
    change (inject_Z 10) with 10%Q. lra. }
  rewrite Zle_Qle, inject_Z_mult in H1, H2.
  change (inject_Z 10) with 10%Q in H1, H2.
  split.
  - apply Qle_shift_div_l; [reflexivity | exact H1].
  - apply Qle_shift_div_r; [reflexivity | exact H2].
Qed.

(** ** The occupancy normalizer *)

Lemma spec_clamp_eq (lo hi x : Q) :
  (lo <= hi)%Q -> (Spec.clamp lo hi x == Qmax lo (Qmin x hi))%Q.
Proof.
  intros Hle. unfold Spec.clamp.
  destruct (x ?= lo)%Q eqn:E1.
  - apply Qeq_alt in E1.
    destruct (x ?= hi)%Q eqn:E2;
      [apply Qeq_alt in E2 | apply Qlt_alt in E2 | apply Qgt_alt in E2];
      qminmax; lra.
  - apply Qlt_alt in E1. qminmax; lra.
  - apply Qgt_alt in E1.
    destruct (x ?= hi)%Q eqn:E2;
      [apply Qeq_alt in E2 | apply Qlt_alt in E2 | apply Qgt_alt in E2];
      qminmax; lra.
Qed.

Lemma admin_clamp_normalize (value : option Q) (total_beds : Z) :
  (Predictions._clamp_occupancy value total_beds
   == Spec.normalize value total_beds)%Q.
Proof.
  unfold Predictions._clamp_occupancy, Spec.normalize, or0.
  destruct (Z.leb_spec total_beds 0) as [Hb|Hb].
  - destruct value as [v|].
    + destruct (v ?= 0)%Q eqn:E;
        [apply Qeq_alt in E | apply Qlt_alt in E | apply Qgt_alt in E];
        qminmax; lra.
    + reflexivity.
  - symmetry. apply spec_clamp_eq.
    rewrite <- (Zle_Qle 0). lia.
Qed.

Lemma admin_clamp_bounds (value : option Q) (total_beds : Z) :
  (0 <= Predictions._clamp_occupancy value total_beds)%Q /\
  (0 < total_beds ->
   (Predictions._clamp_occupancy value total_beds <= inject_Z total_beds)%Q).
Proof.
  unfold Predictions._clamp_occupancy.
  destruct (Z.leb_spec total_beds 0) as [Hb|Hb].
  - split; [qminmax; lra | lia].
  - assert (0 <= inject_Z total_beds)%Q by (rewrite <- (Zle_Qle 0); lia).
    split; [|intros _]; qminmax; lra.
Qed.

Lemma admin_clamp_ext (x y : Q) (total_beds : Z) :
  (x == y)%Q ->
  (Predictions._clamp_occupancy (Some x) total_beds
   == Predictions._clamp_occupancy (Some y) total_beds)%Q.
Proof.
  intros E. unfold Predictions._clamp_occupancy, or0.
  destruct (total_beds <=? 0); now rewrite E.
Qed.

Lemma public_clamp_bounds (value : option Q) (total_beds : Z) :
  0 <= Public._clamp_occupancy value total_beds /\
  (0 < total_beds -> Public._clamp_occupancy value total_beds <= total_beds).
Proof.
  unfold Public._clamp_occupancy.
  destruct (Z.leb_spec total_beds 0); split; lia.
Qed.

Lemma inject_Z_max (a b : Z) :
  (inject_Z (Z.max a b) == Qmax (inject_Z a) (inject_Z b))%Q.
Proof.
  destruct (Z.max_spec a b) as [[H E]|[H E]]; rewrite E;
    [rewrite Zlt_Qlt in H | rewrite Zle_Qle in H]; qminmax; lra.
Qed.

Lemma inject_Z_min (a b : Z) :
  (inject_Z (Z.min a b) == Qmin (inject_Z a) (inject_Z b))%Q.
Proof.
  destruct (Z.min_spec a b) as [[H E]|[H E]]; rewrite E;
    [rewrite Zlt_Qlt in H | rewrite Zle_Qle in H]; qminmax; lra.
Qed.

(** On an [int] argument the two normalizers agree. *)
Lemma public_admin_clamp (v : option Z) (total_beds : Z) :
  (inject_Z (Public._clamp_occupancy (of_int v) total_beds)
   == Predictions._clamp_occupancy (of_int v) total_beds)%Q.
Proof.
  unfold Public._clamp_occupancy, Predictions._clamp_occupancy.
  assert (E : (inject_Z (int (or0 (of_int v))) == or0 (of_int v))%Q).
  { destruct v as [z|]; cbn [of_int option_map or0];
      [now rewrite int_inject_Z | reflexivity]. }
  destruct (total_beds <=? 0).
  - rewrite inject_Z_max, E. reflexivity.
  - rewrite inject_Z_max, inject_Z_min, E. reflexivity.
Qed.

Lemma public_clamp_normalize (v : option Z) (total_beds : Z) :
  (inject_Z (Public._clamp_occupancy (of_int v) total_beds)
   == Spec.normalize (of_int v) total_beds)%Q.
Proof.
  rewrite public_admin_clamp. apply admin_clamp_normalize.
Qed.

(** ** The trend fallback forecasters in closed form *)

Lemma admin_fallback_unfold (r : EHRRecord) (rs : list EHRRecord)
    (total_beds days : Z) :
  let ehr_records := r :: rs in
  let normalized :=
    map (fun record =>
           Predictions._clamp_occupancy (of_int (occupied_beds record)) total_beds)
        ehr_records in
  Predictions._build_fallback_predictions ehr_records total_beds days =
  Ok (map (admin_point total_beds (date (last ehr_records r))
             (Predictions._clamp_occupancy
                (of_int (occupied_beds (last ehr_records r))) total_beds)
             (Qmax (-5)
                (Qmin 5 (avg_of_Q (diffs_with Qminus (slice_last 8 normalized))))))
          (range 1 (days + 1))).
Proof.
  intros ehr_records normalized.
  unfold Predictions._build_fallback_predictions.
  cbv beta iota zeta. fold ehr_records. fold normalized.
  rewrite (deltas_comprehension Qminus). cbn [bind].
  assert (Havg :
    match diffs_with Qminus (slice_last 8 normalized) with
    | [] => Ok 0%Q
    | _ :: _ =>
        truediv (sumQ (diffs_with Qminus (slice_last 8 normalized)))
                (inject_Z (len (diffs_with Qminus (slice_last 8 normalized))))
    end = Ok (avg_of_Q (diffs_with Qminus (slice_last 8 normalized)))).
  { destruct (diffs_with Qminus (slice_last 8 normalized)) as [|d ds];
      [reflexivity | apply truediv_len]. }
  rewrite Havg. cbn [bind].
  unfold ehr_records at 1. cbv iota.
  unfold ehr_records at 1. rewrite getitem_last. cbn [bind].
  unfold normalized at 1, ehr_records at 1. cbn [map].
  rewrite getitem_last. cbn [bind].
  rewrite (last_map_cons
             (fun record =>
                Predictions._clamp_occupancy (of_int (occupied_beds record)) total_beds)).
  f_equal.
  exact (fold_left_append (admin_point _ _ _ _) _ []).
Qed.

Lemma public_fallback_unfold (r : EHRRecord) (rs : list EHRRecord)
    (total_beds days : Z) :
  let ehr_records := r :: rs in
  let normalized :=
    map (fun record =>
           Public._clamp_occupancy (of_int (occupied_beds record)) total_beds)
        ehr_records in
  Public._build_fallback_forecast ehr_records total_beds days =
  Ok (map (public_point total_beds (date (last ehr_records r))
             (Public._clamp_occupancy
                (of_int (occupied_beds (last ehr_records r))) total_beds)
             (Qmax (-5)
                (Qmin 5 (avg_of_Z (diffs_with Z.sub (slice_last 8 normalized))))))
          (range 1 (days + 1))).
Proof.
  intros ehr_records normalized.
  unfold Public._build_fallback_forecast.
  cbv beta iota zeta. fold ehr_records. fold normalized.
  rewrite (deltas_comprehension Z.sub). cbn [bind].
  assert (Havg :
    match diffs_with Z.sub (slice_last 8 normalized) with
    | [] => Ok 0%Q
    | _ :: _ =>
        truediv (inject_Z (sumZ (diffs_with Z.sub (slice_last 8 normalized))))
                (inject_Z (len (diffs_with Z.sub (slice_last 8 normalized))))
    end = Ok (avg_of_Z (diffs_with Z.sub (slice_last 8 normalized)))).
  { destruct (diffs_with Z.sub (slice_last 8 normalized)) as [|d ds];
      [reflexivity | apply truediv_len]. }
  rewrite Havg. cbn [bind].
  unfold ehr_records at 1. cbv iota.
  unfold ehr_records at 1. rewrite getitem_last. cbn [bind].
  unfold normalized at 1, ehr_records at 1. cbn [map].
  rewrite getitem_last. cbn [bind].
  rewrite (last_map_cons
             (fun record =>
                Public._clamp_occupancy (of_int (occupied_beds record)) total_beds)).
  f_equal.
  exact (fold_left_append (public_point _ _ _ _) _ []).
Qed.

(** ** The trend delta *)

Lemma spec_diffs_eq (l : list Q) : Spec.diffs l = diffs_with Qminus l.
Proof.
  induction l as [|a l IH]; [reflexivity|].
  destruct l as [|b t]; [reflexivity|].
  change (Spec.diffs (a :: b :: t)) with ((b - a)%Q :: Spec.diffs (b :: t)).
  now rewrite IH.
Qed.

Lemma diffs_with_nil {A : Type} (sub : A -> A -> A) (l : list A) :
  (List.length l < 2)%nat -> diffs_with sub l = [].
Proof.
  intros H. pose proof (diffs_with_length sub l) as E.
  destruct (diffs_with sub l); [reflexivity | simpl in E; lia].
Qed.

Lemma clamp5_eq (x : Q) : (Qmax (-5) (Qmin 5 x) == Spec.clamp (-5) 5 x)%Q.
Proof.
  rewrite spec_clamp_eq by discriminate.
  now rewrite Q.min_comm.
Qed.

(** The admin forecaster's clamped average is the specified trend delta. *)
Lemma admin_trend (normalized : list Q) :
  (Qmax (-5) (Qmin 5 (avg_of_Q (diffs_with Qminus (slice_last 8 normalized))))
   == Spec.trend_delta normalized)%Q.
Proof.
  unfold Spec.trend_delta, Spec.window.
  change (skipn (List.length normalized - 8) normalized)
    with (slice_last 8 normalized).
  set (w := slice_last 8 normalized).
  rewrite spec_diffs_eq.
  destruct (Nat.ltb_spec (List.length w) 2) as [H|H].
  - rewrite (diffs_with_nil Qminus w H). reflexivity.
  - pose proof (diffs_with_length Qminus w) as E.
    destruct (diffs_with Qminus w) as [|d ds] eqn:Ed; [simpl in E; lia|].
    apply clamp5_eq.
Qed.

Lemma sum_diffs_inject (w : list Z) (accQ : Q) (accZ : Z) :
  (accQ == inject_Z accZ)%Q ->
  (fold_left Qplus (diffs_with Qminus (map inject_Z w)) accQ
   == inject_Z (fold_left Z.add (diffs_with Z.sub w) accZ))%Q.
Proof.
  revert accQ accZ. induction w as [|a w IH]; intros accQ accZ E; [exact E|].
  destruct w as [|b t]; [exact E|].
  change (diffs_with Qminus (map inject_Z (a :: b :: t)))
    with ((inject_Z b - inject_Z a)%Q :: diffs_with Qminus (map inject_Z (b :: t))).
  change (diffs_with Z.sub (a :: b :: t))
    with ((b - a) :: diffs_with Z.sub (b :: t)).
  cbn [fold_left]. apply IH.
  rewrite E, inject_Z_plus. unfold Z.sub. rewrite inject_Z_plus, inject_Z_opp.
  ring.
Qed.

(** The public forecaster's clamped average is the specified trend delta of
    its integer series. *)
Lemma public_trend (normalized : list Z) :
  (Qmax (-5) (Qmin 5 (avg_of_Z (diffs_with Z.sub (slice_last 8 normalized))))
   == Spec.trend_delta (map inject_Z normalized))%Q.
Proof.
  rewrite <- admin_trend, slice_last_map.
  set (w := slice_last 8 normalized).
  pose proof (diffs_with_length Z.sub w) as EZ.
  pose proof (diffs_with_length Qminus (map inject_Z w)) as EQ.
  rewrite length_map in EQ.
  pose proof (sum_diffs_inject w 0%Q 0 (Qeq_refl _)) as Es.
  fold (sumQ (diffs_with Qminus (map inject_Z w))) in Es.
  fold (sumZ (diffs_with Z.sub w)) in Es.
  destruct (diffs_with Z.sub w) as [|d ds] eqn:Ed;
    destruct (diffs_with Qminus (map inject_Z w)) as [|e es] eqn:Ee;
    try (simpl in EZ, EQ; lia); [reflexivity|].
  unfold avg_of_Z, avg_of_Q. rewrite Es.
  replace (len (e :: es)) with (len (d :: ds))
    by (unfold len; rewrite EZ, EQ; reflexivity).
  reflexivity.
Qed.


(** ** Claims about the normalizer and the fallback forecasters *)












(** ** Risk classification *)

Lemma Qle_bool_false (a b : Q) : (b < a)%Q -> Qle_bool a b = false.
Proof.
  intros H. destruct (Qle_bool a b) eqn:E; [|reflexivity].
  apply Qle_bool_iff in E. lra.
Qed.

Lemma Qle_bool_true (a b : Q) : (a <= b)%Q -> Qle_bool a b = true.
Proof. apply Qle_bool_iff. Qed.






(** ** The dashboard's overall status *)





(** ** Utilization and the forecast response *)

Lemma calculate_utilization_ok (occupied total_beds : Z) :
  Public._calculate_utilization occupied total_beds
  = Ok (utilization_of occupied total_beds).
Proof.
  unfold Public._calculate_utilization, utilization_of.
  destruct (Z.leb_spec total_beds 0) as [H|H]; [reflexivity|].
  rewrite truediv_nonzero by lia. reflexivity.
Qed.

Lemma foldM_invariant {A S : Type} (body : S -> A -> result S)
    (P : list A -> S -> Prop) (l : list A) (s0 : S) :
  P [] s0 ->
  (forall pre a s, In a l -> P pre s ->
                   exists s', body s a = Ok s' /\ P (pre ++ [a]) s') ->
  exists s', foldM body l s0 = Ok s' /\ P l s'.
Proof.
  intros H0 Hstep.
  assert (G : forall l' pre s,
             (forall a, In a l' -> In a l) -> P pre s ->
             exists s', foldM body l' s = Ok s' /\ P (pre ++ l') s').
  { induction l' as [|a l' IH]; intros pre s Hin Hs.
    - exists s. rewrite app_nil_r. now split.
    - destruct (Hstep pre a s (Hin a (or_introl eq_refl)) Hs) as (s1 & E1 & H1).
      destruct (IH (pre ++ [a]) s1 (fun x Hx => Hin x (or_intror Hx)) H1)
        as (s' & E' & H').
      exists s'. cbn [foldM]. rewrite E1. split; [exact E'|].
      now rewrite <- app_assoc in H'. }
  exact (G l [] s0 (fun a Ha => Ha) H0).
Qed.

(** Appending one day keeps the earliest minimum up to date. *)
Lemma earliest_minimum_step (days : list Public.DayForecast)
    (best occ : option Z) (d : Public.DayForecast) :
  Spec.earliest_minimum days best occ ->
  let below :=
    match occ with
    | None => true
    | Some m => Public.df_predicted_occupancy d <? m
    end in
  Spec.earliest_minimum (days ++ [d])
    (if below then Some (Public.df_date d) else best)
    (if below then Some (Public.df_predicted_occupancy d) else occ).
Proof.
  intros [(-> & -> & ->) | (k & d0 & Hk & -> & -> & Hall & Hbefore)] below.
  - right. exists 0%nat, d. cbn. repeat split.
    + intros [|j] d' Hj; cbn in Hj; [injection Hj as <-; lia|].
      destruct j; discriminate.
    + intros j d' Hj. lia.
  - right. unfold below. clear below.
    assert (Hlen : (k < List.length days)%nat)
      by (apply nth_error_Some; congruence).
    destruct (Z.ltb_spec (Public.df_predicted_occupancy d)
                         (Public.df_predicted_occupancy d0)) as [Hlt|Hge].
    + exists (List.length days), d.
      split; [now rewrite nth_error_app2, Nat.sub_diag by lia|].
      split; [reflexivity|]. split; [reflexivity|]. split.
      * intros j d' Hj.
        destruct (Nat.lt_ge_cases j (List.length days)) as [Hj'|Hj'].
        -- rewrite nth_error_app1 in Hj by exact Hj'.
           specialize (Hall j d' Hj). lia.
        -- rewrite nth_error_app2 in Hj by exact Hj'.
           destruct (j - List.length days)%nat as [|n]; cbn in Hj;
             [injection Hj as <-; lia | destruct n; discriminate].
      * intros j d' Hj' Hj.
        rewrite nth_error_app1 in Hj by exact Hj'.
        specialize (Hall j d' Hj). lia.
    + exists k, d0.
      split; [now rewrite nth_error_app1 by exact Hlen|].
      split; [reflexivity|]. split; [reflexivity|]. split.
      * intros j d' Hj.
        destruct (Nat.lt_ge_cases j (List.length days)) as [Hj'|Hj'].
        -- rewrite nth_error_app1 in Hj by exact Hj'. exact (Hall j d' Hj).
        -- rewrite nth_error_app2 in Hj by exact Hj'.
           destruct (j - List.length days)%nat as [|n]; cbn in Hj;
             [injection Hj as <-; lia | destruct n; discriminate].
      * intros j d' Hj' Hj.
        rewrite nth_error_app1 in Hj by lia.
        exact (Hbefore j d' Hj' Hj).
Qed.

Lemma earliest_minimum_none (days : list Public.DayForecast)
    (best occ : option Z) :
  Spec.earliest_minimum days best occ ->
  (best = None <-> days = []) /\ (occ = None <-> days = []).
Proof.
  intros [(-> & -> & ->) | (k & d & Hk & -> & -> & _)].
  - repeat split.
  - assert (days <> []) by (intros ->; destruct k; discriminate).
    repeat split; intros; try discriminate; contradiction.
Qed.

(** [_format_forecast_response] never raises; it formats every dict and
    reports the earliest day of least occupancy. *)
Lemma format_forecast_response_ok (predictions : list Prediction)
    (total_beds : Z) :
  exists best occ,
    Public._format_forecast_response predictions total_beds
    = Ok (map (day_of total_beds) predictions, best, occ) /\
    Spec.earliest_minimum (map (day_of total_beds) predictions) best occ.
Proof.
  unfold Public._format_forecast_response.
  destruct (foldM_invariant
              (Public.format_step total_beds)
              (fun pre st =>
                 Public.forecast_days st = map (day_of total_beds) pre /\
                 Spec.earliest_minimum (Public.forecast_days st)
                   (Public.best_day st) (Public.min_occupancy st))
              predictions
              {| Public.forecast_days := [];
                 Public.min_occupancy := None;
                 Public.best_day := None |})
    as (st & E & Hdays & Hmin).
  - split; [reflexivity|]. left. repeat split.
  - intros pre pred st _ [Hd Hm]. unfold Public.format_step.
    rewrite calculate_utilization_ok. cbn [bind].
    eexists. split; [reflexivity|].
    cbn [Public.forecast_days Public.min_occupancy Public.best_day].
    split.
    + rewrite Hd, map_app. reflexivity.
    + exact (earliest_minimum_step _ _ _ (day_of total_beds pred) Hm).
  - rewrite E. cbn [bind]. exists (Public.best_day st), (Public.min_occupancy st).
    rewrite <- Hdays. split; [reflexivity | exact Hmin].
Qed.

(** C10. [_format_forecast_response] never raises and formats every
    forecast dict; in the public forecast response [best_day_to_visit] is
    the date of the first forecast day whose predicted occupancy is the
    smallest of the horizon, [best_day_occupancy] is that occupancy, and
    each of them is [None] exactly when the forecast sequence is empty. *)
Theorem best_day_is_earliest_minimum :
  (forall (predictions : list Prediction) (total_beds : Z),
      exists days best occ,
        Public._format_forecast_response predictions total_beds
        = Ok (days, best, occ) /\
        List.length days = List.length predictions /\
        Spec.earliest_minimum days best occ) /\
  (forall service_predict_occupancy db hospital_id days response,
      Public.get_hospital_forecast service_predict_occupancy db hospital_id days
      = Ok response ->
      Spec.earliest_minimum (Public.hf_forecast response)
        (Public.best_day_to_visit response)
        (Public.best_day_occupancy response) /\
      (Public.best_day_to_visit response = None
       <-> Public.hf_forecast response = []) /\
      (Public.best_day_occupancy response = None
       <-> Public.hf_forecast response = [])).
Proof.
  split.
  - intros predictions total_beds.
    destruct (format_forecast_response_ok predictions total_beds)
      as (best & occ & E & H).
    exists (map (day_of total_beds) predictions), best, occ.
    split; [exact E|]. split; [apply length_map | exact H].
  - intros sp db hospital_id days response.
    unfold Public.get_hospital_forecast.
    destruct (query_hospital db hospital_id) as [hospital|]; [|discriminate].
    assert (G : forall r : Public.HospitalForecast,
               Spec.earliest_minimum (Public.hf_forecast r)
                 (Public.best_day_to_visit r) (Public.best_day_occupancy r) ->
               Spec.earliest_minimum (Public.hf_forecast r)
                 (Public.best_day_to_visit r) (Public.best_day_occupancy r) /\
               (Public.best_day_to_visit r = None <-> Public.hf_forecast r = []) /\
               (Public.best_day_occupancy r = None <-> Public.hf_forecast r = [])).
    { intros r Hr. split; [exact Hr | exact (earliest_minimum_none _ _ _ Hr)]. }
    destruct (len (query_records db hospital_id) =? 0).
    + intros [= <-]. apply G. left. repeat split.
    + destruct (Public.select_predictions sp (query_records db hospital_id)
                  (total_beds hospital) days) as [predictions|e];
        [|discriminate].
      cbn [bind].
      destruct (format_forecast_response_ok predictions (total_beds hospital))
        as (best & occ & E & H).
      rewrite E. cbn [bind]. intros [= <-]. apply G. exact H.
Qed.

(** A three-record hospital whose model fails: the fallback forecast holds
    63 beds on each of the three days, and the first day is the best. *)
Lemma best_day_is_earliest_minimum_witness :
  let db := storage_of [(mkHospital 1 "General" "Pune" 100 10,
                         series 0 [63; 63; 63])] in
  exists response,
    Public.get_hospital_forecast failing_service db 1 3 = Ok response /\
    Public.best_day_to_visit response = Some 3 /\
    Public.best_day_occupancy response = Some 63 /\
    Spec.earliest_minimum (Public.hf_forecast response)
      (Public.best_day_to_visit response)
      (Public.best_day_occupancy response).
Proof.
  intros db.
  destruct (Public.get_hospital_forecast failing_service db 1 3)
    as [response|e] eqn:E; [|vm_compute in E; discriminate].
  exists response. split; [reflexivity|].
  split; [vm_compute in E; now injection E as <- |].
  split; [vm_compute in E; now injection E as <- |].
  exact (proj1 (proj2 best_day_is_earliest_minimum failing_service db 1 3
                  response E)).
Defined.

(** ** Comparison and alerts *)

Lemma latest_record_some (db : Storage) (hospital_id : Z) (latest : EHRRecord) :
  query_latest_record db hospital_id = Some latest ->
  exists r rs, query_records db hospital_id = r :: rs.
Proof.
  unfold query_latest_record.
  destruct (query_records db hospital_id) as [|r rs]; [discriminate|].
  intros _. now exists r, rs.
Qed.

Lemma len_nonzero {A : Type} (a : A) (l : list A) : len (a :: l) <> 0.
Proof. unfold len. simpl List.length. lia. Qed.

Lemma inject_Z_len_cons {A : Type} (a : A) (l : list A) :
  (inject_Z (len (a :: l)) == inject_Z (len l) + 1)%Q.
Proof.
  unfold len. simpl List.length. rewrite Nat2Z.inj_succ.
  unfold Z.succ. rewrite inject_Z_plus. reflexivity.
Qed.

Lemma sumQ_lower (lo : Q) (l : list Q) (acc : Q) :
  Forall (fun x => lo <= x)%Q l ->
  (acc + lo * inject_Z (len l) <= fold_left Qplus l acc)%Q.
Proof.
  revert acc. induction l as [|x l IH]; intros acc H.
  - cbn [fold_left]. change (inject_Z (len [])) with 0%Q. lra.
  - inversion H as [|? ? Hx Hl]; subst.
    cbn [fold_left]. specialize (IH (acc + x)%Q Hl).
    rewrite inject_Z_len_cons. lra.
Qed.

Lemma sumQ_upper (hi : Q) (l : list Q) (acc : Q) :
  Forall (fun x => x <= hi)%Q l ->
  (fold_left Qplus l acc <= acc + hi * inject_Z (len l))%Q.
Proof.
  revert acc. induction l as [|x l IH]; intros acc H.
  - cbn [fold_left]. change (inject_Z (len [])) with 0%Q. lra.
  - inversion H as [|? ? Hx Hl]; subst.
    cbn [fold_left]. specialize (IH (acc + x)%Q Hl).
    rewrite inject_Z_len_cons. lra.
Qed.

Lemma len_positive {A : Type} (l : list A) :
  l <> [] -> (0 < inject_Z (len l))%Q.
Proof.
  intros Hne. change 0%Q with (inject_Z 0). rewrite <- Zlt_Qlt.
  destruct l; [contradiction | unfold len; simpl List.length; lia].
Qed.

Lemma mean_lower (lo : Q) (l : list Q) :
  l <> [] -> Forall (fun x => lo <= x)%Q l ->
  (lo <= sumQ l / inject_Z (len l))%Q.
Proof.
  intros Hne H. pose proof (sumQ_lower lo l 0 H) as H1.
  fold (sumQ l) in H1.
  apply Qle_shift_div_l; [now apply len_positive | lra].
Qed.

Lemma mean_upper (hi : Q) (l : list Q) :
  l <> [] -> Forall (fun x => x <= hi)%Q l ->
  (sumQ l / inject_Z (len l) <= hi)%Q.
Proof.
  intros Hne H. pose proof (sumQ_upper hi l 0 H) as H1.
  fold (sumQ l) in H1.
  apply Qle_shift_div_r; [now apply len_positive | lra].
Qed.

Lemma mean_predicted_points (f : Z -> Prediction) (g : Z -> Q) (l : list Z) :
  (forall o, predicted_occupancy (f o) = Some (g o)) -> l <> [] ->
  Public.mean_predicted (map f l)
  = Ok (sumQ (map g l) / inject_Z (len (map g l)))%Q.
Proof.
  intros Hf Hne. unfold Public.mean_predicted.
  rewrite mapM_map, (mapM_pure _ g) by (intros o _; now rewrite Hf).
  cbn [bind].
  replace (len (map f l)) with (len (map g l))
    by (unfold len; now rewrite !length_map).
  destruct l as [|o l]; [contradiction|].
  cbn [map]. apply truediv_nonzero, len_nonzero.
Qed.

(** On at least one record the fallback average of [compare_hospitals] is
    defined and lies within the clamping range of the normalizer. *)
Lemma fallback_average (r : EHRRecord) (rs : list EHRRecord) (total_beds : Z) :
  exists fallback m,
    Public._build_fallback_forecast (r :: rs) total_beds 7 = Ok fallback /\
    fallback <> [] /\
    Public.mean_predicted fallback = Ok m /\
    (0 <= m)%Q /\ (0 < total_beds -> (m <= inject_Z total_beds)%Q).
Proof.
  pose proof (public_fallback_unfold r rs total_beds 7) as E. cbv zeta in E.
  set (f := public_point _ _ _ _) in E.
  set (g := fun o => or0 (predicted_occupancy (f o))).
  assert (Hf : forall o, predicted_occupancy (f o) = Some (g o))
    by reflexivity.
  assert (Hne : range 1 (7 + 1) <> []) by discriminate.
  exists (map f (range 1 (7 + 1))),
         (sumQ (map g (range 1 (7 + 1)))
          / inject_Z (len (map g (range 1 (7 + 1)))))%Q.
  split; [exact E|].
  split; [discriminate|].
  split; [exact (mean_predicted_points f g _ Hf Hne)|].
  split.
  - apply mean_lower; [discriminate|].
    apply Forall_forall. intros x Hx. apply in_map_iff in Hx.
    destruct Hx as (o & <- & _).
    unfold g, f, public_point. cbn [predicted_occupancy or0].
    change 0%Q with (inject_Z 0). rewrite <- Zle_Qle.
    apply public_clamp_bounds.
  - intros Hpos. apply mean_upper; [discriminate|].
    apply Forall_forall. intros x Hx. apply in_map_iff in Hx.
    destruct Hx as (o & <- & _).
    unfold g, f, public_point. cbn [predicted_occupancy or0].
    rewrite <- Zle_Qle. now apply public_clamp_bounds.
Qed.


Section Recovery.

Variable service_predict_occupancy :
  list EHRRecord -> Z -> result (list Prediction * ModelInfo).


(** On at least one record the comparison's average never raises. *)
Lemma average_prediction_ok (r : EHRRecord) (rs : list EHRRecord)
    (total_beds : Z) (avg0 : Q) :
  exists m,
    Public.average_prediction service_predict_occupancy (r :: rs) total_beds avg0
    = Ok m.
Proof.
  destruct (fallback_average r rs total_beds) as (fb & m & Efb & Hne & Em & _).
  unfold Public.average_prediction. rewrite Efb. cbn [bind].
  assert (Efrom : match fb with
                  | [] => Ok avg0
                  | _ :: _ => Public.mean_predicted fb
                  end = Ok m)
    by (destruct fb; [contradiction | exact Em]).
  rewrite Efrom.
  destruct (14 <=? len (r :: rs)); [|now exists m].
  destruct (service_predict_occupancy (r :: rs) 7) as [p|e]; cbn [bind try_except].
  - destruct (Public.mean_predicted (fst p)) as [m'|e'];
      [now exists m' | now exists m].
  - now exists m.
Qed.



(** With capacity zero the score divides by zero. *)
Lemma compare_step_zero_beds (db : Storage)
    (comparisons : list Public.HospitalComparison) (hospital : Hospital) :
  has_record db hospital = true -> total_beds hospital = 0 ->
  Public.compare_step service_predict_occupancy db comparisons hospital
  = Raise ZeroDivisionError.
Proof.
  unfold has_record, Public.compare_step. intros Hrec Hbeds.
  destruct (query_latest_record db (id hospital)) as [latest|] eqn:El;
    [|discriminate].
  destruct (latest_record_some db (id hospital) latest El) as (r & rs & Er).
  rewrite calculate_utilization_ok. cbn [bind]. rewrite Er.
  destruct (average_prediction_ok r rs (total_beds hospital)
              (inject_Z (Public._clamp_occupancy (of_int (occupied_beds latest))
                                                 (total_beds hospital))))
    as (m & Em).
  rewrite Em. cbn [bind]. rewrite Hbeds. reflexivity.
Qed.

End Recovery.

Lemma insert_desc_perm (x : Public.HospitalComparison)
    (l : list Public.HospitalComparison) :
  Permutation (Public.insert_desc x l) (x :: l).
Proof.
  induction l as [|y l IH]; [reflexivity|].
  cbn [Public.insert_desc].
  destruct (Qle_bool _ _); [reflexivity|].
  rewrite IH. apply perm_swap.
Qed.

Lemma sort_desc_perm (l : list Public.HospitalComparison) :
  Permutation (Public.sort_desc l) l.
Proof.
  induction l as [|x l IH]; [reflexivity|].
  unfold Public.sort_desc in *. cbn [fold_right].
  rewrite insert_desc_perm. now constructor.
Qed.





Section ModelFailure.

Variable service_predict_occupancy :
  list EHRRecord -> Z -> result (list Prediction * ModelInfo).
Variable service_generate_alerts :
  list Prediction -> Z -> string -> result (list AlertItem).







End ModelFailure.

(** ** Claims about model failure, scores and degenerate capacity *)




(** C5 (code defect). A 100-bed hospital, full today, whose primary model
    forecasts 150 beds a day: [compare_hospitals] averages the forecast
    unclamped and reports a recommendation score of -25. *)
Theorem comparison_score_leaves_range :
  let hospital := mkHospital 1 "General" "Pune" 100 10 in
  let db := storage_of [(hospital,
                         series 0 [100; 100; 100; 100; 100; 100; 100; 100;
                                   100; 100; 100; 100; 100; 100])] in
  exists entry,
    Public.compare_hospitals (constant_service 150) db None = Ok [entry] /\
    Public.hc_current_occupancy entry = 100 /\
    (Public.avg_predicted_occupancy_7_days entry == 150)%Q /\
    (Public.recommendation_score entry == -25)%Q /\
    (Public.recommendation_score entry < 0)%Q.
Proof.
  cbv zeta. eexists. split; [vm_compute; reflexivity|].
  cbn [Public.hc_current_occupancy Public.avg_predicted_occupancy_7_days
       Public.recommendation_score].
  repeat split.
Qed.


(** The two extreme scores: empty now and over the horizon is 100, full
    now and over the horizon is 0. *)
Lemma score_of_extremes (total_beds : Z) :
  0 < total_beds ->
  (score_of total_beds 0 0 == 100)%Q /\
  (score_of total_beds total_beds (inject_Z total_beds) == 0)%Q.
Proof.
  intros Hpos. unfold score_of.
  assert (Hb : ~ (inject_Z total_beds == 0)%Q).
  { change 0%Q with (inject_Z 0). rewrite inject_Z_injective. lia. }
  rewrite Z.sub_0_r, Z.sub_diag. split; field; exact Hb.
Qed.

(** C8 (code defect). A hospital with [total_beds = 0] and one record:
    the availability endpoint reports utilization 0, but
    [compare_hospitals] and [get_dashboard] divide by the capacity and
    raise [ZeroDivisionError]. *)
Theorem zero_capacity_division :
  let hospital := mkHospital 1 "General" "Pune" 0 0 in
  let db := storage_of [(hospital, series 0 [5])] in
  (forall service_predict_occupancy,
      Public.compare_hospitals service_predict_occupancy db None
      = Raise ZeroDivisionError) /\
  (forall service_predict_occupancy service_generate_alerts today,
      Predictions.get_dashboard service_predict_occupancy
        service_generate_alerts db today 1
      = Raise ZeroDivisionError) /\
  (exists response,
      Public.get_hospital_availability db 1 = Ok response /\
      (Public.ha_utilization_percentage response == 0)%Q).
Proof.
  cbv zeta. split; [|split].
  - intros sp. reflexivity.
  - intros sp sa today. reflexivity.
  - eexists. split; [reflexivity|]. reflexivity.
Qed.

(** What does hold for a non-positive capacity: the utilization helper
    reports 0 without dividing, and the normalizer skips the upper clamp. *)
Lemma nonpositive_capacity_utilization (occupied total_beds : Z) :
  total_beds <= 0 ->
  Public._calculate_utilization occupied total_beds = Ok 0%Q /\
  Public._clamp_occupancy (Some (inject_Z occupied)) total_beds
  = Z.max 0 occupied.
Proof.
  intros H. unfold Public._calculate_utilization, Public._clamp_occupancy.
  destruct (Z.leb_spec total_beds 0); [|lia].
  cbn [or0]. now rewrite int_inject_Z.
Qed.




(** * Further properties of the two routers *)

(** ** Rounding and clamping, once more *)

Lemma round_mono (x y : Q) : (x <= y)%Q -> round x <= round y.
Proof.
  intros H.
  destruct (Z.le_gt_cases (round x) (round y)) as [Hle|Hgt]; [exact Hle|].
  exfalso.
  pose proof (round_near x) as [_ Hx].
  pose proof (round_near y) as [Hy _].
  assert (H1 : (inject_Z (round y) + 1 <= inject_Z (round x))%Q).
  { change 1%Q with (inject_Z 1). rewrite <- inject_Z_plus, <- Zle_Qle. lia. }
  assert (E : (x == y)%Q) by lra.
  rewrite (round_comp _ _ E) in Hgt. lia.
Qed.

Lemma round1_mono (x y : Q) : (x <= y)%Q -> (round1 x <= round1 y)%Q.
Proof.
  intros H. unfold round1.
  assert (Hr : round (x * 10) <= round (y * 10)) by (apply round_mono; lra).
  rewrite Zle_Qle in Hr.
  apply Qle_shift_div_l; [reflexivity|].
  assert (E : (inject_Z (round (x * 10)) / 10 * 10
               == inject_Z (round (x * 10)))%Q) by field.
  rewrite E. exact Hr.
Qed.

Lemma round1_lower (x : Q) (z : Z) :
  (inject_Z z <= x)%Q -> (inject_Z z <= round1 x)%Q.
Proof.
  intros H. rewrite <- (round1_inject_Z z). now apply round1_mono.
Qed.

Lemma round1_upper (x : Q) (z : Z) :
  (x <= inject_Z z)%Q -> (round1 x <= inject_Z z)%Q.
Proof.
  intros H. rewrite <- (round1_inject_Z z). now apply round1_mono.
Qed.

Lemma public_clamp_idempotent (v : option Q) (total_beds : Z) :
  Public._clamp_occupancy
    (Some (inject_Z (Public._clamp_occupancy v total_beds))) total_beds
  = Public._clamp_occupancy v total_beds.
Proof.
  unfold Public._clamp_occupancy at 1. cbn [or0]. rewrite int_inject_Z.
  pose proof (public_clamp_bounds v total_beds) as [H0 H1].
  destruct (Z.leb_spec total_beds 0); lia.
Qed.

Lemma admin_clamp_idempotent (v : option Q) (total_beds : Z) :
  (Predictions._clamp_occupancy
     (Some (Predictions._clamp_occupancy v total_beds)) total_beds
   == Predictions._clamp_occupancy v total_beds)%Q.
Proof.
  pose proof (admin_clamp_bounds v total_beds) as [H0 H1].
  unfold Predictions._clamp_occupancy at 1. cbn [or0].
  destruct (Z.leb_spec total_beds 0) as [Hb|Hb].
  - set (c := Predictions._clamp_occupancy v total_beds) in *. clearbody c.
    qminmax; lra.
  - specialize (H1 Hb).
    set (c := Predictions._clamp_occupancy v total_beds) in *. clearbody c.
    qminmax; lra.
Qed.

Lemma admin_clamp_mono (x y : Q) (total_beds : Z) :
  (x <= y)%Q ->
  (Predictions._clamp_occupancy (Some x) total_beds
   <= Predictions._clamp_occupancy (Some y) total_beds)%Q.
Proof.
  intros H. unfold Predictions._clamp_occupancy, or0.
  destruct (total_beds <=? 0); qminmax; lra.
Qed.

(** ** Ranking *)

Lemma insert_desc_sorted (x : Public.HospitalComparison)
    (l : list Public.HospitalComparison) :
  StronglySorted by_score_desc l ->
  StronglySorted by_score_desc (Public.insert_desc x l).
Proof.
  induction l as [|y l IH]; intros Hs; cbn [Public.insert_desc].
  - repeat constructor.
  - inversion Hs as [|? ? Hl Hy]; subst.
    destruct (Qle_bool (Public.recommendation_score y)
                       (Public.recommendation_score x)) eqn:E.
    + apply Qle_bool_iff in E. constructor; [exact Hs|].
      constructor; [exact E|].
      eapply Forall_impl; [|exact Hy].
      intros z Hz. unfold by_score_desc in *. lra.
    + constructor; [now apply IH|].
      assert (Hlt : (Public.recommendation_score x
                     < Public.recommendation_score y)%Q).
      { destruct (Qlt_le_dec (Public.recommendation_score x)
                             (Public.recommendation_score y)) as [H|H];
          [exact H|].
        apply Qle_bool_iff in H. congruence. }
      apply (Permutation_Forall (Permutation_sym (insert_desc_perm x l))).
      constructor; [unfold by_score_desc; lra | exact Hy].
Qed.

Lemma sort_desc_sorted (l : list Public.HospitalComparison) :
  StronglySorted by_score_desc (Public.sort_desc l).
Proof.
  induction l as [|x l IH]; [constructor|].
  unfold Public.sort_desc in *. cbn [fold_right].
  now apply insert_desc_sorted.
Qed.

Lemma insert_desc_stable (v : Q) (x : Public.HospitalComparison)
    (l : list Public.HospitalComparison) :
  filter (same_score v) (Public.insert_desc x l)
  = filter (same_score v) (x :: l).
Proof.
  induction l as [|y l IH]; [reflexivity|].
  cbn [Public.insert_desc].
  destruct (Qle_bool (Public.recommendation_score y)
                     (Public.recommendation_score x)) eqn:E; [reflexivity|].
  cbn [filter] in *. rewrite IH.
  destruct (same_score v x) eqn:Ex; [|reflexivity].
  destruct (same_score v y) eqn:Ey; [|reflexivity].
  unfold same_score in Ex, Ey.
  apply Qeq_bool_iff in Ex. apply Qeq_bool_iff in Ey.
  assert (Hle : (Public.recommendation_score y
                 <= Public.recommendation_score x)%Q) by lra.
  apply Qle_bool_iff in Hle. congruence.
Qed.

Lemma sort_desc_stable (v : Q) (l : list Public.HospitalComparison) :
  filter (same_score v) (Public.sort_desc l) = filter (same_score v) l.
Proof.
  induction l as [|x l IH]; [reflexivity|].
  unfold Public.sort_desc in *. cbn [fold_right].
  rewrite insert_desc_stable. cbn [filter]. now rewrite IH.
Qed.

Lemma compare_hospitals_sorted service_predict_occupancy (db : Storage)
    (city : option string) (entries : list Public.HospitalComparison) :
  Public.compare_hospitals service_predict_occupancy db city = Ok entries ->
  exists comparisons,
    foldM (Public.compare_step service_predict_occupancy db)
          (query_hospitals db city) [] = Ok comparisons /\
    entries = Public.sort_desc comparisons.
Proof.
  unfold Public.compare_hospitals.
  destruct (query_hospitals db city) as [|h hs]; [discriminate|].
  destruct (foldM _ (h :: hs) []) as [comparisons|e]; [|discriminate].
  cbn [bind]. intros [= <-]. now exists comparisons.
Qed.

(** X1. Whatever [compare_hospitals] returns is the list of entries built
    in the order of the hospital query, rearranged so that recommendation
    scores never increase along the list, entries of equal score keeping
    their query order. *)
Theorem comparison_ranking :
  forall service_predict_occupancy (db : Storage) (city : option string)
         (entries : list Public.HospitalComparison),
    Public.compare_hospitals service_predict_occupancy db city = Ok entries ->
    exists comparisons,
      foldM (Public.compare_step service_predict_occupancy db)
            (query_hospitals db city) [] = Ok comparisons /\
      Permutation entries comparisons /\
      StronglySorted by_score_desc entries /\
      forall v, filter (same_score v) entries = filter (same_score v) comparisons.
Proof.
  intros sp db city entries E.
  destruct (compare_hospitals_sorted sp db city entries E)
    as (comparisons & Ef & ->).
  exists comparisons. split; [exact Ef|].
  split; [apply sort_desc_perm|].
  split; [apply sort_desc_sorted | intros v; apply sort_desc_stable].
Qed.

(** Three hospitals at 20, 60 and 20 of 100 beds, in this order: the ranking
    puts the two emptier ones first, in their query order. *)
Lemma comparison_ranking_witness :
  let db :=
    storage_of
      [(mkHospital 1 "North" "Pune" 100 10, series 0 [20; 20]);
       (mkHospital 2 "East" "Pune" 100 10, series 0 [60; 60]);
       (mkHospital 3 "South" "Pune" 100 10, series 0 [20; 20])] in
  exists entries,
    Public.compare_hospitals failing_service db None = Ok entries /\
    map Public.hc_hospital_id entries = [1; 3; 2] /\
    StronglySorted by_score_desc entries.
Proof.
  intros db.
  destruct (Public.compare_hospitals failing_service db None)
    as [entries|e] eqn:E; [|vm_compute in E; discriminate].
  exists entries. split; [reflexivity|].
  destruct (comparison_ranking failing_service db None entries E)
    as (comparisons & _ & _ & Hs & _).
  split; [|exact Hs].
  vm_compute in E. injection E as <-. reflexivity.
Defined.

(** X2. [get_city_recommendation] answers 404 when the comparison of the
    city yields no entry, passes on any error of the comparison, and on
    every non-empty ranking answers with the whole ranking and recommends
    its first entry: no entry scores higher, and the reason is chosen by
    that entry's risk level.  It answers in no other way. *)
Theorem recommendation_is_top_ranked :
  forall service_predict_occupancy (db : Storage) (city : string),
    (Public.compare_hospitals service_predict_occupancy db (Some city) = Ok [] ->
     Public.get_city_recommendation service_predict_occupancy db city
     = Raise (HTTPException 404)) /\
    (forall e,
        Public.compare_hospitals service_predict_occupancy db (Some city)
        = Raise e ->
        Public.get_city_recommendation service_predict_occupancy db city
        = Raise e) /\
    (forall best rest,
        Public.compare_hospitals service_predict_occupancy db (Some city)
        = Ok (best :: rest) ->
        exists r,
          Public.get_city_recommendation service_predict_occupancy db city
          = Ok r /\
          Public.cr_city r = city /\
          Public.recommended_hospitals r = best :: rest /\
          Public.best_hospital_id r = Public.hc_hospital_id best /\
          Forall (fun entry =>
                    (Public.recommendation_score entry
                     <= Public.recommendation_score best)%Q) (best :: rest) /\
          (Public.hc_risk_level best = "low"%string ->
           Public.reason r
           = Public.GoodAvailability (Public.hc_hospital_id best)
               (Public.hc_current_available best)
               (Public.hc_utilization_percentage best)) /\
          (Public.hc_risk_level best = "medium"%string ->
           Public.reason r
           = Public.ModeratelyBusy (Public.hc_hospital_id best)
               (Public.hc_utilization_percentage best)) /\
          (Public.hc_risk_level best <> "low"%string ->
           Public.hc_risk_level best <> "medium"%string ->
           Public.reason r
           = Public.BestDespiteHighOccupancy (Public.hc_hospital_id best))) /\
    (forall r,
        Public.get_city_recommendation service_predict_occupancy db city = Ok r ->
        exists best rest,
          Public.compare_hospitals service_predict_occupancy db (Some city)
          = Ok (best :: rest)).
Proof.
  intros sp db city. unfold Public.get_city_recommendation.
  split; [|split; [|split]].
  - intros ->. reflexivity.
  - intros e ->. reflexivity.
  - intros best rest E. rewrite E. cbn [bind]. eexists.
    split; [reflexivity|].
    cbn [Public.cr_city Public.recommended_hospitals Public.best_hospital_id
         Public.reason].
    split; [reflexivity|]. split; [reflexivity|]. split; [reflexivity|].
    split.
    + destruct (compare_hospitals_sorted sp db (Some city) _ E)
        as (comparisons & _ & Es).
      pose proof (sort_desc_sorted comparisons) as Hs. rewrite <- Es in Hs.
      inversion Hs as [|? ? _ Hall]; subst.
      constructor; [apply Qle_refl | exact Hall].
    + split; [intros ->; reflexivity|].
      split; [intros ->; reflexivity|].
      intros Hlow Hmedium.
      destruct (String.eqb_spec (Public.hc_risk_level best) "low");
        [contradiction|].
      destruct (String.eqb_spec (Public.hc_risk_level best) "medium");
        [contradiction | reflexivity].
  - intros r.
    destruct (Public.compare_hospitals sp db (Some city))
      as [[|best rest]|e]; cbn [bind]; try discriminate.
    intros _. now exists best, rest.
Qed.

(** ** The fallback forecasters, further *)







(** *** The trend delta depends on its series only up to [==] *)

Lemma diffs_ext (l1 l2 : list Q) :
  Forall2 Qeq l1 l2 -> Forall2 Qeq (Spec.diffs l1) (Spec.diffs l2).
Proof.
  intros H. induction H as [|a b l1 l2 Hab Hl IH]; [constructor|].
  destruct Hl as [|a' b' l1' l2' Hab' Hl']; [constructor|].
  change (Spec.diffs (a :: a' :: l1'))
    with ((a' - a)%Q :: Spec.diffs (a' :: l1')).
  change (Spec.diffs (b :: b' :: l2'))
    with ((b' - b)%Q :: Spec.diffs (b' :: l2')).
  constructor; [now rewrite Hab, Hab' | exact IH].
Qed.

Lemma fold_sum_ext (l1 l2 : list Q) (a1 a2 : Q) :
  Forall2 Qeq l1 l2 -> (a1 == a2)%Q ->
  (fold_left Qplus l1 a1 == fold_left Qplus l2 a2)%Q.
Proof.
  intros H. revert a1 a2.
  induction H as [|x y l1 l2 Hxy Hl IH]; intros a1 a2 Ha; [exact Ha|].
  cbn [fold_left]. apply IH. now rewrite Ha, Hxy.
Qed.

Lemma spec_clamp_ext (lo hi x y : Q) :
  (x == y)%Q -> (Spec.clamp lo hi x == Spec.clamp lo hi y)%Q.
Proof.
  intros E. unfold Spec.clamp.
  rewrite (Qcompare_comp x y E lo lo (Qeq_refl lo)).
  rewrite (Qcompare_comp x y E hi hi (Qeq_refl hi)).
  destruct (y ?= lo)%Q; [| reflexivity |];
    destruct (y ?= hi)%Q; try reflexivity; exact E.
Qed.

Lemma Forall2_skipn {A B : Type} (R : A -> B -> Prop) (n : nat)
    (l1 : list A) (l2 : list B) :
  Forall2 R l1 l2 -> Forall2 R (skipn n l1) (skipn n l2).
Proof.
  intros H. revert n. induction H; intros [|n]; cbn [skipn]; auto.
Qed.

Lemma trend_delta_ext (l1 l2 : list Q) :
  Forall2 Qeq l1 l2 -> (Spec.trend_delta l1 == Spec.trend_delta l2)%Q.
Proof.
  intros H. unfold Spec.trend_delta, Spec.window.
  rewrite (Forall2_length H).
  pose proof (Forall2_skipn Qeq (List.length l2 - 8) l1 l2 H) as Hw.
  rewrite (Forall2_length Hw).
  destruct (List.length (skipn (List.length l2 - 8) l2) <? 2)%nat;
    [reflexivity|].
  apply spec_clamp_ext. unfold Spec.mean.
  pose proof (diffs_ext _ _ Hw) as Hd.
  unfold sumQ, len. rewrite (Forall2_length Hd).
  rewrite (fold_sum_ext _ _ 0 0 Hd (Qeq_refl 0)). reflexivity.
Qed.

(** The two forecasters compute the same trend delta from the same records. *)
Lemma admin_public_delta (ehr_records : list EHRRecord) (total_beds : Z) :
  (Qmax (-5) (Qmin 5 (avg_of_Q (diffs_with Qminus (slice_last 8
     (map (fun record =>
             Predictions._clamp_occupancy (of_int (occupied_beds record))
                                          total_beds) ehr_records)))))
   == Qmax (-5) (Qmin 5 (avg_of_Z (diffs_with Z.sub (slice_last 8
        (map (fun record =>
                Public._clamp_occupancy (of_int (occupied_beds record))
                                        total_beds) ehr_records))))))%Q.
Proof.
  rewrite admin_trend, public_trend. apply trend_delta_ext.
  rewrite map_map. induction ehr_records as [|r rs IH]; [constructor|].
  cbn [map]. constructor; [|exact IH].
  symmetry. apply public_admin_clamp.
Qed.

(** *** Only the ends of the recent window matter *)

Lemma sumZ_diffs_telescopes (w : list Z) (acc : Z) :
  fold_left Z.add (diffs_with Z.sub w) acc = acc + (last w 0 - hd 0 w).
Proof.
  destruct w as [|a w]; [cbn; lia|].
  revert a acc. induction w as [|b w IH]; intros a acc; [cbn; lia|].
  change (diffs_with Z.sub (a :: b :: w))
    with ((b - a) :: diffs_with Z.sub (b :: w)).
  cbn [fold_left]. rewrite IH.
  change (last (a :: b :: w) 0) with (last (b :: w) 0).
  cbn [hd]. lia.
Qed.

Lemma avg_of_Z_ends (w : list Z) :
  (2 <= List.length w)%nat ->
  avg_of_Z (diffs_with Z.sub w)
  = (inject_Z (last w 0 - hd 0 w)%Z / inject_Z (len w - 1)%Z)%Q.
Proof.
  intros Hw. pose proof (diffs_with_length Z.sub w) as El.
  assert (Hlen : len (diffs_with Z.sub w) = len w - 1)
    by (unfold len; rewrite El; lia).
  unfold avg_of_Z.
  destruct (diffs_with Z.sub w) as [|d ds] eqn:Ed; [simpl in El; lia|].
  rewrite Hlen. unfold sumZ. rewrite <- Ed, sumZ_diffs_telescopes.
  reflexivity.
Qed.

Lemma avg_of_Z_flat (w : list Z) :
  hd 0 w = last w 0 -> (avg_of_Z (diffs_with Z.sub w) == 0)%Q.
Proof.
  intros H.
  destruct (Nat.lt_ge_cases (List.length w) 2) as [Hs|Hl].
  - now rewrite (diffs_with_nil Z.sub w Hs).
  - rewrite (avg_of_Z_ends w Hl), H, Z.sub_diag.
    unfold Qeq, Qdiv, Qmult. cbn. reflexivity.
Qed.

Lemma in_range (lo hi x : Z) : In x (range lo hi) -> lo <= x < hi.
Proof.
  unfold range. intros H. apply in_map_iff in H.
  destruct H as (k & <- & Hk). apply in_seq in Hk. lia.
Qed.

Lemma round1_eq (x y : Q) : (x == y)%Q -> round1 x = round1 y.
Proof.
  intros E. unfold round1.
  assert (E' : (x * 10 == y * 10)%Q) by now rewrite E.
  now rewrite (round_comp _ _ E').
Qed.

Lemma admin_point_ext (total_beds last_day : Z) (l1 l2 d1 d2 : Q) (o : Z) :
  (l1 == l2)%Q -> (d1 == d2)%Q ->
  admin_point total_beds last_day l1 d1 o = admin_point total_beds last_day l2 d2 o.
Proof.
  intros El Ed. unfold admin_point.
  assert (Ep : (Predictions._clamp_occupancy (Some (l1 + d1 * inject_Z o)%Q)
                                             total_beds
                == Predictions._clamp_occupancy (Some (l2 + d2 * inject_Z o)%Q)
                                                total_beds)%Q).
  { apply admin_clamp_ext. now rewrite El, Ed. }
  f_equal; f_equal; apply round1_eq; try exact Ep;
    apply admin_clamp_ext; now rewrite Ep.
Qed.

Lemma last_skipn {A : Type} (n : nat) (l : list A) (d : A) :
  (n < List.length l)%nat -> last (skipn n l) d = last l d.
Proof.
  revert l. induction n as [|n IH]; intros l H; [reflexivity|].
  destruct l as [|a l]; [simpl in H; lia|].
  cbn [skipn]. rewrite IH by (simpl in H; lia).
  destruct l as [|b l]; [simpl in H; lia | reflexivity].
Qed.

Lemma last_default {A : Type} (a : A) (l : list A) (d1 d2 : A) :
  last (a :: l) d1 = last (a :: l) d2.
Proof.
  revert a. induction l as [|b l IH]; intros a; [reflexivity|].
  change (last (a :: b :: l) d1) with (last (b :: l) d1).
  change (last (a :: b :: l) d2) with (last (b :: l) d2).
  apply IH.
Qed.

Lemma last_slice_last {A : Type} (l : list A) (d : A) :
  last (slice_last 8 l) d = last l d.
Proof.
  unfold slice_last. destruct l as [|a l]; [reflexivity|].
  apply last_skipn. simpl List.length. lia.
Qed.

Section FallbackShape.

Variables (r : EHRRecord) (rs : list EHRRecord) (total_beds days : Z).

Let ehr_records := r :: rs.
Let last_record := last ehr_records r.
Let admin_norm := fun record =>
  Predictions._clamp_occupancy (of_int (occupied_beds record)) total_beds.
Let public_norm := fun record =>
  Public._clamp_occupancy (of_int (occupied_beds record)) total_beds.
Let admin_delta :=
  Qmax (-5) (Qmin 5 (avg_of_Q (diffs_with Qminus
                                 (slice_last 8 (map admin_norm ehr_records))))).
Let public_delta :=
  Qmax (-5) (Qmin 5 (avg_of_Z (diffs_with Z.sub
                                 (slice_last 8 (map public_norm ehr_records))))).

Lemma admin_points :
  Predictions._build_fallback_predictions ehr_records total_beds days
  = Ok (map (admin_point total_beds (date last_record)
               (admin_norm last_record) admin_delta) (range 1 (days + 1))).
Proof. exact (admin_fallback_unfold r rs total_beds days). Qed.

Lemma public_points :
  Public._build_fallback_forecast ehr_records total_beds days
  = Ok (map (public_point total_beds (date last_record)
               (public_norm last_record) public_delta) (range 1 (days + 1))).
Proof. exact (public_fallback_unfold r rs total_beds days). Qed.

Lemma admin_points_in (points : list Prediction) (p : Prediction) :
  Predictions._build_fallback_predictions ehr_records total_beds days = Ok points ->
  In p points ->
  exists o, 1 <= o <= days /\
            p = admin_point total_beds (date last_record)
                            (admin_norm last_record) admin_delta o.
Proof.
  rewrite admin_points. intros [= <-] Hp. apply in_map_iff in Hp.
  destruct Hp as (o & <- & Ho). apply in_range in Ho.
  exists o. split; [lia | reflexivity].
Qed.

Lemma public_points_in (points : list Prediction) (p : Prediction) :
  Public._build_fallback_forecast ehr_records total_beds days = Ok points ->
  In p points ->
  exists o, 1 <= o <= days /\
            p = public_point total_beds (date last_record)
                             (public_norm last_record) public_delta o.
Proof.
  rewrite public_points. intros [= <-] Hp. apply in_map_iff in Hp.
  destruct Hp as (o & <- & Ho). apply in_range in Ho.
  exists o. split; [lia | reflexivity].
Qed.

Lemma last_norm_facts :
  (admin_norm last_record == inject_Z (public_norm last_record))%Q /\
  0 <= public_norm last_record /\
  (0 < total_beds -> public_norm last_record <= total_beds).
Proof.
  split; [symmetry; apply public_admin_clamp | apply public_clamp_bounds].
Qed.

Lemma deltas_agree : (admin_delta == public_delta)%Q.
Proof. exact (admin_public_delta ehr_records total_beds). Qed.

(** Every admin point carries ordered bounds within the capacity. *)
Lemma admin_point_ordered (o : Z) :
  exists v lo hi,
    predicted_occupancy (admin_point total_beds (date last_record)
                           (admin_norm last_record) admin_delta o) = Some v /\
    lower_bound (admin_point total_beds (date last_record)
                   (admin_norm last_record) admin_delta o) = Some lo /\
    upper_bound (admin_point total_beds (date last_record)
                   (admin_norm last_record) admin_delta o) = Some hi /\
    (0 <= lo)%Q /\ (lo <= v)%Q /\ (v <= hi)%Q /\
    (0 < total_beds -> (hi <= inject_Z total_beds)%Q).
Proof.
  unfold admin_point. cbn [predicted_occupancy lower_bound upper_bound].
  set (predicted := Predictions._clamp_occupancy
                      (Some (admin_norm last_record
                             + admin_delta * inject_Z o)%Q) total_beds).
  do 3 eexists. repeat (split; [reflexivity|]).
  pose proof (admin_clamp_idempotent
                (Some (admin_norm last_record + admin_delta * inject_Z o)%Q)
                total_beds) as Eid.
  fold predicted in Eid.
  split; [|split; [|split]].
  - apply (round1_lower _ 0), admin_clamp_bounds.
  - apply round1_mono. rewrite <- Eid at 2. apply admin_clamp_mono. lra.
  - apply round1_mono. rewrite <- Eid at 1. apply admin_clamp_mono. lra.
  - intros Hpos. apply round1_upper. now apply admin_clamp_bounds.
Qed.

End FallbackShape.

Section FallbackProperties.

Variables (r : EHRRecord) (rs : list EHRRecord) (total_beds days : Z).

Let ehr_records := r :: rs.
Let last_record := last ehr_records r.
Let public_norm := fun record =>
  Public._clamp_occupancy (of_int (occupied_beds record)) total_beds.
Let last_occupancy := public_norm last_record.

(** X3. Every point of the admin fallback forecast carries
    [0 <= lower_bound <= predicted_occupancy <= upper_bound], and
    [upper_bound <= total_beds] for a positive capacity; every point of
    the public fallback forecast carries a whole number of beds that is
    non-negative and, for a positive capacity, at most [total_beds], and
    no bounds. *)
Theorem fallback_points_in_range :
  (forall points p,
      Predictions._build_fallback_predictions ehr_records total_beds days
      = Ok points ->
      In p points ->
      exists v lo hi,
        predicted_occupancy p = Some v /\
        lower_bound p = Some lo /\ upper_bound p = Some hi /\
        (0 <= lo)%Q /\ (lo <= v)%Q /\ (v <= hi)%Q /\
        (0 < total_beds -> (hi <= inject_Z total_beds)%Q)) /\
  (forall points p,
      Public._build_fallback_forecast ehr_records total_beds days = Ok points ->
      In p points ->
      exists z,
        predicted_occupancy p = Some (inject_Z z) /\
        lower_bound p = None /\ upper_bound p = None /\
        0 <= z /\ (0 < total_beds -> z <= total_beds)).
Proof.
  split; intros points p E Hp.
  - destruct (admin_points_in r rs total_beds days points p E Hp)
      as (o & _ & ->).
    apply admin_point_ordered.
  - destruct (public_points_in r rs total_beds days points p E Hp)
      as (o & _ & ->).
    eexists. unfold public_point.
    cbn [predicted_occupancy lower_bound upper_bound].
    repeat (split; [reflexivity|]). apply public_clamp_bounds.
Qed.


(** X5. When the recent window starts and ends at the same normalized
    occupancy (in particular on a single record) the fallback forecast is
    flat: every day of either forecaster holds the last normalized
    occupancy. *)
Theorem fallback_flat_forecast :
  hd 0 (slice_last 8 (map public_norm ehr_records)) = last_occupancy ->
  (forall points p,
      Predictions._build_fallback_predictions ehr_records total_beds days
      = Ok points ->
      In p points ->
      exists v, predicted_occupancy p = Some v /\
                (v == inject_Z last_occupancy)%Q) /\
  (forall points p,
      Public._build_fallback_forecast ehr_records total_beds days = Ok points ->
      In p points ->
      predicted_occupancy p = Some (inject_Z last_occupancy)).
Proof.
  intros Hflat.
  assert (Hlast : last (slice_last 8 (map public_norm ehr_records)) 0
                  = last_occupancy).
  { rewrite last_slice_last. unfold ehr_records. cbn [map].
    rewrite (last_default _ _ 0 (public_norm r)).
    apply (last_map_cons public_norm). }
  assert (Ed : (Qmax (-5) (Qmin 5 (avg_of_Z (diffs_with Z.sub
                  (slice_last 8 (map public_norm ehr_records))))) == 0)%Q).
  { rewrite (avg_of_Z_flat _ (eq_trans Hflat (eq_sym Hlast))). reflexivity. }
  destruct (last_norm_facts r rs total_beds) as (El & H0 & H1).
  split; intros points p E Hp.
  - destruct (admin_points_in r rs total_beds days points p E Hp)
      as (o & _ & ->).
    unfold admin_point. cbn [predicted_occupancy].
    eexists. split; [reflexivity|].
    pose proof (deltas_agree r rs total_beds) as Eab.
    transitivity (round1 (inject_Z last_occupancy));
      [apply round1_comp | apply round1_inject_Z].
    transitivity (Predictions._clamp_occupancy (of_int (Some last_occupancy))
                                               total_beds).
    + apply (admin_clamp_ext _ (inject_Z last_occupancy)).
      apply (Qeq_trans _ (inject_Z last_occupancy + 0 * inject_Z o)%Q);
        [|ring].
      apply Qplus_comp; [exact El|].
      apply Qmult_comp; [exact (Qeq_trans _ _ _ Eab Ed) | reflexivity].
    + rewrite <- public_admin_clamp. cbn [of_int option_map].
      unfold last_occupancy, public_norm.
      now rewrite public_clamp_idempotent.
  - destruct (public_points_in r rs total_beds days points p E Hp)
      as (o & _ & ->).
    unfold public_point. cbn [predicted_occupancy]. do 2 f_equal.
    assert (Er : round (inject_Z last_occupancy
                        + Qmax (-5) (Qmin 5 (avg_of_Z (diffs_with Z.sub
                            (slice_last 8 (map public_norm ehr_records)))))
                          * inject_Z o)%Q
                 = last_occupancy).
    { transitivity (round (inject_Z last_occupancy));
        [|apply round_inject_Z].
      apply round_comp.
      apply (Qeq_trans _ (inject_Z last_occupancy + 0 * inject_Z o)%Q);
        [|ring].
      apply Qplus_comp; [reflexivity|].
      apply Qmult_comp; [exact Ed | reflexivity]. }
    refine (eq_trans
              (f_equal (fun z => Public._clamp_occupancy (Some (inject_Z z))
                                                         total_beds) Er) _).
    exact (public_clamp_idempotent (of_int (occupied_beds last_record))
                                   total_beds).
Qed.


End FallbackProperties.

Lemma public_window_last (r : EHRRecord) (rs : list EHRRecord) (total_beds : Z) :
  last (slice_last 8
          (map (fun record =>
                  Public._clamp_occupancy (of_int (occupied_beds record))
                                          total_beds) (r :: rs))) 0
  = Public._clamp_occupancy (of_int (occupied_beds (last (r :: rs) r)))
                            total_beds.
Proof.
  rewrite last_slice_last. cbn [map].
  rewrite (last_default _ _ 0
             (Public._clamp_occupancy (of_int (occupied_beds r)) total_beds)).
  apply (last_map_cons
           (fun record =>
              Public._clamp_occupancy (of_int (occupied_beds record)) total_beds)).
Qed.

Lemma avg_of_Z_by_ends (w1 w2 : list Z) :
  List.length w1 = List.length w2 -> hd 0 w1 = hd 0 w2 ->
  last w1 0 = last w2 0 ->
  avg_of_Z (diffs_with Z.sub w1) = avg_of_Z (diffs_with Z.sub w2).
Proof.
  intros Hlen Hhd Hlast.
  destruct (Nat.lt_ge_cases (List.length w1) 2) as [Hs|Hl].
  - rewrite (diffs_with_nil Z.sub w1 Hs).
    rewrite (diffs_with_nil Z.sub w2) by lia. reflexivity.
  - rewrite (avg_of_Z_ends w1 Hl), (avg_of_Z_ends w2) by lia.
    unfold len. now rewrite Hhd, Hlast, Hlen.
Qed.

(** X7. The fallback trend reads its recent window only through the
    window's length and its first and last value: two histories with the
    same last record whose windows of normalized occupancies have the
    same length and the same first value get the same forecast from
    either forecaster, whatever happened in between. *)
Theorem fallback_reads_window_ends :
  forall (r1 r2 : EHRRecord) (rs1 rs2 : list EHRRecord) (total_beds days : Z),
    let public_norm := fun record =>
      Public._clamp_occupancy (of_int (occupied_beds record)) total_beds in
    let w1 := slice_last 8 (map public_norm (r1 :: rs1)) in
    let w2 := slice_last 8 (map public_norm (r2 :: rs2)) in
    last (r1 :: rs1) r1 = last (r2 :: rs2) r2 ->
    List.length w1 = List.length w2 ->
    hd 0 w1 = hd 0 w2 ->
    Predictions._build_fallback_predictions (r1 :: rs1) total_beds days
    = Predictions._build_fallback_predictions (r2 :: rs2) total_beds days /\
    Public._build_fallback_forecast (r1 :: rs1) total_beds days
    = Public._build_fallback_forecast (r2 :: rs2) total_beds days.
Proof.
  intros r1 r2 rs1 rs2 total_beds days public_norm w1 w2 Hlast Hlen Hhd.
  assert (Havg : avg_of_Z (diffs_with Z.sub w1) = avg_of_Z (diffs_with Z.sub w2)).
  { apply avg_of_Z_by_ends; [exact Hlen | exact Hhd |].
    unfold w1, w2, public_norm. rewrite !public_window_last. now rewrite Hlast. }
  split.
  - rewrite (admin_points r1 rs1), (admin_points r2 rs2). f_equal.
    rewrite Hlast. apply map_ext. intros o.
    apply admin_point_ext; [reflexivity|].
    rewrite (admin_public_delta (r1 :: rs1)), (admin_public_delta (r2 :: rs2)).
    fold public_norm. fold w1. fold w2. now rewrite Havg.
  - rewrite (public_points r1 rs1), (public_points r2 rs2).
    fold public_norm. fold w1. fold w2. now rewrite Hlast, Havg.
Qed.

(** Occupancies 40, 90, 10, 52 and 40, 41, 47, 52: same ends, same forecast. *)
Lemma fallback_reads_window_ends_witness :
  Predictions._build_fallback_predictions
    (mkEHR 0 (Some 40) :: series 1 [90; 10; 52]) 100 7
  = Predictions._build_fallback_predictions
      (mkEHR 0 (Some 40) :: series 1 [41; 47; 52]) 100 7 /\
  Public._build_fallback_forecast
    (mkEHR 0 (Some 40) :: series 1 [90; 10; 52]) 100 7
  = Public._build_fallback_forecast
      (mkEHR 0 (Some 40) :: series 1 [41; 47; 52]) 100 7.
Proof.
  apply (fallback_reads_window_ends
           (mkEHR 0 (Some 40)) (mkEHR 0 (Some 40))
           (series 1 [90; 10; 52]) (series 1 [41; 47; 52]) 100 7);
    reflexivity.
Defined.

(** A single record of 120 beds in a 100-bed hospital: three flat days at
    the capacity. *)
Lemma fallback_flat_forecast_witness :
  exists points,
    Public._build_fallback_forecast [mkEHR 0 (Some 120)] 100 3 = Ok points /\
    List.length points = 3%nat /\
    Forall (fun p => predicted_occupancy p = Some (inject_Z 100)) points.
Proof.
  eexists. split; [reflexivity|]. split; [reflexivity|].
  apply Forall_forall. intros p Hp.
  exact (proj2 (fallback_flat_forecast (mkEHR 0 (Some 120)) [] 100 3 eq_refl)
           _ p eq_refl Hp).
Defined.



(** One record of 120 beds in a 100-bed hospital: the forecast day holds
    100 beds and no bounds. *)
Lemma fallback_points_in_range_witness :
  exists points,
    Public._build_fallback_forecast [mkEHR 0 (Some 120)] 100 1 = Ok points /\
    List.length points = 1%nat /\
    Forall (fun p =>
              exists z,
                predicted_occupancy p = Some (inject_Z z) /\
                lower_bound p = None /\ upper_bound p = None /\
                0 <= z /\ (0 < 100 -> z <= 100))
           points.
Proof.
  eexists. split; [reflexivity|]. split; [reflexivity|].
  apply Forall_forall. intros p Hp.
  exact (proj2 (fallback_points_in_range (mkEHR 0 (Some 120)) [] 100 1)
           _ p eq_refl Hp).
Defined.

(** ** Formatted forecasts and availability *)

Lemma utilization_of_bounds (occupied total_beds : Z) :
  0 <= occupied -> (0 < total_beds -> occupied <= total_beds) ->
  (0 <= utilization_of occupied total_beds <= 100)%Q.
Proof.
  intros H0 H1. unfold utilization_of.
  destruct (Z.leb_spec total_beds 0) as [Hb|Hb]; [split; discriminate|].
  specialize (H1 Hb).
  assert (Ht : (0 < inject_Z total_beds)%Q)
    by (change 0%Q with (inject_Z 0); rewrite <- Zlt_Qlt; lia).
  assert (Ho : (0 <= inject_Z occupied <= inject_Z total_beds)%Q).
  { split; [change 0%Q with (inject_Z 0)|]; rewrite <- Zle_Qle; lia. }
  assert (Hq : (0 <= inject_Z occupied / inject_Z total_beds <= 1)%Q).
  { split; [apply Qle_shift_div_l | apply Qle_shift_div_r]; lra. }
  apply (round1_bounds _ 0 100).
  change (inject_Z 0) with 0%Q. change (inject_Z 100) with 100%Q.
  split; lra.
Qed.

Lemma day_of_consistent (total_beds : Z) (pred : Prediction) :
  day_consistent total_beds (day_of total_beds pred).
Proof.
  pose proof (public_clamp_bounds (predicted_occupancy pred) total_beds)
    as [H0 H1].
  unfold day_consistent, day_of.
  cbn [Public.df_predicted_occupancy Public.df_predicted_available
       Public.df_utilization_percentage Public.df_risk_level].
  split; [exact H0|]. split; [lia|]. split; [reflexivity|]. split.
  - intros Hpos. specialize (H1 Hpos). split; [lia|].
    apply utilization_of_bounds; [exact H0 | intros _; exact H1].
  - intros Hb. unfold utilization_of.
    destruct (Z.leb_spec total_beds 0); [|lia].
    split; [lia|]. split; reflexivity.
Qed.

(** X8. Every day of a formatted forecast, whatever the forecast dicts
    hold (also a model's forecast beyond the capacity or a missing value),
    has a non-negative occupancy, a risk level that classifies its own
    utilization and, for a positive capacity, occupancy plus availability
    equal to [total_beds] and a utilization within [[0, 100]]; for a
    non-positive capacity it reports no available bed, utilization 0 and
    risk ["low"].  This holds for every response of the public forecast. *)
Theorem forecast_days_consistent :
  (forall predictions total_beds forecast best occ,
      Public._format_forecast_response predictions total_beds
      = Ok (forecast, best, occ) ->
      List.length forecast = List.length predictions /\
      Forall (day_consistent total_beds) forecast) /\
  (forall service_predict_occupancy db hospital_id days response,
      Public.get_hospital_forecast service_predict_occupancy db hospital_id days
      = Ok response ->
      Forall (day_consistent (Public.hf_total_beds response))
             (Public.hf_forecast response)).
Proof.
  assert (G : forall predictions total_beds forecast best occ,
             Public._format_forecast_response predictions total_beds
             = Ok (forecast, best, occ) ->
             List.length forecast = List.length predictions /\
             Forall (day_consistent total_beds) forecast).
  { intros predictions total_beds forecast best occ E.
    destruct (format_forecast_response_ok predictions total_beds)
      as (b & o & E' & _).
    rewrite E' in E. injection E as <- _ _.
    split; [apply length_map|].
    apply Forall_forall. intros d Hd. apply in_map_iff in Hd.
    destruct Hd as (p & <- & _). apply day_of_consistent. }
  split; [exact G|].
  intros sp db hospital_id days response. unfold Public.get_hospital_forecast.
  destruct (query_hospital db hospital_id) as [hospital|]; [|discriminate].
  destruct (len (query_records db hospital_id) =? 0).
  - intros [= <-]. constructor.
  - destruct (Public.select_predictions sp _ _ _) as [predictions|e];
      [|discriminate].
    cbn [bind].
    destruct (Public._format_forecast_response predictions (total_beds hospital))
      as [[[forecast best] occ]|e] eqn:E; [|discriminate].
    cbn [bind]. intros [= <-].
    cbn [Public.hf_total_beds Public.hf_forecast fst].
    exact (proj2 (G _ _ _ _ _ E)).
Qed.

(** A model forecasting 150 and then -3 beds for a 100-bed hospital is
    shown as a full and an empty day. *)
Lemma forecast_days_consistent_witness :
  let db := storage_of [(mkHospital 1 "General" "Pune" 100 10,
                         series 0 [50; 51; 52; 53; 54; 55; 56; 57; 58; 59;
                                   60; 61; 62; 63])] in
  let service := fun (_ : list EHRRecord) (_ : Z) =>
    Ok ([mkPrediction 14 (Some 150%Q) None None;
         mkPrediction 15 (Some (-3)%Q) None None],
        ServiceModelInfo "prophet") in
  exists response,
    Public.get_hospital_forecast service db 1 2 = Ok response /\
    map Public.df_predicted_occupancy (Public.hf_forecast response) = [100; 0] /\
    Forall (day_consistent 100) (Public.hf_forecast response).
Proof.
  intros db service.
  destruct (Public.get_hospital_forecast service db 1 2) as [response|e] eqn:E;
    [|vm_compute in E; discriminate].
  exists response. split; [reflexivity|].
  pose proof (proj2 forecast_days_consistent service db 1 2 response E) as H.
  vm_compute in E. injection E as <-. split; [reflexivity | exact H].
Defined.



(** X10. Every answer of the availability endpoint for a hospital of
    positive capacity splits the capacity exactly: occupied plus available
    beds equal [total_beds], the utilization lies in [[0, 100]], and the
    status is ["unknown"] with nothing occupied when no record exists and
    otherwise the class of the reported utilization. *)
Theorem availability_consistent :
  forall (db : Storage) (hospital_id : Z) (response : Public.HospitalAvailability),
    Public.get_hospital_availability db hospital_id = Ok response ->
    0 < Public.ha_total_beds response ->
    0 <= Public.ha_current_occupied response /\
    Public.ha_current_occupied response + Public.ha_current_available response
    = Public.ha_total_beds response /\
    (0 <= Public.ha_utilization_percentage response <= 100)%Q /\
    (query_latest_record db hospital_id = None ->
     Public.ha_status response = "unknown"%string /\
     Public.ha_current_occupied response = 0 /\
     Public.ha_last_updated response = None) /\
    (forall latest, query_latest_record db hospital_id = Some latest ->
     Public.ha_status response
     = Public.availability_status (Public.ha_utilization_percentage response) /\
     Public.ha_last_updated response = Some (date latest)).
Proof.
  intros db hospital_id response. unfold Public.get_hospital_availability.
  destruct (query_hospital db hospital_id) as [hospital|]; [|discriminate].
  destruct (query_latest_record db hospital_id) as [latest|].
  - rewrite calculate_utilization_ok. cbn [bind]. intros [= <-].
    cbn [Public.ha_total_beds Public.ha_current_occupied
         Public.ha_current_available Public.ha_utilization_percentage
         Public.ha_status Public.ha_last_updated].
    intros Hpos.
    pose proof (public_clamp_bounds (of_int (occupied_beds latest))
                  (total_beds hospital)) as [H0 H1].
    specialize (H1 Hpos).
    split; [exact H0|]. split; [lia|].
    split; [apply utilization_of_bounds; [exact H0 | intros _; exact H1]|].
    split; [discriminate|].
    intros l [= <-]. split; reflexivity.
  - intros [= <-].
    cbn [Public.ha_total_beds Public.ha_current_occupied
         Public.ha_current_available Public.ha_utilization_percentage
         Public.ha_status Public.ha_last_updated].
    intros Hpos. split; [lia|]. split; [lia|].
    split; [split; discriminate|].
    split; [repeat split | discriminate].
Qed.

Lemma availability_consistent_witness :
  let db := storage_of [(mkHospital 1 "General" "Pune" 100 10,
                         series 0 [60; 130])] in
  exists response,
    Public.get_hospital_availability db 1 = Ok response /\
    Public.ha_current_occupied response = 100 /\
    Public.ha_current_occupied response + Public.ha_current_available response
    = 100.
Proof.
  intros db.
  destruct (Public.get_hospital_availability db 1) as [response|e] eqn:E;
    [|vm_compute in E; discriminate].
  exists response. split; [reflexivity|].
  destruct (availability_consistent db 1 response E) as (_ & H & _).
  - vm_compute in E. injection E as <-. reflexivity.
  - vm_compute in E. injection E as <-. split; [reflexivity | exact H].
Defined.

(** ** Error and edge behaviour of the endpoints *)

(** X11. A hospital id that storage does not know is answered with HTTP
    404 by every endpoint keyed by a hospital, on both surfaces and
    whatever the prediction service would do; a city filter matching no
    hospital is answered with 404 by the comparison and by the
    recommendation. *)
Theorem unknown_hospital_is_404 :
  forall service_predict_occupancy service_generate_alerts
         (db : Storage) (hospital_id days today : Z) (city : string),
    (query_hospital db hospital_id = None ->
     Public.get_hospital_availability db hospital_id
     = Raise (HTTPException 404) /\
     Public.get_hospital_forecast service_predict_occupancy db hospital_id days
     = Raise (HTTPException 404) /\
     Public.get_hospital_alerts service_predict_occupancy db hospital_id
     = Raise (HTTPException 404) /\
     Predictions.predict_occupancy service_predict_occupancy db hospital_id days
     = Raise (HTTPException 404) /\
     Predictions.get_dashboard service_predict_occupancy
       service_generate_alerts db today hospital_id
     = Raise (HTTPException 404)) /\
    (query_hospitals db (Some city) = [] ->
     Public.compare_hospitals service_predict_occupancy db (Some city)
     = Raise (HTTPException 404) /\
     Public.get_city_recommendation service_predict_occupancy db city
     = Raise (HTTPException 404)).
Proof.
  intros sp sa db hospital_id days today city. split.
  - intros Hq.
    unfold Public.get_hospital_availability, Public.get_hospital_forecast,
      Public.get_hospital_alerts, Predictions.predict_occupancy,
      Predictions.get_dashboard.
    rewrite Hq. repeat split.
  - intros Hq.
    unfold Public.get_city_recommendation, Public.compare_hospitals.
    rewrite Hq. split; reflexivity.
Qed.

Lemma unknown_hospital_is_404_witness :
  let db := storage_of [(mkHospital 1 "General" "Pune" 100 10, series 0 [60])] in
  Public.get_hospital_forecast failing_service db 2 7
  = Raise (HTTPException 404) /\
  Public.get_city_recommendation failing_service (storage_of []) "Pune"
  = Raise (HTTPException 404).
Proof.
  intros db. split.
  - apply (unknown_hospital_is_404 failing_service (fun _ _ _ => Ok [])
             db 2 7 0 "Pune"). reflexivity.
  - apply (unknown_hospital_is_404 failing_service (fun _ _ _ => Ok [])
             (storage_of []) 2 7 0 "Pune"). reflexivity.
Defined.

(** X12. A known hospital without any record is treated differently by
    the two surfaces.  The patient surface answers normally and without
    consulting the prediction service: availability ["unknown"] with all
    beds available, an empty forecast without best day, no alert and no
    alternate hospital; the comparison leaves the hospital out, and a
    city whose hospitals all lack records gets 404 from the
    recommendation.  The admin surface answers [predict] and
    [dashboard] with HTTP 404. *)
Theorem hospital_without_records :
  forall service_predict_occupancy service_generate_alerts
         (db : Storage) (hospital_id days today : Z) (hospital : Hospital),
    query_hospital db hospital_id = Some hospital ->
    query_records db hospital_id = [] ->
    Public.get_hospital_availability db hospital_id
    = Ok {| Public.ha_hospital_id := id hospital;
            Public.ha_total_beds := total_beds hospital;
            Public.ha_current_occupied := 0;
            Public.ha_current_available := total_beds hospital;
            Public.ha_utilization_percentage := 0;
            Public.ha_status := "unknown";
            Public.ha_last_updated := None |} /\
    Public.get_hospital_forecast service_predict_occupancy db hospital_id days
    = Ok {| Public.hf_hospital_id := id hospital;
            Public.hf_total_beds := total_beds hospital;
            Public.hf_forecast := [];
            Public.best_day_to_visit := None;
            Public.best_day_occupancy := None |} /\
    Public.get_hospital_alerts service_predict_occupancy db hospital_id
    = Ok {| Public.ar_hospital_id := id hospital;
            Public.alerts := [];
            Public.alternate_hospitals := [] |} /\
    Predictions.predict_occupancy service_predict_occupancy db hospital_id days
    = Raise (HTTPException 404) /\
    Predictions.get_dashboard service_predict_occupancy
      service_generate_alerts db today hospital_id
    = Raise (HTTPException 404) /\
    (forall comparisons,
        id hospital = hospital_id ->
        Public.compare_step service_predict_occupancy db comparisons hospital
        = Ok comparisons) /\
    (forall city,
        query_hospitals db (Some city) <> [] ->
        (forall h, In h (query_hospitals db (Some city)) ->
                   query_records db (id h) = []) ->
        Public.get_city_recommendation service_predict_occupancy db city
        = Raise (HTTPException 404)).
Proof.
  intros sp sa db hospital_id days today hospital Hq Hr.
  assert (Hl : query_latest_record db hospital_id = None)
    by (unfold query_latest_record; now rewrite Hr).
  unfold Public.get_hospital_availability, Public.get_hospital_forecast,
    Public.get_hospital_alerts, Predictions.predict_occupancy,
    Predictions.get_dashboard, Public.select_predictions.
  rewrite Hq, Hr, Hl. cbn.
  repeat (split; [reflexivity|]). split.
  - intros comparisons <-. unfold Public.compare_step. now rewrite Hl.
  - intros city Hne Hall. unfold Public.get_city_recommendation.
    destruct (foldM_invariant (Public.compare_step sp db)
                (fun _ comparisons => comparisons = [])
                (query_hospitals db (Some city)) [] eq_refl)
      as (entries & E & ->).
    + intros pre h comparisons Hin ->. exists [].
      split; [|reflexivity]. unfold Public.compare_step, query_latest_record.
      now rewrite (Hall h Hin).
    + unfold Public.compare_hospitals.
      destruct (query_hospitals db (Some city)) as [|h0 hs]; [contradiction|].
      rewrite E. reflexivity.
Qed.

Lemma hospital_without_records_witness :
  let db := storage_of [(mkHospital 1 "New Wing" "Pune" 80 5, [])] in
  (exists response,
      Public.get_hospital_forecast failing_service db 1 7 = Ok response /\
      Public.hf_forecast response = []) /\
  Predictions.predict_occupancy failing_service db 1 7
  = Raise (HTTPException 404) /\
  Public.get_city_recommendation failing_service db "Pune"
  = Raise (HTTPException 404).
Proof.
  intros db.
  destruct (hospital_without_records failing_service (fun _ _ _ => Ok [])
              db 1 7 0 (mkHospital 1 "New Wing" "Pune" 80 5) eq_refl eq_refl)
    as (_ & Hf & _ & Hp & _ & _ & Hc).
  split; [eexists; split; [exact Hf | reflexivity]|].
  split; [exact Hp|].
  apply Hc; [discriminate|].
  intros h [<-|[]]. reflexivity.
Defined.

Lemma foldM_ext {A S : Type} (f g : S -> A -> result S) (l : list A) (s : S) :
  (forall s a, In a l -> f s a = g s a) -> foldM f l s = foldM g l s.
Proof.
  revert s. induction l as [|a l IH]; intros s H; [reflexivity|].
  cbn [foldM]. rewrite (H s a (or_introl eq_refl)).
  destruct (g s a) as [s'|e]; [|reflexivity].
  apply IH. intros s0 b Hb. apply H. now right.
Qed.

(** X13. With fewer than 14 records the prediction service is never
    consulted: the public forecast, the public alerts, the admin
    prediction and the dashboard of such a hospital, and a comparison
    among such hospitals, are the same whatever the service would
    return or raise. *)
Theorem short_history_ignores_service :
  forall service1 service2 service_generate_alerts
         (db : Storage) (hospital_id days today : Z) (city : option string),
    (len (query_records db hospital_id) < 14 ->
     Public.get_hospital_forecast service1 db hospital_id days
     = Public.get_hospital_forecast service2 db hospital_id days /\
     Public.get_hospital_alerts service1 db hospital_id
     = Public.get_hospital_alerts service2 db hospital_id /\
     Predictions.predict_occupancy service1 db hospital_id days
     = Predictions.predict_occupancy service2 db hospital_id days /\
     Predictions.get_dashboard service1 service_generate_alerts db today
       hospital_id
     = Predictions.get_dashboard service2 service_generate_alerts db today
         hospital_id) /\
    ((forall h, In h (query_hospitals db city) ->
                len (query_records db (id h)) < 14) ->
     Public.compare_hospitals service1 db city
     = Public.compare_hospitals service2 db city).
Proof.
  intros s1 s2 sa db hospital_id days today city. split.
  - intros Hlen.
    assert (E14 : (14 <=? len (query_records db hospital_id)) = false)
      by (apply Z.leb_gt; exact Hlen).
    unfold Public.get_hospital_forecast, Public.get_hospital_alerts,
      Predictions.predict_occupancy, Predictions.get_dashboard,
      Predictions.dashboard_forecast, Public.select_predictions.
    rewrite !E14. repeat split.
  - intros Hall. unfold Public.compare_hospitals.
    destruct (query_hospitals db city) as [|h0 hs] eqn:Eh; [reflexivity|].
    rewrite (foldM_ext (Public.compare_step s1 db) (Public.compare_step s2 db));
      [reflexivity|].
    intros comparisons h Hin. unfold Public.compare_step, Public.average_prediction.
    assert (E14 : (14 <=? len (query_records db (id h))) = false)
      by (apply Z.leb_gt; apply Hall; exact Hin).
    now rewrite E14.
Qed.

Lemma short_history_ignores_service_witness :
  let db := storage_of [(mkHospital 1 "General" "Pune" 100 10,
                         series 0 [60; 61; 63])] in
  Public.get_hospital_forecast failing_service db 1 7
  = Public.get_hospital_forecast (constant_service 150) db 1 7 /\
  Public.compare_hospitals failing_service db None
  = Public.compare_hospitals (constant_service 150) db None.
Proof.
  intros db.
  pose proof (short_history_ignores_service failing_service
                (constant_service 150) (fun _ _ _ => Ok []) db 1 7 0 None)
    as (H1 & H2).
  split.
  - apply H1. reflexivity.
  - apply H2. intros h [<-|[]]. reflexivity.
Defined.

(** ** Alerts and alternates *)

Lemma alerts_loop_closed (total_beds : Z) (predictions : list Prediction)
    (st st' : list Public.AvailabilityAlert * bool) :
  foldM (Public.alerts_step total_beds) predictions st = Ok st' ->
  fst st' = fst st ++ alerts_of total_beds predictions /\
  snd st'
  = snd st || existsb (fun p => Qle_bool 85 (alert_utilization total_beds p))
                      predictions.
Proof.
  revert st. induction predictions as [|p ps IH]; intros st; cbn [foldM].
  - intros [= <-]. cbn. now rewrite app_nil_r, orb_false_r.
  - unfold Public.alerts_step at 1.
    destruct (predicted_occupancy p) as [v|] eqn:Ev; [|discriminate].
    cbn [item bind]. rewrite calculate_utilization_ok. cbn [bind].
    assert (Eu : utilization_of (Public._clamp_occupancy (Some v) total_beds)
                                total_beds
                 = alert_utilization total_beds p)
      by (unfold alert_utilization; now rewrite Ev).
    rewrite Eu. unfold alerts_of. cbn [flat_map existsb].
    fold (alerts_of total_beds ps).
    destruct (Public.alert_for (alert_utilization total_beds p) (p_date p))
      as [a|] eqn:Ea.
    + intros H. apply IH in H. cbn [fst snd] in H. destruct H as [H1 H2].
      split; [now rewrite H1, <- app_assoc|].
      now rewrite H2, orb_assoc.
    + intros H. apply IH in H. destruct H as [H1 H2].
      split; [exact H1|]. rewrite H2.
      unfold Public.alert_for in Ea.
      destruct (Qle_bool 85 (alert_utilization total_beds p));
        [discriminate | reflexivity].
Qed.

Lemma alerts_of_nil (total_beds : Z) (predictions : list Prediction) :
  alerts_of total_beds predictions = [] <->
  forall p, In p predictions -> (alert_utilization total_beds p < 70)%Q.
Proof.
  induction predictions as [|p ps IH].
  - split; [intros _ p [] | reflexivity].
  - unfold alerts_of. cbn [flat_map]. fold (alerts_of total_beds ps).
    unfold Public.alert_for.
    destruct (Qle_bool 85 (alert_utilization total_beds p)) eqn:E85.
    + split; [discriminate|]. intros H.
      specialize (H p (or_introl eq_refl)). apply Qle_bool_iff in E85. lra.
    + destruct (Qle_bool 70 (alert_utilization total_beds p)) eqn:E70.
      * split; [discriminate|]. intros H.
        specialize (H p (or_introl eq_refl)). apply Qle_bool_iff in E70. lra.
      * cbn [app]. rewrite IH. split.
        -- intros H q [Eq|Hq]; [subst q|now apply H].
           destruct (Qlt_le_dec (alert_utilization total_beds p) 70) as [L|G];
             [exact L|].
           apply Qle_bool_iff in G. congruence.
        -- intros H q Hq. apply H. now right.
Qed.

Lemma alerts_of_length (total_beds : Z) (predictions : list Prediction) :
  (List.length (alerts_of total_beds predictions)
   <= List.length predictions)%nat.
Proof.
  induction predictions as [|p ps IH]; [apply Nat.le_refl|].
  unfold alerts_of. cbn [flat_map]. fold (alerts_of total_beds ps).
  rewrite length_app.
  destruct (Public.alert_for _ _); simpl List.length; lia.
Qed.

Lemma alternates_loop_spec (db : Storage) (others alternate_hospitals res : list Hospital) :
  Public.alternates_loop db others alternate_hospitals = Ok res ->
  exists added,
    res = alternate_hospitals ++ added /\
    (len alternate_hospitals < 3 -> len res <= 3) /\
    forall alt, In alt added ->
      In alt others /\
      exists latest,
        query_latest_record db (id alt) = Some latest /\
        (utilization_of
           (Public._clamp_occupancy (of_int (occupied_beds latest))
                                    (total_beds alt))
           (total_beds alt) < 70)%Q.
Proof.
  revert alternate_hospitals.
  induction others as [|alt others IH]; intros acc; cbn [Public.alternates_loop].
  - intros [= <-]. exists []. rewrite app_nil_r.
    split; [reflexivity|]. split; [lia | intros a []].
  - assert (Hskip : Public.alternates_loop db others acc = Ok res ->
              exists added,
                res = acc ++ added /\
                (len acc < 3 -> len res <= 3) /\
                forall a, In a added ->
                  In a (alt :: others) /\
                  exists latest,
                    query_latest_record db (id a) = Some latest /\
                    (utilization_of
                       (Public._clamp_occupancy (of_int (occupied_beds latest))
                                                (total_beds a))
                       (total_beds a) < 70)%Q).
    { intros H. destruct (IH acc H) as (added & E & Hlen & Hall).
      exists added. split; [exact E|]. split; [exact Hlen|].
      intros a Ha. destruct (Hall a Ha) as [Hin Hrec].
      split; [now right | exact Hrec]. }
    destruct (query_latest_record db (id alt)) as [latest|] eqn:El;
      [|exact Hskip].
    rewrite calculate_utilization_ok. cbn [bind].
    unfold Public.alternate_ok.
    destruct (Qle_bool 70 _) eqn:E70; cbn [negb]; [exact Hskip|].
    assert (Hlt : (utilization_of
                     (Public._clamp_occupancy (of_int (occupied_beds latest))
                                              (total_beds alt))
                     (total_beds alt) < 70)%Q).
    { destruct (Qlt_le_dec (utilization_of
                   (Public._clamp_occupancy (of_int (occupied_beds latest))
                                            (total_beds alt))
                   (total_beds alt)) 70) as [L|G]; [exact L|].
      apply Qle_bool_iff in G. congruence. }
    assert (Hlen1 : len (acc ++ [alt]) = len acc + 1)
      by (unfold len; rewrite length_app; simpl List.length; lia).
    destruct (Z.leb_spec 3 (len (acc ++ [alt]))) as [H3|H3].
    + intros [= <-]. exists [alt]. split; [reflexivity|].
      split; [lia|].
      intros a [<-|[]]. split; [now left | now exists latest].
    + intros H. destruct (IH (acc ++ [alt]) H) as (added & E & Hlen & Hall).
      exists (alt :: added). split; [now rewrite E, <- app_assoc|].
      split; [intros _; apply Hlen; lia|].
      intros a [<-|Ha]; [split; [now left | now exists latest]|].
      destruct (Hall a Ha) as [Hin Hrec]. split; [now right | exact Hrec].
Qed.

Lemma get_hospital_alerts_inv service_predict_occupancy (db : Storage)
    (hospital_id : Z) (response : Public.AlertsResponse) :
  Public.get_hospital_alerts service_predict_occupancy db hospital_id
  = Ok response ->
  exists hospital predictions st,
    query_hospital db hospital_id = Some hospital /\
    Public.select_predictions service_predict_occupancy
      (query_records db hospital_id) (total_beds hospital) 7 = Ok predictions /\
    foldM (Public.alerts_step (total_beds hospital)) predictions ([], false)
    = Ok st /\
    Public.alerts response = fst st /\
    (if snd st || (3 <=? len (fst st))
     then Public.alternates_loop db
            (firstn 5 (query_other_hospitals db hospital)) []
     else Ok [])
    = Ok (Public.alternate_hospitals response).
Proof.
  unfold Public.get_hospital_alerts.
  destruct (query_hospital db hospital_id) as [hospital|]; [|discriminate].
  destruct (Public.select_predictions _ _ _ _) as [predictions|e] eqn:Es;
    [|discriminate].
  cbn [bind].
  destruct (foldM _ predictions ([], false)) as [st|e] eqn:Ef; [|discriminate].
  cbn [bind].
  destruct (if snd st || (3 <=? len (fst st)) then _ else _) as [alts|e] eqn:Ea;
    [|discriminate].
  cbn [bind]. intros [= <-]. exists hospital, predictions, st.
  cbn [Public.alerts Public.alternate_hospitals].
  split; [reflexivity|]. split; [exact Es|]. split; [exact Ef|].
  split; [reflexivity | exact Ea].
Qed.

(** X14. The alerts of every answer of the alerts endpoint follow its
    7-day forecast day by day: one alert for each forecast day whose
    utilization is at least 70 (critical from 85, a warning below), in
    forecast order, so never more alerts than forecast days; the list is
    empty exactly when every forecast day stays below 70. *)
Theorem alerts_follow_forecast :
  forall service_predict_occupancy (db : Storage) (hospital_id : Z)
         (response : Public.AlertsResponse),
    Public.get_hospital_alerts service_predict_occupancy db hospital_id
    = Ok response ->
    exists hospital predictions,
      query_hospital db hospital_id = Some hospital /\
      Public.select_predictions service_predict_occupancy
        (query_records db hospital_id) (total_beds hospital) 7
      = Ok predictions /\
      Public.alerts response = alerts_of (total_beds hospital) predictions /\
      (List.length (Public.alerts response) <= List.length predictions)%nat /\
      (Public.alerts response = [] <->
       forall p, In p predictions ->
                 (alert_utilization (total_beds hospital) p < 70)%Q).
Proof.
  intros sp db hospital_id response E.
  destruct (get_hospital_alerts_inv sp db hospital_id response E)
    as (hospital & predictions & st & Hq & Hs & Hf & Ha & _).
  destruct (alerts_loop_closed _ _ _ _ Hf) as [H1 _]. cbn [fst app] in H1.
  exists hospital, predictions.
  split; [exact Hq|]. split; [exact Hs|].
  rewrite Ha, H1.
  split; [reflexivity|].
  split; [apply alerts_of_length | apply alerts_of_nil].
Qed.

(** Fallback days at 69, 72, 75, ... of 100 beds: no alert for the first
    day, warnings for the next ones. *)
Lemma alerts_follow_forecast_witness :
  let db := storage_of [(mkHospital 1 "General" "Pune" 100 10,
                         series 0 [60; 63; 66])] in
  exists response,
    Public.get_hospital_alerts failing_service db 1 = Ok response /\
    map Public.alert_date (Public.alerts response) = [4; 5; 6; 7; 8; 9] /\
    (List.length (Public.alerts response) <= 7)%nat.
Proof.
  intros db.
  destruct (Public.get_hospital_alerts failing_service db 1)
    as [response|e] eqn:E; [|vm_compute in E; discriminate].
  exists response. split; [reflexivity|].
  destruct (alerts_follow_forecast failing_service db 1 response E)
    as (h & ps & Hq & Hs & _ & Hlen & _).
  vm_compute in Hq. injection Hq as <-.
  vm_compute in Hs. injection Hs as <-.
  split; [|exact Hlen].
  vm_compute in E. injection E as <-. reflexivity.
Defined.

(** X15. Alternate hospitals are offered only when the forecast holds a
    critical day or at least three alerts; there are never more than
    three, each is one of the first five other hospitals of the location
    query, has a record, and has a current utilization below 70. *)
Theorem alternates_are_available :
  forall service_predict_occupancy (db : Storage) (hospital_id : Z)
         (response : Public.AlertsResponse),
    Public.get_hospital_alerts service_predict_occupancy db hospital_id
    = Ok response ->
    exists hospital,
      query_hospital db hospital_id = Some hospital /\
      len (Public.alternate_hospitals response) <= 3 /\
      (Public.alternate_hospitals response <> [] ->
       (exists a, In a (Public.alerts response) /\
                  Public.alert_severity a = "critical"%string) \/
       3 <= len (Public.alerts response)) /\
      forall alt, In alt (Public.alternate_hospitals response) ->
        In alt (firstn 5 (query_other_hospitals db hospital)) /\
        exists latest,
          query_latest_record db (id alt) = Some latest /\
          (utilization_of
             (Public._clamp_occupancy (of_int (occupied_beds latest))
                                      (total_beds alt))
             (total_beds alt) < 70)%Q.
Proof.
  intros sp db hospital_id response E.
  destruct (get_hospital_alerts_inv sp db hospital_id response E)
    as (hospital & predictions & st & Hq & Hs & Hf & Ha & Halt).
  destruct (alerts_loop_closed _ _ _ _ Hf) as [H1 H2]. cbn [fst snd app] in H1, H2.
  exists hospital. split; [exact Hq|].
  destruct (snd st || (3 <=? len (fst st))) eqn:Ecase.
  - destruct (alternates_loop_spec db _ [] _ Halt) as (added & Eres & Hlen & Hall).
    cbn [app] in Eres. subst added.
    split; [apply Hlen; reflexivity|].
    split; [|exact Hall].
    intros _. apply orb_true_iff in Ecase. destruct Ecase as [Hc|H3].
    + left. rewrite H2 in Hc. cbn [orb] in Hc.
      apply existsb_exists in Hc. destruct Hc as (p & Hp & H85).
      exists {| Public.alert_type := "high_occupancy";
                Public.alert_severity := "critical";
                Public.alert_date := p_date p |}.
      split; [|reflexivity].
      rewrite Ha, H1. unfold alerts_of. apply in_flat_map.
      exists p. split; [exact Hp|].
      unfold Public.alert_for. rewrite H85. now left.
    + right. rewrite Ha. now apply Z.leb_le.
  - injection Halt as <-.
    split; [unfold len; simpl; lia|].
    split; [intros H; now destruct H | intros alt []].
Qed.

(** A hospital heading for 95 of 100 beds with two neighbours, one at 40
    and one at 90 beds of 100: only the first is offered. *)
Lemma alternates_are_available_witness :
  let db :=
    storage_of
      [(mkHospital 1 "General" "Pune" 100 10, series 0 [85; 90; 95]);
       (mkHospital 2 "North" "Pune" 100 10, series 0 [40]);
       (mkHospital 3 "East" "Pune" 100 10, series 0 [90])] in
  exists response,
    Public.get_hospital_alerts failing_service db 1 = Ok response /\
    map id (Public.alternate_hospitals response) = [2] /\
    len (Public.alternate_hospitals response) <= 3.
Proof.
  intros db.
  destruct (Public.get_hospital_alerts failing_service db 1)
    as [response|e] eqn:E; [|vm_compute in E; discriminate].
  exists response. split; [reflexivity|].
  destruct (alternates_are_available failing_service db 1 response E)
    as (h & _ & Hlen & _).
  split; [|exact Hlen].
  vm_compute in E. injection E as <-. reflexivity.
Defined.

(** ** Scores on the fallback path *)



(** Two hospitals of one city under a failing model: the emptier one is
    recommended, for its good availability. *)
Lemma recommendation_is_top_ranked_witness :
  let db :=
    storage_of
      [(mkHospital 1 "East" "Pune" 100 10, series 0 [60; 60]);
       (mkHospital 2 "North" "Pune" 100 10, series 0 [20; 20])] in
  exists r,
    Public.get_city_recommendation failing_service db "Pune"%string = Ok r /\
    Public.best_hospital_id r = 2 /\
    map Public.hc_hospital_id (Public.recommended_hospitals r) = [2; 1] /\
    Public.reason r = Public.GoodAvailability 2 80 (200 # 10).
Proof.
  intros db.
  destruct (Public.compare_hospitals failing_service db (Some "Pune"%string))
    as [[|best rest]|e] eqn:Ec;
    [vm_compute in Ec; discriminate | | vm_compute in Ec; discriminate].
  destruct (proj1 (proj2 (proj2 (recommendation_is_top_ranked failing_service
                                   db "Pune"%string))) best rest Ec)
    as (r & Er & _ & Hr & Hid & _ & Hlow & _).
  exists r. split; [exact Er|].
  vm_compute in Ec. injection Ec as <- <-.
  split; [rewrite Hid; reflexivity|].
  split; [rewrite Hr; reflexivity|].
  rewrite Hlow by reflexivity. reflexivity.
Defined.

(** ** The dashboard on a short history *)

Lemma latest_record_last (db : Storage) (hospital_id : Z)
    (r : EHRRecord) (rs : list EHRRecord) :
  query_records db hospital_id = r :: rs ->
  query_latest_record db hospital_id = Some (last (r :: rs) r).
Proof.
  intros E. unfold query_latest_record. rewrite E.
  destruct (exists_last (l := r :: rs) ltac:(discriminate)) as (l' & x & ->).
  now rewrite rev_app_distr, last_last.
Qed.

Lemma percent_of_some (x total_beds : Z) :
  total_beds <> 0 ->
  Predictions.percent_of (Some x) total_beds
  = Ok (inject_Z x / inject_Z total_beds * 100)%Q.
Proof.
  intros H. unfold Predictions.percent_of.
  now rewrite truediv_nonzero by exact H.
Qed.

(** X17. For a hospital with 1 to 13 records, a non-zero capacity and an
    occupancy in every record, the dashboard never consults the model:
    when alert generation succeeds on the 7-day admin fallback forecast
    the dashboard answers with exactly that forecast, those alerts and
    the status derived from them, and lists the records of the last 30
    days; when alert generation raises on it, so does the dashboard. *)
Theorem dashboard_on_short_history :
  forall service_predict_occupancy service_generate_alerts
         (db : Storage) (today hospital_id : Z) (hospital : Hospital)
         (r : EHRRecord) (rs : list EHRRecord) (fallback : list Prediction),
    query_hospital db hospital_id = Some hospital ->
    query_records db hospital_id = r :: rs ->
    len (r :: rs) < 14 ->
    total_beds hospital <> 0 ->
    (forall record, In record (r :: rs) -> occupied_beds record <> None) ->
    Predictions._build_fallback_predictions (r :: rs) (total_beds hospital) 7
    = Ok fallback ->
    len fallback = 7 /\
    (forall alerts,
        service_generate_alerts fallback (total_beds hospital)
          (hospital_name hospital) = Ok alerts ->
        exists response utilization,
          Predictions.get_dashboard service_predict_occupancy
            service_generate_alerts db today hospital_id = Ok response /\
          Predictions.percent_of (occupied_beds (last (r :: rs) r))
            (total_beds hospital) = Ok utilization /\
          Predictions.d_predictions response = fallback /\
          Predictions.d_alerts response = alerts /\
          Predictions.d_overall_status response
          = Predictions.overall_status alerts utilization /\
          map Predictions.h_date (Predictions.d_historical_data response)
          = map date (filter (fun record => today - 30 <=? date record)
                             (r :: rs))) /\
    (forall e,
        service_generate_alerts fallback (total_beds hospital)
          (hospital_name hospital) = Raise e ->
        Predictions.get_dashboard service_predict_occupancy
          service_generate_alerts db today hospital_id = Raise e).
Proof.
  intros sp sa db today hospital_id hospital r rs fallback
         Hq Hr Hlen Hbeds Hocc Efb.
  assert (E14 : (14 <=? len (r :: rs)) = false) by now apply Z.leb_gt.
  assert (Hhist :
    mapM (fun record =>
            u <- Predictions.percent_of (occupied_beds record)
                   (total_beds hospital) ;;
            Ok {| Predictions.h_date := date record;
                  Predictions.h_occupied_beds := occupied_beds record;
                  Predictions.h_utilization := u |})
         (filter (fun record => today - 30 <=? date record) (r :: rs))
    = Ok (map (fun record =>
                 {| Predictions.h_date := date record;
                    Predictions.h_occupied_beds := occupied_beds record;
                    Predictions.h_utilization :=
                      (or0 (of_int (occupied_beds record))
                       / inject_Z (total_beds hospital) * 100)%Q |})
              (filter (fun record => today - 30 <=? date record) (r :: rs)))).
  { apply mapM_pure. intros record Hin. apply filter_In in Hin.
    destruct Hin as [Hin _]. specialize (Hocc record Hin).
    destruct (occupied_beds record) as [x|]; [|contradiction].
    rewrite percent_of_some by exact Hbeds. reflexivity. }
  assert (Hlast : exists x, occupied_beds (last (r :: rs) r) = Some x).
  { assert (Hin : In (last (r :: rs) r) (r :: rs)).
    { destruct (exists_last (l := r :: rs) ltac:(discriminate))
        as (l' & x & E). rewrite E, last_last. apply in_or_app.
      right. now left. }
    specialize (Hocc _ Hin).
    destruct (occupied_beds (last (r :: rs) r)) as [x|];
      [now exists x | contradiction]. }
  destruct Hlast as (x & Ex).
  split.
  { rewrite (admin_points r rs (total_beds hospital) 7) in Efb.
    injection Efb as <-. reflexivity. }
  split.
  - intros alerts Ea.
    eexists. exists (inject_Z x / inject_Z (total_beds hospital) * 100)%Q.
    split.
    + unfold Predictions.get_dashboard.
      rewrite Hq, (latest_record_last db hospital_id r rs Hr), Ex.
      rewrite percent_of_some by exact Hbeds. cbn [bind].
      rewrite Hr, Hhist. cbn [bind].
      unfold Predictions.dashboard_forecast. rewrite E14, Efb. cbn [bind].
      rewrite Ea. cbn [bind try_except fst snd]. reflexivity.
    + cbn [Predictions.d_predictions Predictions.d_alerts
           Predictions.d_overall_status Predictions.d_current_utilization
           Predictions.d_historical_data].
      split; [rewrite Ex; now apply percent_of_some|].
      repeat (split; [reflexivity|]).
      now rewrite map_map.
  - intros e Ea. unfold Predictions.get_dashboard.
    rewrite Hq, (latest_record_last db hospital_id r rs Hr), Ex.
    rewrite percent_of_some by exact Hbeds. cbn [bind].
    rewrite Hr, Hhist. cbn [bind].
    unfold Predictions.dashboard_forecast. rewrite E14, Efb. cbn [bind].
    rewrite Ea. reflexivity.
Qed.

Lemma dashboard_on_short_history_witness :
  let hospital := mkHospital 1 "General" "Pune" 100 10 in
  let db := storage_of [(hospital, series 0 [60; 61; 63])] in
  exists response,
    Predictions.get_dashboard failing_service (fun _ _ _ => Ok []) db 10 1
    = Ok response /\
    len (Predictions.d_predictions response) = 7 /\
    Predictions.d_alerts response = [] /\
    Predictions.d_overall_status response = "green"%string.
Proof.
  intros hospital db.
  destruct (Predictions._build_fallback_predictions
              (mkEHR 0 (Some 60) :: series 1 [61; 63]) 100 7)
    as [fallback|e] eqn:Efb; [|vm_compute in Efb; discriminate].
  destruct (dashboard_on_short_history failing_service (fun _ _ _ => Ok [])
              db 10 1 hospital (mkEHR 0 (Some 60)) (series 1 [61; 63]) fallback
              eq_refl eq_refl eq_refl ltac:(discriminate)) as (Hlen & Hok & _).
  - intros record [<-|[<-|[<-|[]]]]; discriminate.
  - exact Efb.
  - destruct (Hok [] eq_refl)
      as (response & u & E & Hu & Hp & Ha & Hs & _).
    exists response. split; [exact E|].
    split; [now rewrite Hp|]. split; [exact Ha|].
    rewrite Hs. vm_compute in Hu. injection Hu as <-. reflexivity.
Defined.

(** ** The normalizer, composed *)

(** X18. Both normalizers are idempotent, so that clamping an already
    normalized occupancy again (as the formatting of a fallback forecast
    does) changes nothing, and monotone: a larger occupancy never
    normalizes to a smaller one. *)
Theorem clamp_occupancy_idempotent_monotone :
  forall (value : option Q) (x y : Q) (a b : Z) (total_beds : Z),
    (Predictions._clamp_occupancy
       (Some (Predictions._clamp_occupancy value total_beds)) total_beds
     == Predictions._clamp_occupancy value total_beds)%Q /\
    Public._clamp_occupancy
      (Some (inject_Z (Public._clamp_occupancy value total_beds))) total_beds
    = Public._clamp_occupancy value total_beds /\
    ((x <= y)%Q ->
     (Predictions._clamp_occupancy (Some x) total_beds
      <= Predictions._clamp_occupancy (Some y) total_beds)%Q) /\
    (a <= b ->
     Public._clamp_occupancy (of_int (Some a)) total_beds
     <= Public._clamp_occupancy (of_int (Some b)) total_beds).
Proof.
  intros value x y a b total_beds.
  split; [apply admin_clamp_idempotent|].
  split; [apply public_clamp_idempotent|].
  split; [apply admin_clamp_mono|].
  intros H. unfold Public._clamp_occupancy. cbn [of_int option_map or0].
  rewrite !int_inject_Z. destruct (total_beds <=? 0); lia.
Qed.

Lemma clamp_occupancy_idempotent_monotone_witness :
  (Predictions._clamp_occupancy (Some 40) 100
   <= Predictions._clamp_occupancy (Some 140) 100)%Q /\
  Public._clamp_occupancy (of_int (Some (-5))) 100
  <= Public._clamp_occupancy (of_int (Some 40)) 100.
Proof.
  destruct (clamp_occupancy_idempotent_monotone None 40 140 (-5) 40 100)
    as (_ & _ & H1 & H2).
  split; [apply H1; discriminate | apply H2; discriminate].
Defined.

(** ** update_hospitals_db.py *)

Lemma lookup_keys (key : Z) :
  UpdateHospitalsDb.lookup key <> None <-> 1 <= key <= 4.
Proof.
  unfold UpdateHospitalsDb.lookup, UpdateHospitalsDb.INDIAN_HOSPITALS.
  cbn [find fst].
  destruct (Z.eqb_spec 1 key); [cbn; split; [lia | discriminate]|].
  destruct (Z.eqb_spec 2 key); [cbn; split; [lia | discriminate]|].
  destruct (Z.eqb_spec 3 key); [cbn; split; [lia | discriminate]|].
  destruct (Z.eqb_spec 4 key); [cbn; split; [lia | discriminate]|].
  cbn. split; [intros H; now destruct H | lia].
Qed.

(** X19. The database update renames without losing anything: it keeps
    the number and order of the hospitals and each hospital's id, bed
    count and ICU bed count, leaves every hospital whose id is not 1 to 4
    untouched, and running it a second time changes nothing. *)
Theorem update_hospitals_keeps_capacity :
  forall (hospitals : list Hospital),
    map id (UpdateHospitalsDb.update_hospitals hospitals) = map id hospitals /\
    map total_beds (UpdateHospitalsDb.update_hospitals hospitals)
    = map total_beds hospitals /\
    map icu_beds (UpdateHospitalsDb.update_hospitals hospitals)
    = map icu_beds hospitals /\
    (forall k h, nth_error hospitals k = Some h -> ~ 1 <= id h <= 4 ->
                 nth_error (UpdateHospitalsDb.update_hospitals hospitals) k
                 = Some h) /\
    UpdateHospitalsDb.update_hospitals
      (UpdateHospitalsDb.update_hospitals hospitals)
    = UpdateHospitalsDb.update_hospitals hospitals.
Proof.
  intros hospitals. unfold UpdateHospitalsDb.update_hospitals.
  rewrite !map_map.
  split; [apply map_ext; intros h;
          destruct (UpdateHospitalsDb.lookup (id h)); reflexivity|].
  split; [apply map_ext; intros h;
          destruct (UpdateHospitalsDb.lookup (id h)); reflexivity|].
  split; [apply map_ext; intros h;
          destruct (UpdateHospitalsDb.lookup (id h)); reflexivity|].
  split.
  - intros k h Hk Hid. rewrite nth_error_map, Hk. cbn [option_map].
    destruct (UpdateHospitalsDb.lookup (id h)) as [d|] eqn:E; [|reflexivity].
    exfalso. apply Hid. apply lookup_keys. now rewrite E.
  - apply map_ext. intros h.
    destruct (UpdateHospitalsDb.lookup (id h)) as [d|] eqn:E;
      cbn [id]; rewrite E; reflexivity.
Qed.

Lemma update_hospitals_keeps_capacity_witness :
  let hospitals := [mkHospital 1 "General" "Springfield" 250 30;
                    mkHospital 9 "Clinic" "Shelbyville" 40 4] in
  nth_error (UpdateHospitalsDb.update_hospitals hospitals) 1
  = Some (mkHospital 9 "Clinic" "Shelbyville" 40 4) /\
  nth_error (UpdateHospitalsDb.update_hospitals hospitals) 0
  = Some (mkHospital 1 "Apollo Hospitals" "Mumbai, Maharashtra" 250 30).
Proof.
  intros hospitals. split; [|reflexivity].
  apply (update_hospitals_keeps_capacity hospitals); [reflexivity|].
  cbn [id]. lia.
Defined.




(** ** The entries of a comparison *)

Lemma foldM_inversion {A S : Type} (body : S -> A -> result S)
    (P : S -> Prop) (l : list A) :
  (forall a s s1, In a l -> P s -> body s a = Ok s1 -> P s1) ->
  forall s0 s', foldM body l s0 = Ok s' -> P s0 -> P s'.
Proof.
  induction l as [|a l IH]; intros Hstep s0 s' E H0; cbn [foldM] in E.
  - now injection E as <-.
  - destruct (body s0 a) as [s1|e] eqn:Eb; [|discriminate].
    apply (IH (fun b s s2 Hb => Hstep b s s2 (or_intror Hb)) s1 s' E).
    exact (Hstep a s0 s1 (or_introl eq_refl) H0 Eb).
Qed.

Lemma truediv_ok_nonzero (x y : Q) (n : Z) :
  truediv x (inject_Z n) = Ok y -> n <> 0.
Proof.
  unfold truediv. intros E Hn. subst n. discriminate.
Qed.

Lemma compare_step_inversion service_predict_occupancy (db : Storage)
    (comparisons comparisons' : list Public.HospitalComparison)
    (hospital : Hospital) :
  Public.compare_step service_predict_occupancy db comparisons hospital
  = Ok comparisons' ->
  comparisons' = comparisons \/
  exists entry latest,
    comparisons' = comparisons ++ [entry] /\
    query_latest_record db (id hospital) = Some latest /\
    total_beds hospital <> 0 /\
    Public.hc_hospital_id entry = id hospital /\
    Public.hc_current_occupancy entry
    = Public._clamp_occupancy (of_int (occupied_beds latest))
                              (total_beds hospital) /\
    Public.hc_current_available entry
    = Z.max 0 (total_beds hospital - Public.hc_current_occupancy entry) /\
    Public.hc_utilization_percentage entry
    = utilization_of (Public.hc_current_occupancy entry) (total_beds hospital) /\
    Public.hc_risk_level entry
    = Public.comparison_risk (Public.hc_utilization_percentage entry).
Proof.
  unfold Public.compare_step. intros E.
  destruct (query_latest_record db (id hospital)) as [latest|];
    [|injection E as <-; now left].
  rewrite calculate_utilization_ok in E. cbn [bind] in E.
  destruct (Public.average_prediction _ _ _ _) as [m|e]; [|discriminate].
  cbn [bind] in E.
  destruct (truediv _ (inject_Z (total_beds hospital))) as [q1|e] eqn:E1;
    [|discriminate].
  cbn [bind] in E.
  destruct (truediv _ (inject_Z (total_beds hospital))) as [q2|e] eqn:E2 in E;
    [|discriminate].
  cbn [bind] in E. injection E as <-.
  right. eexists. exists latest. split; [reflexivity|].
  split; [reflexivity|].
  split; [exact (truediv_ok_nonzero _ _ _ E1)|].
  repeat split.
Qed.

(** X21. Every entry of a comparison, whatever the forecasting model
    returns for it, describes a hospital of the query that has a record
    and a non-zero capacity: its current occupancy is the normalized
    latest occupancy, occupied plus available beds equal the capacity when
    that is positive, the utilization lies in [[0, 100]] and the risk
    level classifies it.  The comparison never has more entries than
    the query has hospitals. *)
Theorem comparison_entries_consistent :
  forall service_predict_occupancy (db : Storage) (city : option string)
         (entries : list Public.HospitalComparison),
    Public.compare_hospitals service_predict_occupancy db city = Ok entries ->
    (List.length entries <= List.length (query_hospitals db city))%nat /\
    Forall
      (fun entry =>
         exists hospital latest,
           In hospital (query_hospitals db city) /\
           Public.hc_hospital_id entry = id hospital /\
           query_latest_record db (id hospital) = Some latest /\
           total_beds hospital <> 0 /\
           Public.hc_current_occupancy entry
           = Public._clamp_occupancy (of_int (occupied_beds latest))
                                     (total_beds hospital) /\
           0 <= Public.hc_current_occupancy entry /\
           0 <= Public.hc_current_available entry /\
           (0 < total_beds hospital ->
            Public.hc_current_occupancy entry + Public.hc_current_available entry
            = total_beds hospital) /\
           (0 <= Public.hc_utilization_percentage entry <= 100)%Q /\
           Public.hc_risk_level entry
           = Public.comparison_risk (Public.hc_utilization_percentage entry))
      entries.
Proof.
  intros sp db city entries E.
  destruct (compare_hospitals_sorted sp db city entries E)
    as (comparisons & Ef & ->).
  set (ok := fun entry : Public.HospitalComparison =>
         exists hospital latest,
           In hospital (query_hospitals db city) /\
           Public.hc_hospital_id entry = id hospital /\
           query_latest_record db (id hospital) = Some latest /\
           total_beds hospital <> 0 /\
           Public.hc_current_occupancy entry
           = Public._clamp_occupancy (of_int (occupied_beds latest))
                                     (total_beds hospital) /\
           0 <= Public.hc_current_occupancy entry /\
           0 <= Public.hc_current_available entry /\
           (0 < total_beds hospital ->
            Public.hc_current_occupancy entry + Public.hc_current_available entry
            = total_beds hospital) /\
           (0 <= Public.hc_utilization_percentage entry <= 100)%Q /\
           Public.hc_risk_level entry
           = Public.comparison_risk (Public.hc_utilization_percentage entry)).
  assert (Hall : Forall ok comparisons).
  { apply (foldM_inversion (Public.compare_step sp db) (Forall ok)
             (query_hospitals db city)) with (s0 := []);
      [|exact Ef|constructor].
    intros h s s1 Hin Hs Es.
    destruct (compare_step_inversion sp db s s1 h Es)
      as [->|(entry & latest & -> & Hl & Hb & Hid & Hocc & Hav & Hu & Hr)];
      [exact Hs|].
    apply Forall_app. split; [exact Hs|]. constructor; [|constructor].
    destruct (public_clamp_bounds (of_int (occupied_beds latest)) (total_beds h))
      as [H0 H1].
    exists h, latest.
    split; [exact Hin|]. split; [exact Hid|]. split; [exact Hl|].
    split; [exact Hb|]. split; [exact Hocc|].
    rewrite Hav, Hu, Hocc.
    split; [exact H0|]. split; [lia|].
    split; [intros Hp; specialize (H1 Hp); lia|].
    split; [apply utilization_of_bounds; assumption|].
    rewrite Hr, Hu, Hocc. reflexivity. }
  assert (Hlen : forall l s0 s',
    foldM (Public.compare_step sp db) l s0 = Ok s' ->
    (List.length s' <= List.length s0 + List.length l)%nat).
  { induction l as [|h l IH]; intros s0 s' Es; cbn [foldM] in Es.
    - injection Es as <-. lia.
    - destruct (Public.compare_step sp db s0 h) as [s1|e] eqn:E1; [|discriminate].
      specialize (IH s1 s' Es). cbn [List.length].
      destruct (compare_step_inversion sp db s0 s1 h E1)
        as [->|(entry & _ & -> & _)]; [lia|].
      rewrite length_app in IH. cbn [List.length] in IH. lia. }
  split.
  - rewrite (Permutation_length (sort_desc_perm comparisons)).
    exact (Hlen _ _ _ Ef).
  - exact (Permutation_Forall (Permutation_sym (sort_desc_perm comparisons)) Hall).
Qed.

(** A model that forecasts 150 beds for a 100-bed hospital at 95 beds: the
    entry still splits the capacity and reports a high risk. *)
Lemma comparison_entries_consistent_witness :
  let db :=
    storage_of
      [(mkHospital 1 "General" "Pune" 100 10,
        series 0 [50; 51; 52; 53; 54; 55; 56; 57; 58; 59; 60; 61; 62; 95])] in
  exists entry,
    Public.compare_hospitals (constant_service 150) db None = Ok [entry] /\
    Public.hc_current_occupancy entry + Public.hc_current_available entry = 100 /\
    Public.hc_risk_level entry = "high"%string.
Proof.
  intros db.
  destruct (Public.compare_hospitals (constant_service 150) db None)
    as [entries|e] eqn:E; [|vm_compute in E; discriminate].
  destruct (comparison_entries_consistent (constant_service 150) db None
              entries E) as [Hlen Hall].
  destruct entries as [|entry [|entry' rest]];
    [vm_compute in E; discriminate | | cbn in Hlen; lia].
  exists entry. split; [reflexivity|].
  apply Forall_inv in Hall.
  destruct Hall as (h & latest & [<-|[]] & _ & _ & _ & _ & _ & _ & Hsum & _ & _).
  split; [apply Hsum; reflexivity|].
  vm_compute in E. injection E as <-. reflexivity.
Defined.




(** ** The forecast block of a dashboard *)

Lemma dashboard_forecast_inversion service_predict_occupancy
    service_generate_alerts (all_records : list EHRRecord)
    (hospital : Hospital) (pa : list Prediction * list AlertItem) :
  Predictions.dashboard_forecast service_predict_occupancy
    service_generate_alerts all_records hospital = Ok pa ->
  service_generate_alerts (fst pa) (total_beds hospital) (hospital_name hospital)
  = Ok (snd pa) /\
  ((14 <= len all_records /\
    exists model_info,
      service_predict_occupancy all_records 7 = Ok (fst pa, model_info)) \/
   Predictions._build_fallback_predictions all_records (total_beds hospital) 7
   = Ok (fst pa)).
Proof.
  unfold Predictions.dashboard_forecast. intros E.
  assert (Hhandler :
    (fallback_data <-
       Predictions._build_fallback_predictions all_records
         (total_beds hospital) 7 ;;
     fallback_alerts <-
       service_generate_alerts fallback_data (total_beds hospital)
         (hospital_name hospital) ;;
     Ok (fallback_data, fallback_alerts)) = Ok pa ->
    service_generate_alerts (fst pa) (total_beds hospital)
      (hospital_name hospital) = Ok (snd pa) /\
    Predictions._build_fallback_predictions all_records (total_beds hospital) 7
    = Ok (fst pa)).
  { intros H.
    destruct (Predictions._build_fallback_predictions all_records
                (total_beds hospital) 7) as [fb|e]; [|discriminate].
    cbn [bind] in H.
    destruct (service_generate_alerts fb (total_beds hospital)
                (hospital_name hospital)) as [al|e] eqn:Ea; [|discriminate].
    cbn [bind] in H. injection H as <-. cbn [fst snd]. now split. }
  destruct (Z.leb_spec 14 (len all_records)) as [H14|H14].
  - destruct (service_predict_occupancy all_records 7) as [[ps m]|e] eqn:Es;
      cbn [bind try_except fst] in E.
    + destruct (service_generate_alerts ps (total_beds hospital)
                  (hospital_name hospital)) as [al|e] eqn:Ea;
        cbn [bind try_except] in E.
      * injection E as <-. cbn [fst snd]. split; [exact Ea|].
        left. split; [exact H14 | now exists m].
      * destruct (Hhandler E) as [Ha Hf]. split; [exact Ha | now right].
    + destruct (Hhandler E) as [Ha Hf]. split; [exact Ha | now right].
  - destruct (Predictions._build_fallback_predictions all_records
                (total_beds hospital) 7) as [fb|e] eqn:Efb;
      cbn [bind try_except] in E.
    + destruct (service_generate_alerts fb (total_beds hospital)
                  (hospital_name hospital)) as [al|e] eqn:Ea;
        cbn [bind try_except] in E.
      * injection E as <-. cbn [fst snd]. split; [exact Ea | now right].
      * discriminate.
    + discriminate.
Qed.



(** * The claims on the endpoints, the calendar and the floats *)

(** ** The fallback forecasters inside the calendar *)

Lemma add_days_value (d n v : Z) : add_days d n = Ok v -> v = d + n.
Proof.
  unfold add_days.
  destruct ((Z.abs n <=? 999999999) && (date_min <=? d + n) && (d + n <=? date_max));
    [now intros [= <-] | discriminate].
Qed.

Lemma add_days_inside (d n : Z) :
  date_min <= d -> 0 <= n -> d + n <= date_max -> add_days d n = Ok (d + n).
Proof.
  unfold add_days, date_min, date_max. intros Hd Hn Hmax.
  destruct (Z.leb_spec (Z.abs n) 999999999); [|lia].
  destruct (Z.leb_spec 1 (d + n)); [|lia].
  destruct (Z.leb_spec (d + n) 3652059); [reflexivity | lia].
Qed.

Lemma add_days_outside (d n : Z) :
  date_max < d + n -> add_days d n = Raise OverflowError.
Proof.
  unfold add_days. intros H.
  destruct (Z.leb_spec (d + n) date_max); [lia|].
  now rewrite andb_false_r.
Qed.

Lemma add_days_raises (d n : Z) (e : exn) :
  add_days d n = Raise e -> e = OverflowError.
Proof.
  unfold add_days.
  destruct ((Z.abs n <=? 999999999) && (date_min <=? d + n) && (d + n <=? date_max));
    [discriminate | now intros [= <-]].
Qed.

(** The dated loop: the dates are checked one after the other, and the
    points are those of the loop without the check. *)
Lemma dated_loop {B : Type} (last_day : Z) (point : Z -> Z -> B) (l : list Z) :
  forall init,
    foldM (fun predictions offset =>
             day <- add_days last_day offset ;;
             Ok (predictions ++ [point day offset]))
          l init
    = (_ <- mapM (add_days last_day) l ;;
       Ok (init ++ map (fun offset => point (last_day + offset) offset) l)).
Proof.
  induction l as [|o l IH]; intros init; cbn [foldM mapM map bind].
  - now rewrite app_nil_r.
  - destruct (add_days last_day o) as [day|e] eqn:E; cbn [bind]; [|reflexivity].
    apply add_days_value in E. subst day. rewrite IH.
    destruct (mapM (add_days last_day) l); cbn [bind]; [|reflexivity].
    now rewrite <- app_assoc.
Qed.

Lemma dates_inside (last_day days : Z) :
  date_min <= last_day -> last_day + days <= date_max ->
  mapM (add_days last_day) (range 1 (days + 1))
  = Ok (map (fun offset => last_day + offset) (range 1 (days + 1))).
Proof.
  intros Hmin Hmax. apply mapM_pure. intros o Ho. apply in_range in Ho.
  apply add_days_inside; lia.
Qed.

Lemma mapM_raises {A B : Type} (f : A -> result B) (e : exn) (l : list A) :
  (forall a e', In a l -> f a = Raise e' -> e' = e) ->
  (exists a, In a l /\ f a = Raise e) ->
  mapM f l = Raise e.
Proof.
  induction l as [|a l IH]; intros Hall (x & Hin & Hx); [destruct Hin|].
  cbn [mapM]. destruct (f a) as [b|e'] eqn:Ea.
  - destruct Hin as [->|Hin]; [congruence|].
    rewrite IH; [reflexivity | | now exists x].
    intros y e2 Hy. apply Hall. now right.
  - now rewrite (Hall a e' (or_introl eq_refl) Ea).
Qed.

Lemma dates_outside (last_day days : Z) :
  0 < days -> date_max < last_day + days ->
  mapM (add_days last_day) (range 1 (days + 1)) = Raise OverflowError.
Proof.
  intros Hdays Hmax. apply mapM_raises.
  - intros o e _. apply add_days_raises.
  - exists days. split; [|now apply add_days_outside].
    unfold range. apply in_map_iff. exists (Z.to_nat (days - 1)).
    split; [lia|]. apply in_seq. lia.
Qed.

Lemma admin_dated_unfold (r : EHRRecord) (rs : list EHRRecord)
    (total_beds days : Z) :
  Predictions._build_fallback_predictions_dated (r :: rs) total_beds days
  = (_ <- mapM (add_days (date (last (r :: rs) r))) (range 1 (days + 1)) ;;
     Predictions._build_fallback_predictions (r :: rs) total_beds days).
Proof.
  rewrite (admin_fallback_unfold r rs total_beds days).
  set (ehr_records := r :: rs).
  set (normalized :=
         map (fun record =>
                Predictions._clamp_occupancy (of_int (occupied_beds record))
                                             total_beds)
             ehr_records).
  unfold Predictions._build_fallback_predictions_dated.
  cbv beta iota zeta. fold ehr_records. fold normalized.
  rewrite (deltas_comprehension Qminus). cbn [bind].
  assert (Havg :
    match diffs_with Qminus (slice_last 8 normalized) with
    | [] => Ok 0%Q
    | _ :: _ =>
        truediv (sumQ (diffs_with Qminus (slice_last 8 normalized)))
                (inject_Z (len (diffs_with Qminus (slice_last 8 normalized))))
    end = Ok (avg_of_Q (diffs_with Qminus (slice_last 8 normalized)))).
  { destruct (diffs_with Qminus (slice_last 8 normalized)) as [|d ds];
      [reflexivity | apply truediv_len]. }
  rewrite Havg. cbn [bind].
  unfold ehr_records at 1. cbv iota.
  unfold ehr_records at 1. rewrite getitem_last. cbn [bind].
  unfold normalized at 1, ehr_records at 1. cbn [map].
  rewrite getitem_last. cbn [bind].
  rewrite (last_map_cons
             (fun record =>
                Predictions._clamp_occupancy (of_int (occupied_beds record)) total_beds)).
  rewrite (dated_loop (date (last (r :: rs) r))
             (fun day offset =>
                {| p_date := day;
                   predicted_occupancy := predicted_occupancy
                     (admin_point total_beds 0
                        (Predictions._clamp_occupancy
                           (of_int (occupied_beds (last (r :: rs) r))) total_beds)
                        (Qmax (-5)
                           (Qmin 5 (avg_of_Q (diffs_with Qminus
                                                (slice_last 8 normalized)))))
                        offset);
                   lower_bound := lower_bound
                     (admin_point total_beds 0
                        (Predictions._clamp_occupancy
                           (of_int (occupied_beds (last (r :: rs) r))) total_beds)
                        (Qmax (-5)
                           (Qmin 5 (avg_of_Q (diffs_with Qminus
                                                (slice_last 8 normalized)))))
                        offset);
                   upper_bound := upper_bound
                     (admin_point total_beds 0
                        (Predictions._clamp_occupancy
                           (of_int (occupied_beds (last (r :: rs) r))) total_beds)
                        (Qmax (-5)
                           (Qmin 5 (avg_of_Q (diffs_with Qminus
                                                (slice_last 8 normalized)))))
                        offset) |})).
  reflexivity.
Qed.

Lemma public_dated_unfold (r : EHRRecord) (rs : list EHRRecord)
    (total_beds days : Z) :
  Public._build_fallback_forecast_dated (r :: rs) total_beds days
  = (_ <- mapM (add_days (date (last (r :: rs) r))) (range 1 (days + 1)) ;;
     Public._build_fallback_forecast (r :: rs) total_beds days).
Proof.
  rewrite (public_fallback_unfold r rs total_beds days).
  set (ehr_records := r :: rs).
  set (normalized :=
         map (fun record =>
                Public._clamp_occupancy (of_int (occupied_beds record)) total_beds)
             ehr_records).
  unfold Public._build_fallback_forecast_dated.
  cbv beta iota zeta. fold ehr_records. fold normalized.
  rewrite (deltas_comprehension Z.sub). cbn [bind].
  assert (Havg :
    match diffs_with Z.sub (slice_last 8 normalized) with
    | [] => Ok 0%Q
    | _ :: _ =>
        truediv (inject_Z (sumZ (diffs_with Z.sub (slice_last 8 normalized))))
                (inject_Z (len (diffs_with Z.sub (slice_last 8 normalized))))
    end = Ok (avg_of_Z (diffs_with Z.sub (slice_last 8 normalized)))).
  { destruct (diffs_with Z.sub (slice_last 8 normalized)) as [|d ds];
      [reflexivity | apply truediv_len]. }
  rewrite Havg. cbn [bind].
  unfold ehr_records at 1. cbv iota.
  unfold ehr_records at 1. rewrite getitem_last. cbn [bind].
  unfold normalized at 1, ehr_records at 1. cbn [map].
  rewrite getitem_last. cbn [bind].
  rewrite (last_map_cons
             (fun record =>
                Public._clamp_occupancy (of_int (occupied_beds record)) total_beds)).
  rewrite (dated_loop (date (last (r :: rs) r))
             (fun day offset =>
                {| p_date := day;
                   predicted_occupancy := predicted_occupancy
                     (public_point total_beds 0
                        (Public._clamp_occupancy
                           (of_int (occupied_beds (last (r :: rs) r))) total_beds)
                        (Qmax (-5)
                           (Qmin 5 (avg_of_Z (diffs_with Z.sub
                                                (slice_last 8 normalized)))))
                        offset);
                   lower_bound := None;
                   upper_bound := None |})).
  reflexivity.
Qed.

(** C7 (as stated) fails.  A record of 9999-12-30 and a horizon
    of two days: the second forecast date does not exist, and
    [last_day + timedelta(days=2)] raises [OverflowError] in both
    forecasters, where the claim promises two points. *)
Theorem fallback_overflows_calendar :
  Predictions._build_fallback_predictions_dated
    [mkEHR (date_max - 1) (Some 60)] 100 2 = Raise OverflowError /\
  Public._build_fallback_forecast_dated
    [mkEHR (date_max - 1) (Some 60)] 100 2 = Raise OverflowError.
Proof. split; reflexivity. Qed.

(** C7 (amended). On no record the fallback forecasters return the empty
    sequence.  On at least one record, any capacity and a positive
    horizon they return exactly [horizon_days] points without raising
    whenever the last forecast date, the last record's date plus the
    horizon, still is a calendar date (at most 9999-12-31); the points
    then are those computed on unbounded day numbers.  When the last
    forecast date is past the calendar, they raise [OverflowError]. *)
Theorem fallback_forecasters_total_in_calendar :
  forall (r : EHRRecord) (rs : list EHRRecord) (total_beds days : Z),
    let ehr_records := r :: rs in
    let last_day := date (last ehr_records r) in
    Predictions._build_fallback_predictions_dated [] total_beds days = Ok [] /\
    Public._build_fallback_forecast_dated [] total_beds days = Ok [] /\
    (0 < days -> date_min <= last_day -> last_day + days <= date_max ->
     exists admin_points public_points,
       Predictions._build_fallback_predictions_dated ehr_records total_beds days
       = Ok admin_points /\
       Public._build_fallback_forecast_dated ehr_records total_beds days
       = Ok public_points /\
       len admin_points = days /\ len public_points = days /\
       Predictions._build_fallback_predictions ehr_records total_beds days
       = Ok admin_points /\
       Public._build_fallback_forecast ehr_records total_beds days
       = Ok public_points) /\
    (0 < days -> date_max < last_day + days ->
     Predictions._build_fallback_predictions_dated ehr_records total_beds days
     = Raise OverflowError /\
     Public._build_fallback_forecast_dated ehr_records total_beds days
     = Raise OverflowError).
Proof.
  intros r rs total_beds days ehr_records last_day.
  split; [reflexivity|]. split; [reflexivity|].
  subst ehr_records last_day.
  rewrite admin_dated_unfold, public_dated_unfold.
  split.
  - intros Hdays Hmin Hmax. rewrite (dates_inside _ _ Hmin Hmax). cbn [bind].
    eexists. eexists.
    split; [apply admin_fallback_unfold|].
    split; [apply public_fallback_unfold|].
    split; [unfold len; rewrite length_map, range_length; lia|].
    split; [unfold len; rewrite length_map, range_length; lia|].
    split; [apply admin_fallback_unfold | apply public_fallback_unfold].
  - intros Hdays Hmax. rewrite (dates_outside _ _ Hdays Hmax). now split.
Qed.

(** Three records ending on day 738000 (in the year 2021) and a horizon
    of a week; the same records ending on 9999-12-28 and the same
    horizon. *)
Lemma fallback_forecasters_total_in_calendar_witness :
  (exists admin_points public_points,
      Predictions._build_fallback_predictions_dated
        (series 737998 [60; 61; 63]) 100 7 = Ok admin_points /\
      Public._build_fallback_forecast_dated
        (series 737998 [60; 61; 63]) 100 7 = Ok public_points /\
      len admin_points = 7 /\ len public_points = 7) /\
  Public._build_fallback_forecast_dated
    (series (date_max - 5) [60; 61; 63]) 100 7 = Raise OverflowError.
Proof.
  pose proof (fallback_forecasters_total_in_calendar
                (mkEHR 737998 (Some 60)) (series 737999 [61; 63]) 100 7)
    as (_ & _ & Hin & _).
  pose proof (fallback_forecasters_total_in_calendar
                (mkEHR (date_max - 5) (Some 60))
                (series (date_max - 4) [61; 63]) 100 7)
    as (_ & _ & _ & Hout).
  split.
  - destruct Hin as (a & p & Ea & Ep & La & Lp & _);
      [reflexivity | discriminate | discriminate |].
    exists a, p. repeat split; assumption.
  - apply Hout; reflexivity.
Defined.

(** ** The normalizers on finite numbers, NaN and the infinities *)

Lemma public_clamp_truncation (value : option Q) (total_beds : Z) :
  Public._clamp_occupancy value total_beds
  = Public._clamp_occupancy (of_int (Some (int (or0 value)))) total_beds.
Proof.
  unfold Public._clamp_occupancy. cbn [of_int option_map or0].
  now rewrite int_inject_Z.
Qed.

Lemma public_clamp_float_finite (value : option Q) (total_beds : Z) :
  Public._clamp_occupancy_float (option_map Finite value) total_beds
  = Ok (Public._clamp_occupancy value total_beds).
Proof.
  unfold Public._clamp_occupancy_float, Public._clamp_occupancy.
  destruct value as [v|]; cbn [option_map or0_float or0 int_float bind];
    destruct (total_beds <=? 0); reflexivity.
Qed.

(** C6 (as stated) fails.  The public normalizer truncates its
    argument before it clamps it: a forecast of 61.7 beds in a 100-bed
    hospital normalizes to 61, where clamping into [[0, 100]] leaves
    61.7. *)
Theorem public_clamp_truncates :
  Public._clamp_occupancy (Some (617 # 10)) 100 = 61 /\
  (Spec.normalize (Some (617 # 10)) 100 == 617 # 10)%Q /\
  ~ (inject_Z (Public._clamp_occupancy (Some (617 # 10)) 100)
     == Spec.normalize (Some (617 # 10)) 100)%Q.
Proof.
  split; [reflexivity|]. split; [reflexivity|]. discriminate.
Qed.

(** C6 (amended). On a missing value or a finite number, and any
    capacity, neither normalizer raises.  The admin normalizer returns
    the specified normalization of the value.  The public normalizer
    returns the specified normalization of the value truncated toward
    zero to a whole number, hence of the value itself when that is whole.
    Either result is non-negative and, for a positive capacity, at most
    [total_beds].  On NaN and on an infinite value the public normalizer
    raises ([ValueError], [OverflowError]). *)
Theorem clamp_occupancy_on_finite_numbers :
  forall (value : option Q) (occupied : option Z) (total_beds : Z)
         (negative : bool),
    (Predictions._clamp_occupancy value total_beds
     == Spec.normalize value total_beds)%Q /\
    Public._clamp_occupancy_float (option_map Finite value) total_beds
    = Ok (Public._clamp_occupancy value total_beds) /\
    (inject_Z (Public._clamp_occupancy value total_beds)
     == Spec.normalize (Some (inject_Z (int (or0 value)))) total_beds)%Q /\
    (inject_Z (Public._clamp_occupancy (of_int occupied) total_beds)
     == Spec.normalize (of_int occupied) total_beds)%Q /\
    (0 <= Predictions._clamp_occupancy value total_beds)%Q /\
    0 <= Public._clamp_occupancy value total_beds /\
    (0 < total_beds ->
     (Predictions._clamp_occupancy value total_beds <= inject_Z total_beds)%Q /\
     Public._clamp_occupancy value total_beds <= total_beds) /\
    Public._clamp_occupancy_float (Some NaN) total_beds = Raise ValueError /\
    Public._clamp_occupancy_float (Some (Infinity negative)) total_beds
    = Raise OverflowError.
Proof.
  intros value occupied total_beds negative.
  pose proof (admin_clamp_bounds value total_beds) as [Ha0 Ha1].
  pose proof (public_clamp_bounds value total_beds) as [Hp0 Hp1].
  split; [apply admin_clamp_normalize|].
  split; [apply public_clamp_float_finite|].
  split.
  { rewrite public_clamp_truncation.
    exact (public_clamp_normalize (Some (int (or0 value))) total_beds). }
  split; [apply public_clamp_normalize|].
  split; [exact Ha0|]. split; [exact Hp0|].
  split; [intros H; split; [exact (Ha1 H) | exact (Hp1 H)]|].
  unfold Public._clamp_occupancy_float.
  split; destruct (total_beds <=? 0); reflexivity.
Qed.

(** A forecast of 120.9 beds and a forecast of 61.7 beds in a 100-bed
    hospital. *)
Lemma clamp_occupancy_on_finite_numbers_witness :
  ((Predictions._clamp_occupancy (Some (1209 # 10)) 100 <= inject_Z 100)%Q /\
   Public._clamp_occupancy (Some (1209 # 10)) 100 <= 100) /\
  Public._clamp_occupancy_float (Some (Finite (617 # 10))) 100 = Ok 61.
Proof.
  destruct (clamp_occupancy_on_finite_numbers (Some (1209 # 10)) None 100 false)
    as (_ & _ & _ & _ & _ & _ & Hb & _).
  destruct (clamp_occupancy_on_finite_numbers (Some (617 # 10)) None 100 false)
    as (_ & Hf & _).
  split; [apply Hb; reflexivity | exact Hf].
Defined.

(** ** The tiers on the endpoints *)

Lemma classify_cases (u : Q) :
  (Qle_bool 85 u = true /\ Spec.classify u = Spec.High) \/
  (Qle_bool 85 u = false /\ Qle_bool 70 u = true /\
   Spec.classify u = Spec.Medium) \/
  (Qle_bool 85 u = false /\ Qle_bool 70 u = false /\
   Spec.classify u = Spec.Low).
Proof.
  unfold Spec.classify.
  destruct (u ?= 85)%Q eqn:E85;
    [apply Qeq_alt in E85 | apply Qlt_alt in E85 | apply Qgt_alt in E85].
  - left. split; [apply Qle_bool_true; lra | reflexivity].
  - right. rewrite (Qle_bool_false 85 u E85).
    destruct (u ?= 70)%Q eqn:E70;
      [apply Qeq_alt in E70 | apply Qlt_alt in E70 | apply Qgt_alt in E70].
    + left. repeat split. apply Qle_bool_true. lra.
    + right. repeat split. now apply Qle_bool_false.
    + left. repeat split. apply Qle_bool_true. lra.
  - left. split; [apply Qle_bool_true; lra | reflexivity].
Qed.

Lemma classify_boundaries (u : Q) :
  (Spec.classify u = Spec.High <-> (85 <= u)%Q) /\
  (Spec.classify u = Spec.Medium <-> (70 <= u)%Q /\ (u < 85)%Q) /\
  (Spec.classify u = Spec.Low <-> (u < 70)%Q).
Proof.
  assert (F : forall a, Qle_bool a u = false -> (u < a)%Q).
  { intros a H. destruct (Qlt_le_dec u a) as [L|G]; [exact L|].
    apply Qle_bool_iff in G. congruence. }
  destruct (classify_cases u) as [[H85 ->]|[(H85 & H70 & ->)|(H85 & H70 & ->)]].
  - apply Qle_bool_iff in H85.
    repeat split; try discriminate; try (intros; lra); intros [_ H]; lra.
  - apply Qle_bool_iff in H70. apply F in H85.
    repeat split; try discriminate; try assumption; intros; lra.
  - apply F in H85. apply F in H70.
    repeat split; try discriminate; try assumption; try (intros; lra);
      intros [H _]; lra.
Qed.

Lemma risk_from_utilization_label (u : Q) :
  Public._risk_from_utilization u = risk_label (Spec.classify u).
Proof.
  unfold Public._risk_from_utilization.
  destruct (classify_cases u) as [[-> ->]|[(-> & -> & ->)|(-> & -> & ->)]];
    reflexivity.
Qed.

Lemma comparison_risk_label (u : Q) :
  Public.comparison_risk u = risk_label (Spec.classify u).
Proof.
  unfold Public.comparison_risk.
  destruct (classify_cases u) as [[-> ->]|[(-> & -> & ->)|(-> & -> & ->)]];
    reflexivity.
Qed.

Lemma availability_status_label (u : Q) :
  Public.availability_status u = status_label (Spec.classify u).
Proof.
  unfold Public.availability_status.
  destruct (classify_cases u) as [[-> ->]|[(-> & -> & ->)|(-> & -> & ->)]];
    reflexivity.
Qed.

Lemma overall_status_label (u : Q) :
  Predictions.overall_status [] u = colour_label (Spec.classify u).
Proof.
  unfold Predictions.overall_status.
  destruct (classify_cases u) as [[-> ->]|[(-> & -> & ->)|(-> & -> & ->)]];
    reflexivity.
Qed.

Lemma alternate_ok_label (u : Q) :
  Public.alternate_ok u = true <-> Spec.classify u = Spec.Low.
Proof.
  unfold Public.alternate_ok.
  destruct (classify_cases u) as [[H85 ->]|[(H85 & -> & ->)|(H85 & -> & ->)]].
  - assert (H70 : Qle_bool 70 u = true).
    { apply Qle_bool_iff in H85. apply Qle_bool_true. lra. }
    rewrite H70. split; discriminate.
  - split; discriminate.
  - now split.
Qed.

Lemma severities_of_alerts (total_beds : Z) (predictions : list Prediction) :
  map (fun a => (Public.alert_date a, Public.alert_severity a))
      (alerts_of total_beds predictions)
  = severities_of total_beds predictions.
Proof.
  unfold alerts_of, severities_of.
  induction predictions as [|p ps IH]; [reflexivity|].
  cbn [flat_map]. rewrite map_app, IH. f_equal.
  unfold Public.alert_for.
  destruct (classify_cases (alert_utilization total_beds p))
    as [[-> ->]|[(-> & -> & ->)|(-> & -> & ->)]]; reflexivity.
Qed.

(** What [get_dashboard] has done when it answers *)
Lemma get_dashboard_inversion service_predict_occupancy service_generate_alerts
    (db : Storage) (today hospital_id : Z)
    (response : Predictions.DashboardResponse) :
  Predictions.get_dashboard service_predict_occupancy service_generate_alerts
    db today hospital_id = Ok response ->
  exists hospital latest x,
    query_hospital db hospital_id = Some hospital /\
    query_latest_record db hospital_id = Some latest /\
    occupied_beds latest = Some x /\
    total_beds hospital <> 0 /\
    Predictions.d_current_occupied response = Some x /\
    service_generate_alerts (Predictions.d_predictions response)
      (total_beds hospital) (hospital_name hospital)
    = Ok (Predictions.d_alerts response) /\
    ((14 <= len (query_records db hospital_id) /\
      exists model_info,
        service_predict_occupancy (query_records db hospital_id) 7
        = Ok (Predictions.d_predictions response, model_info)) \/
     Predictions._build_fallback_predictions (query_records db hospital_id)
       (total_beds hospital) 7
     = Ok (Predictions.d_predictions response)) /\
    Predictions.d_overall_status response
    = Predictions.overall_status (Predictions.d_alerts response)
        (inject_Z x / inject_Z (total_beds hospital) * 100).
Proof.
  intros E. unfold Predictions.get_dashboard in E.
  destruct (query_hospital db hospital_id) as [hospital|]; [|discriminate].
  destruct (query_latest_record db hospital_id) as [latest|]; [|discriminate].
  unfold Predictions.percent_of at 1 in E.
  destruct (occupied_beds latest) as [x|] eqn:Ex; [|discriminate].
  destruct (truediv (inject_Z x) (inject_Z (total_beds hospital)))
    as [q|e] eqn:Eq; [|discriminate].
  pose proof (truediv_ok_nonzero _ _ _ Eq) as Hb.
  rewrite (truediv_nonzero _ _ Hb) in Eq. injection Eq as <-.
  cbn [bind] in E.
  destruct (mapM _ _) as [historical|e]; [|discriminate].
  cbn [bind] in E.
  destruct (Predictions.dashboard_forecast service_predict_occupancy
              service_generate_alerts (query_records db hospital_id) hospital)
    as [pa|e] eqn:Ef; [|discriminate].
  cbn [bind] in E. injection E as <-.
  destruct (dashboard_forecast_inversion _ _ _ _ _ Ef) as [Ha Hsrc].
  exists hospital, latest, x.
  cbn [Predictions.d_predictions Predictions.d_alerts
       Predictions.d_overall_status Predictions.d_current_occupied].
  split; [reflexivity|]. split; [reflexivity|]. split; [exact Ex|].
  split; [exact Hb|]. split; [reflexivity|].
  split; [exact Ha|]. split; [exact Hsrc | reflexivity].
Qed.

(** C2 (as stated) fails.  The consumers draw the same
    boundaries on different numbers.  At 142 occupied beds of 203 the
    utilization is 69.95...: the availability endpoint classifies the
    rounded 70.0 and answers ["moderate"], the dashboard (no alert being
    generated for a forecast that falls from 137 beds) classifies the
    unrounded value and answers ["green"].  At 96 beds of 113 (84.96...)
    availability answers ["high"] and a dashboard without alerts
    ["yellow"]. *)
Theorem availability_and_dashboard_disagree :
  let no_alerts :=
    fun (_ : list Prediction) (_ : Z) (_ : string) => Ok (@nil AlertItem) in
  let db :=
    storage_of
      [(mkHospital 1 "General" "Pune" 203 10, series 0 [147; 142]);
       (mkHospital 2 "North" "Pune" 113 10, series 0 [96])] in
  (exists a d,
      Public.get_hospital_availability db 1 = Ok a /\
      Public.ha_current_occupied a = 142 /\
      Public.ha_status a = "moderate"%string /\
      Predictions.get_dashboard failing_service no_alerts db 0 1 = Ok d /\
      Predictions.d_current_occupied d = Some 142 /\
      Predictions.d_alerts d = [] /\
      Predictions.d_overall_status d = "green"%string) /\
  (exists a d,
      Public.get_hospital_availability db 2 = Ok a /\
      Public.ha_current_occupied a = 96 /\
      Public.ha_status a = "high"%string /\
      Predictions.get_dashboard failing_service no_alerts db 0 2 = Ok d /\
      Predictions.d_current_occupied d = Some 96 /\
      Predictions.d_alerts d = [] /\
      Predictions.d_overall_status d = "yellow"%string).
Proof.
  intros no_alerts db. split.
  - destruct (Public.get_hospital_availability db 1) as [a|e] eqn:Ea;
      [|vm_compute in Ea; discriminate].
    destruct (Predictions.get_dashboard failing_service no_alerts db 0 1)
      as [d|e] eqn:Ed; [|vm_compute in Ed; discriminate].
    exists a, d. vm_compute in Ea. injection Ea as <-.
    vm_compute in Ed. injection Ed as <-. repeat split.
  - destruct (Public.get_hospital_availability db 2) as [a|e] eqn:Ea;
      [|vm_compute in Ea; discriminate].
    destruct (Predictions.get_dashboard failing_service no_alerts db 0 2)
      as [d|e] eqn:Ed; [|vm_compute in Ed; discriminate].
    exists a, d. vm_compute in Ea. injection Ea as <-.
    vm_compute in Ed. injection Ed as <-. repeat split.
Qed.

(** C2 (amended). Every consumer of the risk classification tests the
    boundaries 85 and 70, each belonging to the higher tier, on the
    utilization that consumer has computed.  The availability status, the
    risk level of every forecast day and of every comparison entry, the
    severity of every patient alert and the filter on alternate hospitals
    classify the percentage that [_calculate_utilization] returned (the
    one they report, rounded to one decimal); the dashboard's colour,
    when no alert was generated, classifies the unrounded current
    utilization. *)
Theorem risk_tiers_on_endpoints :
  forall service_predict_occupancy service_generate_alerts (db : Storage)
         (hospital_id days today : Z) (city : option string),
    (forall u,
        (Spec.classify u = Spec.High <-> (85 <= u)%Q) /\
        (Spec.classify u = Spec.Medium <-> (70 <= u)%Q /\ (u < 85)%Q) /\
        (Spec.classify u = Spec.Low <-> (u < 70)%Q)) /\
    (forall response latest,
        Public.get_hospital_availability db hospital_id = Ok response ->
        query_latest_record db hospital_id = Some latest ->
        Public._calculate_utilization (Public.ha_current_occupied response)
          (Public.ha_total_beds response)
        = Ok (Public.ha_utilization_percentage response) /\
        Public.ha_status response
        = status_label
            (Spec.classify (Public.ha_utilization_percentage response))) /\
    (forall response,
        Public.get_hospital_forecast service_predict_occupancy db hospital_id
          days = Ok response ->
        Forall (fun day =>
                  Public._calculate_utilization
                    (Public.df_predicted_occupancy day)
                    (Public.hf_total_beds response)
                  = Ok (Public.df_utilization_percentage day) /\
                  Public.df_risk_level day
                  = risk_label
                      (Spec.classify (Public.df_utilization_percentage day)))
               (Public.hf_forecast response)) /\
    (forall entries,
        Public.compare_hospitals service_predict_occupancy db city = Ok entries ->
        Forall (fun entry =>
                  Public.hc_risk_level entry
                  = risk_label
                      (Spec.classify (Public.hc_utilization_percentage entry)))
               entries) /\
    (forall response,
        Public.get_hospital_alerts service_predict_occupancy db hospital_id
        = Ok response ->
        exists hospital predictions,
          query_hospital db hospital_id = Some hospital /\
          Public.select_predictions service_predict_occupancy
            (query_records db hospital_id) (total_beds hospital) 7
          = Ok predictions /\
          map (fun a => (Public.alert_date a, Public.alert_severity a))
              (Public.alerts response)
          = severities_of (total_beds hospital) predictions /\
          Forall (fun alt =>
                    exists latest u,
                      query_latest_record db (id alt) = Some latest /\
                      Public._calculate_utilization
                        (Public._clamp_occupancy
                           (of_int (occupied_beds latest)) (total_beds alt))
                        (total_beds alt) = Ok u /\
                      Spec.classify u = Spec.Low)
                 (Public.alternate_hospitals response)) /\
    (forall response,
        Predictions.get_dashboard service_predict_occupancy
          service_generate_alerts db today hospital_id = Ok response ->
        Predictions.d_alerts response = [] ->
        exists hospital latest x,
          query_hospital db hospital_id = Some hospital /\
          query_latest_record db hospital_id = Some latest /\
          occupied_beds latest = Some x /\
          Predictions.d_overall_status response
          = colour_label
              (Spec.classify
                 (inject_Z x / inject_Z (total_beds hospital) * 100))).
Proof.
  intros sp sa db hospital_id days today city.
  split; [exact classify_boundaries|].
  split; [|split; [|split; [|split]]].
  - intros response latest E Hl. unfold Public.get_hospital_availability in E.
    destruct (query_hospital db hospital_id) as [hospital|]; [|discriminate].
    rewrite Hl in E. rewrite calculate_utilization_ok in E. cbn [bind] in E.
    injection E as <-.
    cbn [Public.ha_current_occupied Public.ha_total_beds
         Public.ha_utilization_percentage Public.ha_status].
    split; [apply calculate_utilization_ok | apply availability_status_label].
  - intros response E. unfold Public.get_hospital_forecast in E.
    destruct (query_hospital db hospital_id) as [hospital|]; [|discriminate].
    destruct (len (query_records db hospital_id) =? 0).
    + injection E as <-. constructor.
    + destruct (Public.select_predictions sp _ _ _) as [predictions|e];
        [|discriminate].
      cbn [bind] in E.
      destruct (format_forecast_response_ok predictions (total_beds hospital))
        as (best & occ & Ef & _).
      rewrite Ef in E. cbn [bind] in E. injection E as <-.
      cbn [Public.hf_total_beds Public.hf_forecast fst].
      apply Forall_forall. intros day Hd. apply in_map_iff in Hd.
      destruct Hd as (p & <- & _). unfold day_of.
      cbn [Public.df_predicted_occupancy Public.df_utilization_percentage
           Public.df_risk_level].
      split; [apply calculate_utilization_ok | apply risk_from_utilization_label].
  - intros entries E.
    destruct (compare_hospitals_sorted sp db city entries E)
      as (comparisons & Ef & ->).
    apply (Permutation_Forall (Permutation_sym (sort_desc_perm comparisons))).
    apply (foldM_inversion (Public.compare_step sp db)
             (Forall (fun entry =>
                        Public.hc_risk_level entry
                        = risk_label
                            (Spec.classify
                               (Public.hc_utilization_percentage entry))))
             (query_hospitals db city)) with (s0 := []);
      [|exact Ef|constructor].
    intros h s s1 _ Hs Es.
    destruct (compare_step_inversion sp db s s1 h Es)
      as [->|(entry & latest & -> & _ & _ & _ & _ & _ & _ & Hr)];
      [exact Hs|].
    apply Forall_app. split; [exact Hs|]. constructor; [|constructor].
    rewrite Hr. apply comparison_risk_label.
  - intros response E.
    destruct (get_hospital_alerts_inv sp db hospital_id response E)
      as (hospital & predictions & st & Hq & Hs & Hf & Ha & Halt).
    destruct (alerts_loop_closed _ _ _ _ Hf) as [H1 _]. cbn [fst app] in H1.
    exists hospital, predictions.
    split; [exact Hq|]. split; [exact Hs|].
    split; [rewrite Ha, H1; apply severities_of_alerts|].
    destruct (snd st || (3 <=? len (fst st))).
    + destruct (alternates_loop_spec db _ [] _ Halt) as (added & Eres & _ & Hall).
      cbn [app] in Eres. subst added.
      apply Forall_forall. intros alt Hin.
      destruct (Hall alt Hin) as (_ & latest & Hl & Hu).
      exists latest. eexists. split; [exact Hl|].
      split; [apply calculate_utilization_ok|].
      now apply classify_boundaries.
    + injection Halt as <-. constructor.
  - intros response E Hnil.
    destruct (get_dashboard_inversion sp sa db today hospital_id response E)
      as (hospital & latest & x & Hq & Hl & Hx & _ & _ & _ & _ & Hstatus).
    exists hospital, latest, x.
    split; [exact Hq|]. split; [exact Hl|]. split; [exact Hx|].
    rewrite Hstatus, Hnil. apply overall_status_label.
Qed.

(** A 100-bed hospital at exactly 85 beds and one at exactly 70 beds: the
    boundary values belong to the higher tier on the availability
    endpoint and on a dashboard without alerts. *)
Lemma risk_tiers_on_endpoints_witness :
  let no_alerts :=
    fun (_ : list Prediction) (_ : Z) (_ : string) => Ok (@nil AlertItem) in
  let db :=
    storage_of
      [(mkHospital 1 "General" "Pune" 100 10, series 0 [85]);
       (mkHospital 2 "North" "Pune" 100 10, series 0 [70])] in
  (exists a d,
      Public.get_hospital_availability db 1 = Ok a /\
      Public.ha_status a = "high"%string /\
      Predictions.get_dashboard failing_service no_alerts db 0 1 = Ok d /\
      Predictions.d_overall_status d = "red"%string) /\
  (exists a d,
      Public.get_hospital_availability db 2 = Ok a /\
      Public.ha_status a = "moderate"%string /\
      Predictions.get_dashboard failing_service no_alerts db 0 2 = Ok d /\
      Predictions.d_overall_status d = "yellow"%string).
Proof.
  intros no_alerts db.
  assert (W : forall hospital_id latest,
    query_latest_record db hospital_id = Some latest ->
    forall a d,
      Public.get_hospital_availability db hospital_id = Ok a ->
      Predictions.get_dashboard failing_service no_alerts db 0 hospital_id
      = Ok d ->
      Predictions.d_alerts d = [] ->
      Public.ha_status a
      = status_label (Spec.classify (Public.ha_utilization_percentage a)) /\
      exists hospital x,
        query_hospital db hospital_id = Some hospital /\
        occupied_beds latest = Some x /\
        Predictions.d_overall_status d
        = colour_label
            (Spec.classify
               (inject_Z x / inject_Z (total_beds hospital) * 100))).
  { intros hospital_id latest Hl a d Ea Ed Hnil.
    destruct (risk_tiers_on_endpoints failing_service no_alerts db
                hospital_id 7 0 None) as (_ & Hav & _ & _ & _ & Hdash).
    split; [exact (proj2 (Hav a latest Ea Hl))|].
    destruct (Hdash d Ed Hnil) as (h & l & x & Hq & Hl' & Hx & Hst).
    rewrite Hl in Hl'. injection Hl' as <-.
    now exists h, x. }
  split.
  - destruct (Public.get_hospital_availability db 1) as [a|e] eqn:Ea;
      [|vm_compute in Ea; discriminate].
    destruct (Predictions.get_dashboard failing_service no_alerts db 0 1)
      as [d|e] eqn:Ed; [|vm_compute in Ed; discriminate].
    destruct (W 1 (mkEHR 0 (Some 85)) eq_refl a d Ea Ed)
      as (Hs & h & x & Hq & Hx & Hd);
      [vm_compute in Ed; injection Ed as <-; reflexivity|].
    vm_compute in Hq. injection Hq as <-. injection Hx as <-.
    exists a, d. split; [reflexivity|].
    split; [rewrite Hs; vm_compute in Ea; injection Ea as <-; reflexivity|].
    split; [reflexivity|]. rewrite Hd. reflexivity.
  - destruct (Public.get_hospital_availability db 2) as [a|e] eqn:Ea;
      [|vm_compute in Ea; discriminate].
    destruct (Predictions.get_dashboard failing_service no_alerts db 0 2)
      as [d|e] eqn:Ed; [|vm_compute in Ed; discriminate].
    destruct (W 2 (mkEHR 0 (Some 70)) eq_refl a d Ea Ed)
      as (Hs & h & x & Hq & Hx & Hd);
      [vm_compute in Ed; injection Ed as <-; reflexivity|].
    vm_compute in Hq. injection Hq as <-. injection Hx as <-.
    exists a, d. split; [reflexivity|].
    split; [rewrite Hs; vm_compute in Ea; injection Ea as <-; reflexivity|].
    split; [reflexivity|]. rewrite Hd. reflexivity.
Defined.

(** ** The status of a dashboard *)




(** ** The forecast and the alerts of a dashboard *)

(** X23. Every dashboard that is answered is coherent: the hospital has
    a latest record with an occupancy, which is the current occupancy
    shown, and a non-zero capacity; the forecast shown is either the
    model's forecast (possible only from 14 records on) or the 7-day
    admin fallback forecast; the alerts shown are the ones alert
    generation returns for the forecast shown, also when the dashboard
    fell back after a failure; and the overall status is derived from
    those alerts and the unrounded current utilization. *)
Theorem dashboard_alerts_match_forecast :
  forall service_predict_occupancy service_generate_alerts
         (db : Storage) (today hospital_id : Z)
         (response : Predictions.DashboardResponse),
    Predictions.get_dashboard service_predict_occupancy service_generate_alerts
      db today hospital_id = Ok response ->
    exists hospital latest x,
      query_hospital db hospital_id = Some hospital /\
      query_latest_record db hospital_id = Some latest /\
      occupied_beds latest = Some x /\
      total_beds hospital <> 0 /\
      Predictions.d_current_occupied response = Some x /\
      service_generate_alerts (Predictions.d_predictions response)
        (total_beds hospital) (hospital_name hospital)
      = Ok (Predictions.d_alerts response) /\
      ((14 <= len (query_records db hospital_id) /\
        exists model_info,
          service_predict_occupancy (query_records db hospital_id) 7
          = Ok (Predictions.d_predictions response, model_info)) \/
       Predictions._build_fallback_predictions (query_records db hospital_id)
         (total_beds hospital) 7
       = Ok (Predictions.d_predictions response)) /\
      Predictions.d_overall_status response
      = Predictions.overall_status (Predictions.d_alerts response)
          (inject_Z x / inject_Z (total_beds hospital) * 100).
Proof.
  intros sp sa db today hospital_id response E.
  exact (get_dashboard_inversion sp sa db today hospital_id response E).
Qed.

(** Alert generation that refuses a forecast above the capacity: the
    dashboard shows the fallback forecast with the alerts generated for
    it. *)
Lemma dashboard_alerts_match_forecast_witness :
  let hospital := mkHospital 1 "General" "Pune" 100 10 in
  let records :=
    series 0 [50; 51; 52; 53; 54; 55; 56; 57; 58; 59; 60; 61; 62; 63] in
  let db := storage_of [(hospital, records)] in
  let generate_alerts :=
    fun (predictions : list Prediction) (total_beds : Z) (name : string) =>
      if existsb (fun p => match predicted_occupancy p with
                           | Some v => negb (Qle_bool v (inject_Z total_beds))
                           | None => true
                           end) predictions
      then Raise (ServiceError "forecast above capacity")
      else Ok [] in
  exists response,
    Predictions.get_dashboard (constant_service 150) generate_alerts db 20 1
    = Ok response /\
    Predictions._build_fallback_predictions records 100 7
    = Ok (Predictions.d_predictions response) /\
    Predictions.d_alerts response = [].
Proof.
  intros hospital records db generate_alerts.
  destruct (Predictions.get_dashboard (constant_service 150) generate_alerts
              db 20 1) as [response|e] eqn:E; [|vm_compute in E; discriminate].
  destruct (dashboard_alerts_match_forecast (constant_service 150)
              generate_alerts db 20 1 response E)
    as (h & latest & x & Hq & _ & _ & _ & _ & _ & Hsrc & _).
  vm_compute in Hq. injection Hq as <-.
  vm_compute in E. injection E as <-.
  eexists. split; [reflexivity|].
  split; [|reflexivity].
  destruct Hsrc as [(_ & m & Hs)|Hf]; [|exact Hf].
  vm_compute in Hs. discriminate.
Defined.

(** ** The availability endpoint on every hospital *)

(** X20. The availability endpoint answers for every hospital that
    exists, whatever its records and its capacity: the occupancy shown is
    never negative and the utilization lies in [[0, 100]].  A hospital of
    non-positive capacity that has a record is shown with no available
    bed, utilization 0 and the status ["available"]. *)
Theorem availability_always_answers :
  forall (db : Storage) (hospital_id : Z) (hospital : Hospital),
    query_hospital db hospital_id = Some hospital ->
    exists response,
      Public.get_hospital_availability db hospital_id = Ok response /\
      Public.ha_hospital_id response = id hospital /\
      Public.ha_total_beds response = total_beds hospital /\
      0 <= Public.ha_current_occupied response /\
      (0 <= Public.ha_utilization_percentage response <= 100)%Q /\
      (total_beds hospital <= 0 ->
       query_latest_record db hospital_id <> None ->
       Public.ha_current_available response = 0 /\
       Public.ha_utilization_percentage response = 0%Q /\
       Public.ha_status response = "available"%string).
Proof.
  intros db hospital_id hospital Hq.
  unfold Public.get_hospital_availability. rewrite Hq.
  destruct (query_latest_record db hospital_id) as [latest|].
  - rewrite calculate_utilization_ok. cbn [bind]. eexists.
    split; [reflexivity|].
    cbn [Public.ha_hospital_id Public.ha_total_beds Public.ha_current_occupied
         Public.ha_current_available Public.ha_utilization_percentage
         Public.ha_status].
    pose proof (public_clamp_bounds (of_int (occupied_beds latest))
                  (total_beds hospital)) as [H0 H1].
    split; [reflexivity|]. split; [reflexivity|]. split; [exact H0|].
    split; [apply utilization_of_bounds; assumption|].
    intros Hb _. unfold utilization_of.
    destruct (Z.leb_spec (total_beds hospital) 0); [|lia].
    split; [lia|]. split; reflexivity.
  - eexists. split; [reflexivity|].
    cbn [Public.ha_hospital_id Public.ha_total_beds Public.ha_current_occupied
         Public.ha_current_available Public.ha_utilization_percentage
         Public.ha_status].
    split; [reflexivity|]. split; [reflexivity|]. split; [lia|].
    split; [split; discriminate|].
    intros _ H. now destruct H.
Qed.

(** A hospital recorded with no beds at all and five occupied. *)
Lemma availability_always_answers_witness :
  let db := storage_of [(mkHospital 1 "Annex" "Pune" 0 0, series 0 [5])] in
  exists response,
    Public.get_hospital_availability db 1 = Ok response /\
    Public.ha_current_occupied response = 5 /\
    Public.ha_current_available response = 0 /\
    Public.ha_status response = "available"%string.
Proof.
  intros db.
  destruct (availability_always_answers db 1 (mkHospital 1 "Annex" "Pune" 0 0)
              eq_refl) as (response & E & _ & _ & _ & _ & Hzero).
  exists response. split; [exact E|].
  destruct Hzero as (Hav & _ & Hst); [reflexivity | discriminate |].
  vm_compute in E. injection E as <-.
  split; [reflexivity|]. split; [exact Hav | exact Hst].
Defined.

(** ** The errors of the admin prediction *)

(** X22. The admin [predict] endpoint answers an error only with HTTP 404
    or HTTP 500, and with 404 exactly when the hospital is unknown or has
    no record: whatever goes wrong for a known hospital with records is
    answered 500. *)
Theorem predict_errors_are_404_or_500 :
  forall service_predict_occupancy (db : Storage) (hospital_id days : Z),
    let answer :=
      Predictions.predict_occupancy service_predict_occupancy db hospital_id
        days in
    (forall e, answer = Raise e ->
               e = HTTPException 404 \/ e = HTTPException 500) /\
    (answer = Raise (HTTPException 404) <->
     query_hospital db hospital_id = None \/ query_records db hospital_id = []).
Proof.
  intros sp db hospital_id days answer. subst answer.
  unfold Predictions.predict_occupancy.
  destruct (query_hospital db hospital_id) as [hospital|].
  2:{ split; [intros e E; injection E as <-; now left|].
      split; [now left | reflexivity]. }
  destruct (query_records db hospital_id) as [|r rs] eqn:Er.
  { change (len (@nil EHRRecord) =? 0) with true. cbn iota.
    split; [intros e E; injection E as <-; now left|].
    split; [now right | reflexivity]. }
  assert (E0 : (len (r :: rs) =? 0) = false).
  { apply Z.eqb_neq. unfold len. cbn [List.length]. lia. }
  rewrite E0. unfold try_except.
  match goal with
  | |- context [match ?body with Ok _ => _ | Raise _ => _ end] =>
      destruct body as [response|e0]
  end.
  - split; [discriminate|].
    split; [discriminate | intros [H|H]; discriminate].
  - split; [intros e E; injection E as <-; now right|].
    split; [discriminate | intros [H|H]; discriminate].
Qed.

(** A model that fails on fourteen records, and a hospital id that does
    not exist. *)
Lemma predict_errors_are_404_or_500_witness :
  let db :=
    storage_of
      [(mkHospital 1 "General" "Pune" 100 10,
        series 0 [50; 51; 52; 53; 54; 55; 56; 57; 58; 59; 60; 61; 62; 63])] in
  Predictions.predict_occupancy failing_service db 1 2
  = Raise (HTTPException 500) /\
  Predictions.predict_occupancy failing_service db 2 2
  = Raise (HTTPException 404).
Proof.
  intros db.
  destruct (predict_errors_are_404_or_500 failing_service db 1 2) as [Hcodes _].
  destruct (predict_errors_are_404_or_500 failing_service db 2 2) as [_ H404].
  split.
  - destruct (Predictions.predict_occupancy failing_service db 1 2)
      as [response|e] eqn:E; [vm_compute in E; discriminate|].
    destruct (Hcodes e eq_refl) as [->| ->]; [|reflexivity].
    vm_compute in E. discriminate.
  - apply H404. left. reflexivity.
Defined.
